(** * InvoiceFlow-AI: the four-stage invoice pipeline

    A shallow embedding of the agents under [backend/agents]:
    [nlp_agent.py] (extraction), [fraud_agent.py] (risk scoring over a
    bounded ledger), [policy_agent.py] (compliance) and
    [decision_agent.py] (the final rule ladder).

    Conventions.
    - Python [dict]s with a fixed key set are records; a key holding
      [None] is an [option].
    - [str] values are Rocq [string]s holding the UTF-8 bytes of the text.
      Whitespace ([strip], [split]) is recognised per code point, as
      [str.isspace] does; letter case and digits are those of ASCII.
    - A Python [float] is the rational number ([Q]) it denotes.  Comparisons
      and [%] are exact on floats.  The one inexact computation of the
      agents, the tax percentage [(tax / total) * 100], rounds each operation
      to the nearest binary64 value as the hardware does.  Every weight and
      threshold of the fraud scorer is a multiple of 0.05, and binary
      accumulation of the weights agrees with exact arithmetic on each
      comparison the code makes.
    - [datetime] values are integers counting microseconds.
    - The self-mutating ledger of [FraudAgent] is passed and returned
      explicitly; the wall clock is an argument of each call that reads it.
    - Number formatting, [strptime], the regular-expression engine and the
      spaCy pipeline are library code: they enter as class parameters. *)

From Stdlib Require Import ZArith QArith Qround Qpower Lqa Lia List String Ascii Bool.
From Stdlib Require Import DecimalString.
Import ListNotations.

Open Scope string_scope.
Open Scope Q_scope.

(** ** Python primitives used by the agents *)

Module Py.

(** Truth value of an [Optional[str]]: [None] and [""] are falsy. *)
Definition truthy (o : option string) : bool :=
  match o with
  | Some (String _ _) => true
  | _ => false
  end.

(** Rendering of an [Optional[str]] inside an f-string. *)
Definition str (o : option string) : string :=
  match o with
  | Some s => s
  | None => "None"
  end.

(** [==] on [Optional[str]]. *)
Definition eqb (a b : option string) : bool :=
  match a, b with
  | None, None => true
  | Some x, Some y => String.eqb x y
  | _, _ => false
  end.

(** [str(n)] for an [int]. *)
Definition of_nat (n : nat) : string := NilZero.string_of_uint (Nat.to_uint n).
Definition of_Z (z : Z) : string := NilZero.string_of_int (Z.to_int z).

Definition code (c : ascii) : nat := nat_of_ascii c.

Definition between (lo hi : nat) (c : ascii) : bool :=
  (lo <=? code c)%nat && (code c <=? hi)%nat.

(** The code points of a text held in UTF-8: one chunk of one to four
    bytes per code point, its length read off the lead byte. *)
Fixpoint chars (s : string) : list string :=
  match s with
  | EmptyString => []
  | String a r1 =>
      if (code a <? 192)%nat then String a "" :: chars r1
      else
        match r1 with
        | EmptyString => [String a ""]
        | String b r2 =>
            if (code a <? 224)%nat then String a (String b "") :: chars r2
            else
              match r2 with
              | EmptyString => [String a (String b "")]
              | String c r3 =>
                  if (code a <? 240)%nat then
                    String a (String b (String c "")) :: chars r3
                  else
                    match r3 with
                    | EmptyString => [String a (String b (String c ""))]
                    | String d r4 =>
                        String a (String b (String c (String d ""))) :: chars r4
                    end
              end
        end
  end.

Definition of_bytes (codes : list nat) : string :=
  string_of_list_ascii (map ascii_of_nat codes).

(** The code points for which [str.isspace] holds, in UTF-8: U+0009 to
    U+000D, U+001C to U+0020, U+0085, U+00A0, U+1680, U+2000 to U+200A,
    U+2028, U+2029, U+202F, U+205F and U+3000. *)
Definition whitespace : list string :=
  map of_bytes
      [ [9]; [10]; [11]; [12]; [13]; [28]; [29]; [30]; [31]; [32];
        [194; 133]; [194; 160]; [225; 154; 128];
        [226; 128; 128]; [226; 128; 129]; [226; 128; 130]; [226; 128; 131];
        [226; 128; 132]; [226; 128; 133]; [226; 128; 134]; [226; 128; 135];
        [226; 128; 136]; [226; 128; 137]; [226; 128; 138];
        [226; 128; 168]; [226; 128; 169]; [226; 128; 175];
        [226; 129; 159]; [227; 128; 128] ]%nat.

(** [ch.isspace()] on one code point. *)
Definition isspace (ch : string) : bool := existsb (String.eqb ch) whitespace.

(** The code points left once the leading whitespace is dropped. *)
Fixpoint drop_spaces (cs : list string) : list string :=
  match cs with
  | [] => []
  | c :: r => if isspace c then drop_spaces r else cs
  end.

Definition is_digit (c : ascii) : bool := between 48 57 c.
Definition is_upper (c : ascii) : bool := between 65 90 c.
Definition is_lower (c : ascii) : bool := between 97 122 c.

Fixpoint forallb_str (p : ascii -> bool) (s : string) : bool :=
  match s with
  | EmptyString => true
  | String c r => p c && forallb_str p r
  end.

(** [s.isdigit()]: non-empty and made of digits. *)
Definition isdigit (s : string) : bool :=
  match s with
  | EmptyString => false
  | _ => forallb_str is_digit s
  end.

Definition lower_char (c : ascii) : ascii :=
  if is_upper c then ascii_of_nat (code c + 32) else c.

Fixpoint lower (s : string) : string :=
  match s with
  | EmptyString => EmptyString
  | String c r => String (lower_char c) (lower r)
  end.

(** [needle in hay]. *)
Fixpoint contains (needle hay : string) : bool :=
  String.prefix needle hay ||
  match hay with
  | EmptyString => false
  | String _ r => contains needle r
  end.

(** [sep.join(parts)]. *)
Fixpoint join (sep : string) (parts : list string) : string :=
  match parts with
  | [] => ""
  | [p] => p
  | p :: rest => p ++ sep ++ join sep rest
  end.

(** [s.strip()]: the text without its leading and trailing whitespace. *)
Definition strip (s : string) : string :=
  join "" (rev (drop_spaces (rev (drop_spaces (chars s))))).

(** [s.replace(c, "")] for a one-character [c]. *)
Fixpoint remove_char (c : ascii) (s : string) : string :=
  match s with
  | EmptyString => EmptyString
  | String d r => if Ascii.eqb c d then remove_char c r else String d (remove_char c r)
  end.

(** [s.split(c)] for a one-character separator. *)
Fixpoint split_on (c : ascii) (s : string) : list string :=
  match s with
  | EmptyString => [EmptyString]
  | String d r =>
      match split_on c r with
      | [] => [String d EmptyString]
      | w :: ws => if Ascii.eqb c d then EmptyString :: w :: ws else String d w :: ws
      end
  end.

(** [s.split()]: maximal runs of non-whitespace code points; [word] is the
    run being read. *)
Fixpoint split_runs (cs : list string) (word : string) : list string :=
  match cs with
  | [] => match word with EmptyString => [] | _ => [word] end
  | c :: r =>
      if isspace c then
        match word with
        | EmptyString => split_runs r ""
        | _ => word :: split_runs r ""
        end
      else split_runs r (word ++ c)
  end.

Definition split_ws (s : string) : list string := split_runs (chars s) "".

(** [lst[:n]] and [lst[-n:]]. *)
Definition take {A} (n : nat) (l : list A) : list A := firstn n l.
Definition last_n {A} (n : nat) (l : list A) : list A :=
  skipn (List.length l - n) l.

(** [re.match(r'^[...]+$', s)] for a character class: one or more
    characters of the class, up to the end of the string or up to a single
    final newline (which [$] tolerates). *)
Fixpoint match_class_plus (cls : ascii -> bool) (s : string) : bool :=
  match s with
  | EmptyString => false
  | String c r =>
      cls c &&
      match r with
      | EmptyString => true
      | String "010"%char EmptyString => true
      | _ => match_class_plus cls r
      end
  end.

(** [a % m] on numbers, for a positive modulus. *)
Definition fmod (a m : Q) : Q := a - m * inject_Z (Qfloor (a / m)).

(** [round(x, 2)]: to the nearest hundredth, ties to the even one. *)
Definition round_half_even (x : Q) : Z :=
  let f := Qfloor x in
  let r := x - inject_Z f in
  match Qcompare r (1 # 2) with
  | Lt => f
  | Gt => (f + 1)%Z
  | Eq => if Z.even f then f else (f + 1)%Z
  end.

Definition round2 (x : Q) : Q := inject_Z (round_half_even (x * 100)) / 100.

Definition Qmin (a b : Q) : Q := if Qle_bool a b then a else b.

(** [2 ** e] for an integer exponent of either sign. *)
Definition pow2 (e : Z) : Q := Qpower 2 e.

(** A positive number rounded to 53 significant bits, ties to even: the
    number is scaled by a power of two into [2^52, 2^53), rounded to an
    integer and scaled back.  Below [2^-1022] the scale stays [2^1074]: the
    subnormal numbers are [2^-1074] apart.  A result beyond the largest
    float, where Python holds [inf], stays the large number it is: both
    exceed every bound the agents compare it with. *)
Definition round53 (q : Q) : Q :=
  let e0 := (Z.log2 (Qnum q) - Z.log2 (Zpos (Qden q)))%Z in
  let s0 := (52 - e0)%Z in
  let s1 := if Qle_bool (inject_Z (2 ^ 52)) (q * pow2 s0) then s0 else (s0 + 1)%Z in
  let s := Z.min s1 1074 in
  inject_Z (round_half_even (q * pow2 s)) * pow2 (- s).

(** The binary64 value nearest to a number (the value a Python [float]
    holds for it); a number that is a binary64 value is left as it is. *)
Definition binary64 (q : Q) : Q :=
  match Qcompare q 0 with
  | Eq => 0
  | Gt => round53 q
  | Lt => - round53 (- q)
  end.

(** [a / b] and [a * b] on floats: the exact result, rounded. *)
Definition fdiv (a b : Q) : Q := binary64 (a / b).
Definition fmul (a b : Q) : Q := binary64 (a * b).

Definition geb (a b : Q) : bool := Qle_bool b a.
Definition gtb (a b : Q) : bool := negb (Qle_bool a b).
Definition leb (a b : Q) : bool := Qle_bool a b.
Definition ltb (a b : Q) : bool := negb (Qle_bool b a).

End Py.

(** ** Library functions taken as parameters *)

(** Format specifications applied to numbers inside f-strings. *)
Class PyFormat := {
  fmt_money : Q -> string;    (* format(x, ",.2f") *)
  fmt_2f : Q -> string;       (* format(x, ".2f") *)
  fmt_pct0 : Q -> string      (* format(x, ".0%") *)
}.

(** [datetime.strptime(s, fmt)], [None] standing for [ValueError], and
    [d.strftime(fmt)]; a [datetime] is a count of microseconds. *)
Class PyDatetime := {
  strptime : string -> string -> option Z;
  strftime : Z -> string -> string
}.

(** ** Data model *)

(** The dictionary built by [NLPAgent.extract] and read by the other agents. *)
Record ExtractedInvoice := {
  invoice_number : option string;
  date : option string;
  vendor : option string;
  total_amount : Q;
  currency : string;
  po_number : option string;
  tax_amount : option Q;
  line_items : list string;
  confidence : Q;
  status : string;
  error : option string
}.

(** A value stored under a key of the extraction dictionary. *)
Inductive PyVal :=
| VNone
| VStr (s : string)
| VNum (q : Q)
| VList (l : list string).

(** [data.get(field)]. *)
Definition dict_get (data : ExtractedInvoice) (field : string) : PyVal :=
  let of_str o := match o with Some s => VStr s | None => VNone end in
  if field =? "invoice_number" then of_str (invoice_number data)
  else if field =? "date" then of_str (date data)
  else if field =? "vendor" then of_str (vendor data)
  else if field =? "total_amount" then VNum (total_amount data)
  else if field =? "currency" then VStr (currency data)
  else if field =? "po_number" then of_str (po_number data)
  else if field =? "tax_amount" then
    match tax_amount data with Some t => VNum t | None => VNone end
  else if field =? "line_items" then VList (line_items data)
  else if field =? "confidence" then VNum (confidence data)
  else if field =? "status" then VStr (status data)
  else if field =? "error" then of_str (error data)
  else VNone.

(** [not value or (isinstance(value, (int, float)) and value <= 0)], the
    test both agents use for a missing field. *)
Definition value_missing (v : PyVal) : bool :=
  match v with
  | VNone => true
  | VStr s => negb (Py.truthy (Some s))
  | VNum q => Qeq_bool q 0 || Py.leb q 0
  | VList l => match l with [] => true | _ => false end
  end.

(** ** FraudAgent *)

Module FraudAgent.

(** An element of [self.processed_invoices]. *)
Record LedgerEntry := {
  e_invoice_number : option string;
  e_vendor : option string;
  e_amount : Q;
  e_date : option string;
  e_timestamp : Z
}.

(** The agent's mutable state. *)
Record t := { processed_invoices : list LedgerEntry }.

(** [__init__]. *)
Definition init : t := {| processed_invoices := [] |}.

(** [self.thresholds]. *)
Definition high_amount : Q := 10000.
Definition very_high_amount : Q := 50000.
Definition suspicious_frequency_same_day : nat := 3.
Definition suspicious_frequency_same_hour : nat := 2.
Definition round_amount_min : Q := 1000.
Definition duplicate_check_days : nat := 90.

(** Microseconds in a second; [total_seconds() < n] compares the
    difference of two instants with [n] seconds. *)
Definition second : Z := 1000000.

Record DuplicateCheck := { is_duplicate : bool; dup_message : string }.
Record Check := { suspicious : bool; message : string }.

(** The [for] loop of [_check_duplicate]: the first entry carrying the
    invoice number returns, whatever its vendor. *)
Fixpoint _check_duplicate_loop (entries : list LedgerEntry)
         (invoice_number vendor : option string) : DuplicateCheck :=
  match entries with
  | [] => {| is_duplicate := false; dup_message := "No duplicate found" |}
  | inv :: rest =>
      if Py.eqb (e_invoice_number inv) invoice_number then
        if Py.eqb (e_vendor inv) vendor then
          {| is_duplicate := true;
             dup_message := "Invoice #" ++ Py.str invoice_number
                            ++ " already processed for " ++ Py.str vendor |}
        else
          {| is_duplicate := false;
             dup_message := "Invoice #" ++ Py.str invoice_number
                            ++ " exists for different vendor" |}
      else _check_duplicate_loop rest invoice_number vendor
  end.

Definition _check_duplicate (self : t) (invoice_number vendor : option string)
  : DuplicateCheck :=
  if negb (Py.truthy invoice_number) then
    {| is_duplicate := false; dup_message := "No invoice number to check" |}
  else _check_duplicate_loop (processed_invoices self) invoice_number vendor.

Definition _is_suspicious_round_amount (amount : Q) : bool :=
  if Py.ltb amount round_amount_min then false
  else if Qeq_bool (Py.fmod amount 100) 0 && Py.geb amount 1000 then true
  else false.

(** The counting loop of [_check_vendor_frequency]; the pair is
    [(today_count, recent_count)]. *)
Fixpoint _count_vendor (entries : list LedgerEntry) (vendor : option string)
         (now : Z) (today_count recent_count : nat) : nat * nat :=
  match entries with
  | [] => (today_count, recent_count)
  | inv :: rest =>
      if Py.eqb (e_vendor inv) vendor then
        let time_diff := (now - e_timestamp inv)%Z in
        let today_count :=
          if (time_diff <? 86400 * second)%Z then S today_count else today_count in
        let recent_count :=
          if (time_diff <? 3600 * second)%Z then S recent_count else recent_count in
        _count_vendor rest vendor now today_count recent_count
      else _count_vendor rest vendor now today_count recent_count
  end.

Definition _check_vendor_frequency (self : t) (now : Z)
           (vendor date : option string) : Check :=
  if negb (Py.truthy vendor) then
    {| suspicious := false; message := "No vendor to check" |}
  else
    let '(today_count, recent_count) :=
      _count_vendor (processed_invoices self) vendor now 0 0 in
    if (suspicious_frequency_same_hour <=? recent_count)%nat then
      {| suspicious := true;
         message := "Multiple invoices from " ++ Py.str vendor
                    ++ " within 1 hour (" ++ Py.of_nat (recent_count + 1) ++ " total)" |}
    else if (suspicious_frequency_same_day <=? today_count)%nat then
      {| suspicious := true;
         message := "Multiple invoices from " ++ Py.str vendor
                    ++ " today (" ++ Py.of_nat (today_count + 1) ++ " total)" |}
    else {| suspicious := false; message := "Normal frequency" |}.

Definition critical_fields : list string :=
  ["invoice_number"; "vendor"; "date"; "total_amount"]%list.

Definition _check_missing_fields (data : ExtractedInvoice) : list string :=
  filter (fun field => value_missing (dict_get data field)) critical_fields.

Definition _check_invoice_pattern (invoice_number : option string) : Check :=
  if negb (Py.truthy invoice_number) then
    {| suspicious := false; message := "No invoice number" |}
  else
    let s := Py.str invoice_number in
    if Py.isdigit s && (String.length s <=? 3)%nat then
      {| suspicious := true;
         message := "Suspiciously simple invoice number: " ++ s |}
    else if Py.match_class_plus (Ascii.eqb "0") s
            || Py.match_class_plus (Ascii.eqb "1") s then
      {| suspicious := true;
         message := "Invalid invoice number pattern: " ++ s |}
    else {| suspicious := false; message := "Normal pattern" |}.

(** [True] means the tax figure is consistent (or cannot be judged).  The
    percentage is computed as the interpreter does, on the floats the two
    amounts are held as, each operation rounded. *)
Definition _check_amount_consistency (data : ExtractedInvoice) : bool :=
  let total := total_amount data in
  match tax_amount data with
  | None => true
  | Some tax =>
      if Qeq_bool tax 0 || Py.leb tax 0 then true
      else if Py.gtb total 0 then
        let tax_percentage :=
          Py.fmul (Py.fdiv (Py.binary64 tax) (Py.binary64 total)) 100 in
        if Py.ltb tax_percentage 3 || Py.gtb tax_percentage 25 then false
        else true
      else true
  end.

Definition _get_risk_level (score : Q) : string :=
  if Py.geb score 0.7 then "HIGH"
  else if Py.geb score 0.4 then "MEDIUM"
  else if Py.geb score 0.2 then "LOW"
  else "MINIMAL".

(** [now] is the clock reading taken while the entry is built. *)
Definition _store_invoice (self : t) (now : Z)
           (invoice_number vendor : option string) (amount : Q)
           (date : option string) : t :=
  let appended :=
    (processed_invoices self ++
       [{| e_invoice_number := invoice_number;
           e_vendor := vendor;
           e_amount := amount;
           e_date := date;
           e_timestamp := now |}])%list in
  if (100 <? List.length appended)%nat then
    {| processed_invoices := Py.last_n 100 appended |}
  else {| processed_invoices := appended |}.

Record Details := {
  duplicate_check : DuplicateCheck;
  frequency_check : Check;
  pattern_check : Check
}.

(** The dictionary returned by [detect]. *)
Record FraudAssessment := {
  is_suspicious : bool;
  risk_score : Q;
  risk_level : string;
  flags : list string;
  checks_performed : nat;
  details : Details
}.

(** The accumulators [flags] and [risk_score] of [detect]. *)
Definition Acc : Type := list string * Q.

(** [if fires: flags.append(flag); risk_score += weight]. *)
Definition flag_if (fires : bool) (flag : string) (weight : Q) (acc : Acc) : Acc :=
  if fires then ((fst acc ++ [flag])%list, snd acc + weight) else acc.

Section Checks.
Context `{PyFormat}.
Variable self : t.
Variable extraction_data : ExtractedInvoice.

(** Check 1: duplicate invoice. *)
Definition check_1 (acc : Acc) : Acc :=
  let duplicate_check :=
    _check_duplicate self (invoice_number extraction_data) (vendor extraction_data) in
  flag_if (is_duplicate duplicate_check)
          ("Duplicate invoice: " ++ dup_message duplicate_check) 0.5 acc.

(** Check 2: very high amount, else high amount. *)
Definition check_2 (acc : Acc) : Acc :=
  let amount := total_amount extraction_data in
  if Py.geb amount very_high_amount then
    flag_if true
            ("Very high amount: " ++ currency extraction_data ++ " "
             ++ fmt_money amount ++ " (≥50,000)") 0.3 acc
  else
    flag_if (Py.geb amount high_amount)
            ("High amount: " ++ currency extraction_data ++ " "
             ++ fmt_money amount ++ " (≥10,000)") 0.2 acc.

(** Check 3: suspicious round amount. *)
Definition check_3 (acc : Acc) : Acc :=
  let amount := total_amount extraction_data in
  flag_if (_is_suspicious_round_amount amount)
          ("Suspicious round amount: " ++ currency extraction_data ++ " "
           ++ fmt_money amount) 0.15 acc.

(** Check 4: vendor frequency, read against the clock [now]. *)
Definition check_4 (now : Z) (acc : Acc) : Acc :=
  let frequency_check :=
    _check_vendor_frequency self now (vendor extraction_data) (date extraction_data) in
  flag_if (suspicious frequency_check) (message frequency_check) 0.25 acc.

(** Check 5: missing critical fields. *)
Definition check_5 (acc : Acc) : Acc :=
  let missing_fields := _check_missing_fields extraction_data in
  flag_if (match missing_fields with [] => false | _ => true end)
          ("Missing critical fields: " ++ Py.join ", " missing_fields) 0.2 acc.

(** Check 6: invoice number pattern. *)
Definition check_6 (acc : Acc) : Acc :=
  let pattern_check := _check_invoice_pattern (invoice_number extraction_data) in
  flag_if (suspicious pattern_check) (message pattern_check) 0.1 acc.

(** Check 7: tax against total. *)
Definition check_7 (acc : Acc) : Acc :=
  flag_if (negb (_check_amount_consistency extraction_data))
          "Tax calculation appears inconsistent" 0.1 acc.

(** The seven checks in source order, from empty flags and score 0. *)
Definition run_checks (now : Z) : Acc :=
  check_7 (check_6 (check_5 (check_4 now
    (check_3 (check_2 (check_1 ([], 0))))))).

(** [detect]: [now_check] is the clock read by the frequency check,
    [now_store] the one read when the ledger entry is built.  Returns
    the assessment and the agent with its updated ledger. *)
Definition detect (now_check now_store : Z) : FraudAssessment * t :=
  let invoice_number := invoice_number extraction_data in
  let vendor := vendor extraction_data in
  let amount := total_amount extraction_data in
  let date := date extraction_data in
  let '(flags, risk_score) := run_checks now_check in
  let risk_score := Py.Qmin risk_score 1.0 in
  let is_suspicious := Py.geb risk_score 0.3 in
  let self' := _store_invoice self now_store invoice_number vendor amount date in
  ({| is_suspicious := is_suspicious;
      risk_score := Py.round2 risk_score;
      risk_level := _get_risk_level risk_score;
      flags := match flags with
               | [] => ["No fraud indicators detected"]
               | _ => flags
               end;
      checks_performed := 7;
      details :=
        {| duplicate_check := _check_duplicate self invoice_number vendor;
           frequency_check := _check_vendor_frequency self now_check vendor date;
           pattern_check := _check_invoice_pattern invoice_number |} |},
   self').

End Checks.

End FraudAgent.

(** ** PolicyAgent *)

Module PolicyAgent.

(** [self.approved_vendors]. *)
Definition approved_vendors : list string :=
  [ "Acme Corp"; "ACME Corporation"; "ACMECorporation";
    "TechSolutions Inc"; "Tech Solutions Inc";
    "OfficeSupplies Co"; "Office Supplies Co";
    "GlobalServices Ltd"; "Global Services Ltd";
    "DataSystems Inc"; "Data Systems Inc";
    "CloudTech Solutions"; "Cloud Tech Solutions";
    "Microsoft"; "Google"; "Amazon"; "Adobe" ]%list.

(** [self.spending_limits]; the board tier has no ceiling. *)
Definition limit_auto_approve : Q := 5000.
Definition limit_requires_manager : Q := 10000.
Definition limit_requires_director : Q := 25000.
Definition limit_requires_cfo : Q := 50000.

(** [self.required_fields]. *)
Definition required_basic : list string :=
  ["invoice_number"; "vendor"; "date"; "total_amount"]%list.
Definition required_standard : list string :=
  ["invoice_number"; "vendor"; "date"; "total_amount"; "currency"]%list.
Definition required_international : list string :=
  ["invoice_number"; "vendor"; "date"; "total_amount"; "currency"; "tax_amount"]%list.

(** [self.rules]. *)
Definition max_invoice_age_days : Z := 90.
Definition min_amount : Q := 0.01.
Definition max_amount : Q := 100000.
Definition require_po_above : Q := 1000.

Record VendorCheck := {
  approved : bool;
  v_message : string;
  match_type : option string;
  v_warning : option string;
  suggestion : option string
}.

Record ApprovalCheck := { level : string; approver : string; a_message : string }.
Record AmountCheck := { a_valid : bool; am_message : string }.
Record PoCheck := { po_compliant : bool; po_message : string }.
Record InvoiceCheck := { i_valid : bool; i_message : string }.
Record DateCheck := {
  d_valid : bool;
  d_message : option string;
  d_warning : option string
}.

Definition _check_required_fields (data : ExtractedInvoice) : list string :=
  let amount := total_amount data in
  let required :=
    if Py.gtb amount 10000 then required_international
    else if Py.gtb amount 1000 then required_standard
    else required_basic in
  filter (fun field => value_missing (dict_get data field)) required.

(** First element of a list satisfying a test: a [for] loop that returns
    at the first hit. *)
Definition first_such {A} (p : A -> bool) (l : list A) : option A := find p l.

Definition _check_vendor_approval (vendor : option string) : VendorCheck :=
  if negb (Py.truthy vendor) then
    {| approved := false; v_message := "No vendor name provided";
       match_type := None; v_warning := None; suggestion := None |}
  else
    let v := Py.str vendor in
    let vendor_lower := Py.strip (Py.lower v) in
    match first_such (fun approved => String.eqb (Py.strip v) approved) approved_vendors with
    | Some _ =>
        {| approved := true;
           v_message := "Vendor '" ++ v ++ "' is approved";
           match_type := Some "exact"; v_warning := None; suggestion := None |}
    | None =>
        match first_such
                (fun approved =>
                   let approved_lower := Py.lower approved in
                   Py.contains approved_lower vendor_lower
                   || Py.contains vendor_lower approved_lower)
                approved_vendors with
        | Some approved_name =>
            {| approved := true;
               v_message := "Vendor '" ++ v ++ "' matched approved vendor '"
                            ++ approved_name ++ "'";
               match_type := Some "fuzzy";
               v_warning := Some ("Vendor name '" ++ v ++ "' is similar to '"
                                  ++ approved_name ++ "' - verify exact match");
               suggestion := None |}
        | None =>
            {| approved := false;
               v_message := "Vendor '" ++ v ++ "' is not in approved vendor list";
               match_type := None; v_warning := None;
               suggestion :=
                 Some "Add vendor to approved list or request manual approval" |}
        end
    end.

Section Formatting.
Context `{PyFormat}.

Definition _check_spending_limit (amount : Q) : ApprovalCheck :=
  if Py.leb amount limit_auto_approve then
    {| level := "auto_approve"; approver := "System";
       a_message := "Within auto-approval limit" |}
  else if Py.leb amount limit_requires_manager then
    {| level := "requires_manager"; approver := "Manager";
       a_message := "Amount $" ++ fmt_money amount ++ " requires manager approval" |}
  else if Py.leb amount limit_requires_director then
    {| level := "requires_director"; approver := "Director";
       a_message := "Amount $" ++ fmt_money amount ++ " requires director approval" |}
  else if Py.leb amount limit_requires_cfo then
    {| level := "requires_cfo"; approver := "CFO";
       a_message := "Amount $" ++ fmt_money amount ++ " requires CFO approval" |}
  else
    {| level := "requires_board"; approver := "Board of Directors";
       a_message := "Amount $" ++ fmt_money amount ++ " requires board approval" |}.

Definition _validate_amount (amount : Q) : AmountCheck :=
  if Py.ltb amount min_amount then
    {| a_valid := false;
       am_message := "Amount $" ++ fmt_2f amount ++ " is below minimum ($0.01)" |}
  else if Py.gtb amount max_amount then
    {| a_valid := false;
       am_message := "Amount $" ++ fmt_money amount
                     ++ " exceeds maximum allowed ($100,000)" |}
  else {| a_valid := true; am_message := "Amount is within acceptable range" |}.

Definition _check_po_requirement (amount : Q) (po_number : option string) : PoCheck :=
  if Py.geb amount require_po_above && negb (Py.truthy po_number) then
    {| po_compliant := false;
       po_message := "PO number required for invoices ≥$1,000 (amount: $"
                     ++ fmt_money amount ++ ")" |}
  else {| po_compliant := true; po_message := "PO requirements met" |}.

End Formatting.

(** The character class [[A-Z0-9#-]] under [re.IGNORECASE]. *)
Definition invoice_char (c : ascii) : bool :=
  Py.is_upper c || Py.is_lower c || Py.is_digit c
  || Ascii.eqb c "#" || Ascii.eqb c "-".

(** Unusual characters leave [valid] at [True]: only the message differs. *)
Definition _validate_invoice_format (invoice_number : option string) : InvoiceCheck :=
  if negb (Py.truthy invoice_number) then
    {| i_valid := false; i_message := "Invoice number is missing" |}
  else
    let s := Py.str invoice_number in
    if (String.length s <? 3)%nat then
      {| i_valid := false;
         i_message := "Invoice number '" ++ s ++ "' is too short (minimum 3 characters)" |}
    else if negb (Py.match_class_plus invoice_char s) then
      {| i_valid := true;
         i_message := "Invoice number '" ++ s ++ "' contains unusual characters" |}
    else {| i_valid := true; i_message := "Invoice number format is valid" |}.

Definition date_formats : list string :=
  ["%Y-%m-%d"; "%m/%d/%Y"; "%d/%m/%Y"; "%Y/%m/%d"]%list.

(** The inner [for fmt in ...: try ... break / except: continue]. *)
Fixpoint parse_first `{PyDatetime} (s : string) (fmts : list string) : option Z :=
  match fmts with
  | [] => None
  | fmt :: rest =>
      match strptime s fmt with
      | Some d => Some d
      | None => parse_first s rest
      end
  end.

(** Microseconds in a day; [timedelta.days] is the floor of the quotient. *)
Definition day : Z := 86400000000.

Definition _validate_invoice_date `{PyDatetime} (now : Z) (date : option string)
  : DateCheck :=
  if negb (Py.truthy date) then
    {| d_valid := false; d_message := Some "Invoice date is missing"; d_warning := None |}
  else
    let s := Py.str date in
    match parse_first s date_formats with
    | None =>
        {| d_valid := true; d_message := None;
           d_warning := Some ("Invoice date '" ++ s ++ "' format could not be validated") |}
    | Some invoice_date =>
        let age_days := ((now - invoice_date) / day)%Z in
        if (max_invoice_age_days <? age_days)%Z then
          {| d_valid := false;
             d_message := Some ("Invoice date " ++ s ++ " is " ++ Py.of_Z age_days
                                ++ " days old (max: 90 days)");
             d_warning := None |}
        else if (age_days <? -1)%Z then
          {| d_valid := false;
             d_message := Some ("Invoice date " ++ s ++ " is in the future");
             d_warning := None |}
        else if (30 <? age_days)%Z then
          {| d_valid := true; d_message := None;
             d_warning := Some ("Invoice is " ++ Py.of_Z age_days
                                ++ " days old - verify it hasn't been paid already") |}
        else
          {| d_valid := true;
             d_message := Some ("Invoice date is valid (" ++ Py.of_Z age_days
                                ++ " days old)");
             d_warning := None |}
    end.

Record Details := {
  vendor_check : VendorCheck;
  approval_check : ApprovalCheck;
  amount_check : AmountCheck;
  po_check : PoCheck;
  date_check : DateCheck
}.

(** The dictionary returned by [check_compliance]. *)
Record PolicyAssessment := {
  compliant : bool;
  violations : list string;
  warnings : list string;
  approval_level : string;
  approver_required : string;
  checks_performed : nat;
  details : Details
}.

(** [lst.append(x)] when [fires], on either list. *)
Definition append_if (fires : bool) (x : string) (l : list string) : list string :=
  if fires then (l ++ [x])%list else l.

(** [d['message']] on a date check; the key is set whenever [valid] is
    [False], the only case in which it is read. *)
Definition message_of (o : option string) : string :=
  match o with Some m => m | None => "" end.

Definition allowed_currencies : list string :=
  ["USD"; "EUR"; "GBP"; "CAD"; "AUD"; "JPY"; "INR"]%list.

Section Compliance.
Context `{PyFormat} `{PyDatetime}.
Variable now : Z.
Variable extraction_data : ExtractedInvoice.

(** The warnings contributed by check 6, the invoice-number format: the
    message is appended only when the check reports [valid = False]. *)
Definition check_6_warnings (warnings : list string) : list string :=
  let invoice_check := _validate_invoice_format (invoice_number extraction_data) in
  append_if (negb (i_valid invoice_check)) (i_message invoice_check) warnings.

Definition check_compliance : PolicyAssessment :=
  let violations : list string := [] in
  let warnings : list string := [] in
  let amount := total_amount extraction_data in
  (* Check 1: required fields *)
  let missing_fields := _check_required_fields extraction_data in
  let violations :=
    append_if (match missing_fields with [] => false | _ => true end)
              ("Missing required fields: " ++ Py.join ", " missing_fields) violations in
  (* Check 2: approved vendor *)
  let vendor_check := _check_vendor_approval (vendor extraction_data) in
  let violations :=
    append_if (negb (approved vendor_check)) (v_message vendor_check) violations in
  let warnings :=
    append_if (approved vendor_check && Py.truthy (v_warning vendor_check))
              (message_of (v_warning vendor_check)) warnings in
  (* Check 3: spending limit *)
  let approval_check := _check_spending_limit amount in
  let warnings :=
    append_if (negb (String.eqb (level approval_check) "auto_approve"))
              ("Amount $" ++ fmt_money amount ++ " requires "
               ++ approver approval_check ++ " approval") warnings in
  (* Check 4: amount bounds *)
  let amount_check := _validate_amount amount in
  let violations :=
    append_if (negb (a_valid amount_check)) (am_message amount_check) violations in
  (* Check 5: purchase order *)
  let po_check := _check_po_requirement amount (po_number extraction_data) in
  let violations :=
    append_if (negb (po_compliant po_check)) (po_message po_check) violations in
  (* Check 6: invoice number format *)
  let warnings := check_6_warnings warnings in
  (* Check 7: invoice date *)
  let date_check := _validate_invoice_date now (date extraction_data) in
  let violations :=
    append_if (negb (d_valid date_check)) (message_of (d_message date_check)) violations in
  let warnings :=
    append_if (d_valid date_check && Py.truthy (d_warning date_check))
              (message_of (d_warning date_check)) warnings in
  (* Check 8: currency *)
  let warnings :=
    append_if (negb (existsb (String.eqb (currency extraction_data)) allowed_currencies))
              ("Unusual currency: " ++ currency extraction_data
               ++ " - may need additional review") warnings in
  {| compliant := match violations with [] => true | _ => false end;
     violations := violations;
     warnings := warnings;
     approval_level := level approval_check;
     approver_required := approver approval_check;
     checks_performed := 8;
     details :=
       {| vendor_check := vendor_check;
          approval_check := approval_check;
          amount_check := amount_check;
          po_check := po_check;
          date_check := date_check |} |}.

End Compliance.

End PolicyAgent.

(** ** DecisionAgent *)

Module DecisionAgent.

Import FraudAgent PolicyAgent.

Record Summary := {
  fraud_risk : string;
  policy_status : string;
  approval_required : string;
  s_amount : Q;
  s_vendor : option string
}.

(** The dictionary returned by [decide]; [confidence] is the rule's
    [confidence_score]. *)
Record Decision := {
  decision : string;
  reason : string;
  d_confidence : Q;
  recommendation : string;
  summary : Summary
}.

Section Decide.
Context `{PyFormat}.

Definition _build_recommendation (decision : string) (fraud : FraudAssessment)
           (policy : PolicyAssessment) (extraction : ExtractedInvoice) : string :=
  let parts :=
    if decision =? "APPROVE" then ["✓ Recommended for approval."]%list
    else if decision =? "HOLD" then ["⚠ Recommended to HOLD for manual review."]%list
    else ["✗ Recommended to REJECT."]%list in
  let parts :=
    if is_suspicious fraud then
      (parts ++ [("Fraud concerns: " ++ Py.join ", " (Py.take 2 (flags fraud)))%string])%list
    else parts in
  let parts :=
    if negb (compliant policy) then
      (parts ++ [("Policy issues: " ++ Py.join ", " (Py.take 2 (violations policy)))%string])%list
    else parts in
  let parts :=
    match warnings policy with
    | [] => parts
    | ws => (parts ++ [("Note: " ++ Py.of_nat (List.length ws) ++ " warnings flagged")%string])%list
    end in
  Py.join " " parts.

(** The [if]/[elif] ladder of [decide]: decision, reason, confidence. *)
Definition ladder (extraction_data : ExtractedInvoice) (fraud_results : FraudAssessment)
           (policy_results : PolicyAssessment) : string * string * Q :=
  let fraud_risk := risk_score fraud_results in
  let fraud_level := risk_level fraud_results in
  let is_suspicious := is_suspicious fraud_results in
  let policy_violations := violations policy_results in
  let policy_warnings := warnings policy_results in
  let approval_level := approval_level policy_results in
  let amount := total_amount extraction_data in
  let vendor := Py.str (vendor extraction_data) in
  let confidence := confidence extraction_data in
  if (fraud_level =? "HIGH") || Py.geb fraud_risk 0.7 then
    ("REJECT", "High fraud risk detected (score: " ++ fmt_2f fraud_risk ++ ")", 0.95)
  else if (0 <? List.length policy_violations)%nat then
    ("REJECT", "Policy violations: " ++ Py.join "; " (Py.take 2 policy_violations), 0.90)
  else if (fraud_level =? "MEDIUM") || Py.geb fraud_risk 0.4 then
    ("HOLD", "Medium fraud risk (" ++ fmt_2f fraud_risk ++ ") - requires manual review",
     0.80)
  else if (approval_level =? "requires_cfo") || (approval_level =? "requires_board") then
    ("HOLD", "Amount $" ++ fmt_money amount ++ " requires "
             ++ approver_required policy_results ++ " approval", 0.85)
  else if (2 <? List.length policy_warnings)%nat then
    ("HOLD", "Multiple policy warnings (" ++ Py.of_nat (List.length policy_warnings)
             ++ ") - verify before approval", 0.75)
  else if Py.ltb confidence 0.75 then
    ("HOLD", "Low extraction confidence (" ++ fmt_pct0 confidence
             ++ ") - verify invoice details", 0.70)
  else if approval_level =? "requires_director" then
    ("HOLD", "Amount $" ++ fmt_money amount ++ " requires director approval", 0.85)
  else if approval_level =? "requires_manager" then
    ("APPROVE", "Approved pending manager confirmation (amount: $"
                ++ fmt_money amount ++ ")", 0.80)
  else if (fraud_level =? "LOW") || (is_suspicious && Py.ltb fraud_risk 0.3) then
    ("APPROVE", "Approved with minor fraud flags - monitor " ++ vendor, 0.75)
  else
    ("APPROVE", "All checks passed - invoice from " ++ vendor ++ " for $"
                ++ fmt_money amount, 0.95).

Definition decide (extraction_data : ExtractedInvoice) (fraud_results : FraudAssessment)
           (policy_results : PolicyAssessment) : Decision :=
  let '(decision, reason, confidence_score) :=
    ladder extraction_data fraud_results policy_results in
  {| decision := decision;
     reason := reason;
     d_confidence := confidence_score;
     recommendation :=
       _build_recommendation decision fraud_results policy_results extraction_data;
     summary :=
       {| fraud_risk := risk_level fraud_results;
          policy_status := if compliant policy_results then "Compliant" else "Non-compliant";
          approval_required := approver_required policy_results;
          s_amount := total_amount extraction_data;
          s_vendor := vendor extraction_data |} |}.

End Decide.

End DecisionAgent.

(** ** NLPAgent *)

Module NLPAgent.

(** Exceptions the extraction code could let escape. *)
Inductive Exc := IndexError | ValueError.

Inductive Result (A : Type) :=
| Ok (a : A)
| Raise (e : Exc).
Arguments Ok {A} a.
Arguments Raise {A} e.

Definition bind {A B} (m : Result A) (k : A -> Result B) : Result B :=
  match m with
  | Ok a => k a
  | Raise e => Raise e
  end.

Notation "x <- m ;; k" := (bind m (fun x => k))
  (at level 61, m at next level, right associativity).

(** [try: m except: handler]. *)
Definition try_except {A} (m : Result A) (handler : Result A) : Result A :=
  match m with
  | Ok a => Ok a
  | Raise _ => handler
  end.

(** [s[0]]. *)
Definition getitem0 (s : string) : Result ascii :=
  match s with
  | String c _ => Ok c
  | EmptyString => Raise IndexError
  end.

(** [l[0]]. *)
Definition head0 {A} (l : list A) : Result A :=
  match l with
  | x :: _ => Ok x
  | [] => Raise IndexError
  end.

(** [max(l)] on numbers. *)
Definition py_max (l : list Q) : Result Q :=
  match l with
  | [] => Raise ValueError
  | x :: rest => Ok (fold_left (fun m y => if Py.gtb y m then y else m) rest x)
  end.

(** [re.search(pattern, text, re.IGNORECASE)] as the pair of the match's
    [group(0)] and [group(1)], and [re.findall(pattern, text)] for a
    pattern without capturing groups. *)
Class PyRegex := {
  re_search_i : string -> string -> option (string * string);
  re_findall : string -> string -> list string
}.

(** The spaCy pipeline: the entities of a text, each with its label, in
    document order. *)
Class Spacy := { nlp_ents : string -> list (string * string) }.

(** [float(s)]; [None] stands for [ValueError]. *)
Class PyFloat := { float_of : string -> option Q }.

Definition to_float `{PyFloat} (s : string) : Result Q :=
  match float_of s with
  | Some q => Ok q
  | None => Raise ValueError
  end.

(** [self.patterns]. *)
Definition patterns_invoice_number : list string :=
  [ "Invoice\s*#[\s:]*([A-Z0-9-]+)";
    "Invoice\s*Number[\s:]*([A-Z0-9-]+)";
    "INV[\s#:-]*([A-Z0-9-]+)";
    "#[\s:]*([A-Z0-9]{3,}[-]?[A-Z0-9]*)" ]%list.

Definition patterns_date : list string :=
  [ "\d{1,2}[-/]\d{1,2}[-/]\d{2,4}";
    "\d{4}[-/]\d{1,2}[-/]\d{1,2}";
    "(?:January|February|March|April|May|June|July|August|September|October|November|December)\s+\d{1,2},?\s+\d{4}";
    "(?:Jan|Feb|Mar|Apr|May|Jun|Jul|Aug|Sep|Oct|Nov|Dec)[a-z]*\s+\d{1,2},?\s+\d{4}" ]%list.

Definition pattern_amount : string :=
  "\$?\s*\d{1,3}(?:,\d{3})*(?:\.\d{2})?".

Definition patterns_total : list string :=
  [ "Total\s+Amount\s+Due[\s:]*\$?\s*(\d{1,3}(?:,\d{3})*(?:\.\d{2})?)";
    "(?:Grand\s+)?Total[\s:]+\$?\s*(\d{1,3}(?:,\d{3})*(?:\.\d{2})?)";
    "Amount\s+Due[\s:]*\$?\s*(\d{1,3}(?:,\d{3})*(?:\.\d{2})?)";
    "Balance\s+Due[\s:]*\$?\s*(\d{1,3}(?:,\d{3})*(?:\.\d{2})?)" ]%list.

Definition patterns_po_number : list string :=
  [ "PO\s*#[\s:]*([A-Z0-9-]+)";
    "P\.?O\.?\s*Number[\s:]*([A-Z0-9-]+)";
    "Purchase\s+Order[\s#:]*([A-Z0-9-]+)" ]%list.

Definition pattern_tax : string :=
  "Tax\s*\([^)]+\)[\s:]*\$?\s*(\d{1,3}(?:,\d{3})*(?:\.\d{2})?)".

(** [_empty_result]. *)
Definition _empty_result (reason : string) : ExtractedInvoice :=
  {| invoice_number := None;
     date := None;
     vendor := None;
     total_amount := 0.0;
     currency := "USD";
     po_number := None;
     tax_amount := None;
     line_items := [];
     confidence := 0.0;
     status := "error";
     error := Some reason |}.

Section Extract.
Context `{PyRegex} `{Spacy} `{PyFloat} `{PyDatetime}.

(** First pattern that matches wins; the result is [group(1).strip()]. *)
Fixpoint first_group1 (patterns : list string) (text : string) : option string :=
  match patterns with
  | [] => None
  | pattern :: rest =>
      match re_search_i pattern text with
      | Some (_, g1) => Some (Py.strip g1)
      | None => first_group1 rest text
      end
  end.

Definition _extract_invoice_number (text : string) : option string :=
  first_group1 patterns_invoice_number text.

Definition normalize_formats : list string :=
  ["%m/%d/%Y"; "%d/%m/%Y"; "%Y-%m-%d"; "%m-%d-%Y"; "%B %d, %Y"; "%b %d, %Y"]%list.

(** The format loop of [_extract_date]: the first format that parses
    gives the ISO rendering; when none does the text is returned as it is. *)
Fixpoint normalize_date (date_str : string) (fmts : list string) : string :=
  match fmts with
  | [] => Py.strip date_str
  | fmt :: rest =>
      match strptime (Py.strip date_str) fmt with
      | Some parsed => strftime parsed "%Y-%m-%d"
      | None => normalize_date date_str rest
      end
  end.

Fixpoint _extract_date_loop (patterns : list string) (text : string) : option string :=
  match patterns with
  | [] => None
  | pattern :: rest =>
      match re_search_i pattern text with
      | Some (date_str, _) => Some (normalize_date date_str normalize_formats)
      | None => _extract_date_loop rest text
      end
  end.

Definition _extract_date (text : string) : option string :=
  _extract_date_loop patterns_date text.

Definition org_stopwords : list string :=
  ["invoice"; "bill"; "statement"; "receipt"; "description"; "qty"; "price";
   "total"; "customer"; "client"]%list.

Definition label_words : list string :=
  ["invoice"; "bill"; "statement"; "receipt"; "from"; "to"]%list.

(** [[w for w in words if w and w[0].isupper()]]. *)
Fixpoint cap_words_of (words : list string) : Result (list string) :=
  match words with
  | [] => Ok []
  | w :: rest =>
      keep <- (if Py.truthy (Some w) then
                 c <- getitem0 w ;; Ok (Py.is_upper c)
               else Ok false) ;;
      tail <- cap_words_of rest ;;
      Ok (if keep then w :: tail else tail)
  end.

(** The fallback loop over the first five lines. *)
Fixpoint vendor_fallback (lines : list string) : Result (option string) :=
  match lines with
  | [] => Ok None
  | line :: rest =>
      let line := Py.strip line in
      starts_upper <- (if (5 <? String.length line)%nat then
                         c <- getitem0 line ;; Ok (Py.is_upper c)
                       else Ok false) ;;
      if starts_upper then
        let words := Py.split_ws line in
        cap_words <- cap_words_of words ;;
        if (2 <=? List.length cap_words)%nat && (List.length cap_words <=? 4)%nat
           && (List.length words <=? 5)%nat then
          if negb (existsb (fun word => existsb (String.eqb (Py.lower word)) label_words)
                           words) then Ok (Some line)
          else vendor_fallback rest
        else vendor_fallback rest
      else vendor_fallback rest
  end.

Definition _extract_vendor (text : string) : Result (option string) :=
  let lines := Py.take 15 (Py.split_on "010" text) in
  let first_section := Py.join "
" lines in
  let doc_ents := nlp_ents first_section in
  let orgs :=
    map fst
        (filter (fun ent =>
                   (snd ent =? "ORG")
                   && negb (existsb (fun word => Py.contains word (Py.lower (fst ent)))
                                    org_stopwords))
                doc_ents) in
  match orgs with
  | _ :: _ => o <- head0 orgs ;; Ok (Some (Py.strip o))
  | [] => vendor_fallback (Py.take 5 lines)
  end.

(** [float(...)] inside [try ... except ValueError: continue]. *)
Fixpoint _extract_total_loop (patterns : list string) (text : string) : option Q :=
  match patterns with
  | [] => None
  | pattern :: rest =>
      match re_search_i pattern text with
      | Some (_, g1) =>
          let amount_str := Py.strip (Py.remove_char "$" (Py.remove_char "," g1)) in
          match to_float amount_str with
          | Ok q => Some q
          | Raise _ => _extract_total_loop rest text
          end
      | None => _extract_total_loop rest text
      end
  end.

(** The positive values among the amounts found in the whole text. *)
Fixpoint cleaned_amounts_of (amounts : list string) : list Q :=
  match amounts with
  | [] => []
  | a :: rest =>
      match to_float (Py.strip (Py.remove_char "," (Py.remove_char "$" a))) with
      | Ok cleaned =>
          if Py.gtb cleaned 0 then cleaned :: cleaned_amounts_of rest
          else cleaned_amounts_of rest
      | Raise _ => cleaned_amounts_of rest
      end
  end.

Definition _extract_total (text : string) : Result Q :=
  match _extract_total_loop patterns_total text with
  | Some q => Ok q
  | None =>
      let amounts := re_findall pattern_amount text in
      match amounts with
      | [] => Ok 0.0
      | _ =>
          let cleaned_amounts := cleaned_amounts_of amounts in
          match cleaned_amounts with
          | [] => Ok 0.0
          | _ => py_max cleaned_amounts
          end
      end
  end.

Definition _extract_po_number (text : string) : option string :=
  first_group1 patterns_po_number text.

Definition _extract_tax (text : string) : option Q :=
  match re_search_i pattern_tax text with
  | Some (_, g1) =>
      match try_except (q <- to_float (Py.remove_char "," g1) ;; Ok (Some q)) (Ok None) with
      | Ok r => r
      | Raise _ => None
      end
  | None => None
  end.

Definition _extract_line_items (text : string) : list string := [].

Definition _detect_currency (text : string) : string :=
  if Py.contains "$" text then
    if Py.contains "CAD" text || Py.contains "Canadian" text then "CAD"
    else if Py.contains "AUD" text || Py.contains "Australian" text then "AUD"
    else "USD"
  else if Py.contains "€" text || Py.contains "EUR" text then "EUR"
  else if Py.contains "£" text || Py.contains "GBP" text then "GBP"
  else if Py.contains "¥" text || Py.contains "JPY" text then "JPY"
  else if Py.contains "INR" text || Py.contains "₹" text then "INR"
  else "USD".

Definition _calculate_confidence (inv_num date vendor : option string) (amount : Q) : Q :=
  let score := 0.0 in
  let score := if Py.truthy inv_num then score + 0.25 else score in
  let score := if Py.truthy date then score + 0.25 else score in
  let score := if Py.truthy vendor then score + 0.25 else score in
  let score := if negb (Qeq_bool amount 0) && Py.gtb amount 0 then score + 0.25 else score in
  Py.round2 score.

(** [extract]: the guard on blank text, then every field extractor. *)
Definition extract (raw_text : string) : Result ExtractedInvoice :=
  if negb (Py.truthy (Some raw_text)) || (String.length (Py.strip raw_text) =? 0)%nat then
    Ok (_empty_result "No text to process")
  else
    let invoice_number := _extract_invoice_number raw_text in
    let date := _extract_date raw_text in
    vendor <- _extract_vendor raw_text ;;
    total_amount <- _extract_total raw_text ;;
    let currency := _detect_currency raw_text in
    let po_number := _extract_po_number raw_text in
    let tax_amount := _extract_tax raw_text in
    let line_items := _extract_line_items raw_text in
    let confidence := _calculate_confidence invoice_number date vendor total_amount in
    Ok {| invoice_number := invoice_number;
          date := date;
          vendor := vendor;
          total_amount := total_amount;
          currency := currency;
          po_number := po_number;
          tax_amount := tax_amount;
          line_items := line_items;
          confidence := confidence;
          status := "success";
          error := None |}.

End Extract.

End NLPAgent.

(** ** Orchestrator *)

Module Orchestrator.

(** The dictionary returned by [VisionAgent.process]: the recognised text
    ([""] when recognition failed) with its length and a status. *)
Record VisionResult := {
  raw_text : string;
  char_count : nat;
  v_status : string;
  v_error : option string
}.

(** The dictionary returned by [run_pipeline]. *)
Record PipelineResult := {
  ocr_text : string;
  extraction : ExtractedInvoice;
  fraud : FraudAgent.FraudAssessment;
  policy : PolicyAgent.PolicyAssessment;
  decision : DecisionAgent.Decision
}.

(** The orchestrator owns one agent of each kind; only the fraud agent
    carries state. *)
Record t := { fraud_agent : FraudAgent.t }.

(** [__init__]. *)
Definition init : t := {| fraud_agent := FraudAgent.init |}.

(** [run_pipeline] from the vision result on, without a progress tracker
    (the default): extraction, fraud scoring, policy check, decision, in that
    order.  The three clock readings are those of the frequency check, of the
    ledger entry and of the date check. *)
Definition run_pipeline `{PyFormat} `{PyDatetime} `{NLPAgent.PyRegex} `{NLPAgent.Spacy}
           `{NLPAgent.PyFloat}
           (self : t) (vision_result : VisionResult)
           (now_fraud now_store now_policy : Z)
  : NLPAgent.Result (PipelineResult * t) :=
  NLPAgent.bind (NLPAgent.extract (raw_text vision_result)) (fun extraction_result =>
  let '(fraud_result, fraud_agent') :=
    FraudAgent.detect (fraud_agent self) extraction_result now_fraud now_store in
  let policy_result := PolicyAgent.check_compliance now_policy extraction_result in
  let final_decision :=
    DecisionAgent.decide extraction_result fraud_result policy_result in
  NLPAgent.Ok
    ({| ocr_text := raw_text vision_result;
        extraction := extraction_result;
        fraud := fraud_result;
        policy := policy_result;
        decision := final_decision |},
     {| fraud_agent := fraud_agent' |})).

End Orchestrator.

(** ** Vocabulary of the properties *)

Module Props.

Import FraudAgent.

(** A text is blank when it is empty or made of whitespace only. *)
Definition blank (s : string) : bool := forallb Py.isspace (Py.chars s).

(** A flag is a duplicate indicator when it is the one check 1 appends. *)
Definition duplicate_flag (flag : string) : bool :=
  String.prefix "Duplicate invoice: " flag.

Definition has_duplicate_flag (a : FraudAssessment) : Prop :=
  exists flag, In flag (flags a) /\ duplicate_flag flag = true.

(** The ledger entry [detect] stores for an invoice at clock reading [now]. *)
Definition entry_of (data : ExtractedInvoice) (now : Z) : LedgerEntry :=
  {| e_invoice_number := invoice_number data;
     e_vendor := vendor data;
     e_amount := total_amount data;
     e_date := date data;
     e_timestamp := now |}.

(** An entry is a prior submission of an invoice when both the invoice
    number and the vendor agree. *)
Definition same_invoice (data : ExtractedInvoice) (e : LedgerEntry) : Prop :=
  e_invoice_number e = invoice_number data /\ e_vendor e = vendor data.

(** The tax, as a percentage [p] of the total, lies in the band [3, 25]:
    [p] percent of [total] is [tax]. *)
Definition tax_percentage_in_band (tax total : Q) : Prop :=
  exists p : Q, p * total == 100 * tax /\ 3 <= p /\ p <= 25.

(** The message [_validate_invoice_format] builds for unusual characters. *)
Definition unusual_characters_message (n : string) : string :=
  "Invoice number '" ++ n ++ "' contains unusual characters".

(** An entry counts in a frequency window when it is of the vendor and
    younger than the window at the clock reading [now]. *)
Definition in_window (v : option string) (now window : Z) (e : LedgerEntry) : bool :=
  Py.eqb (e_vendor e) v && (now - e_timestamp e <? window)%Z.

Definition hour : Z := 3600 * second.
Definition day : Z := 86400 * second.

(** The weight a check adds to the score. *)
Definition weight_if (fires : bool) (w : Q) : Q := if fires then w else 0.

(** The score of the checks that read the invoice alone (2, 3, 5, 6, 7). *)
Definition static_weight `{PyFormat} (data : ExtractedInvoice) : Q :=
  snd (check_7 data (check_6 data (check_5 data (check_3 data (check_2 data ([], 0)))))).

(** The score of the checks that read neither the invoice number nor the
    list of missing fields (2, 3, 4, 7). *)
Definition weight_without_number `{PyFormat} (self : FraudAgent.t)
           (data : ExtractedInvoice) (now : Z) : Q :=
  snd (check_7 data (check_4 self data now (check_3 data (check_2 data ([], 0))))).

(** The flag check 5 raises for a list of missing fields. *)
Definition missing_fields_flag (fields : list string) : string :=
  "Missing critical fields: " ++ Py.join ", " fields.

(** Check 7 fires when the consistency test answers [False]. *)
Definition tax_check_fires (data : ExtractedInvoice) : bool :=
  negb (_check_amount_consistency data).

(** The tax as a percentage of the total in double-precision arithmetic:
    both amounts as floats, the quotient rounded, its product with 100
    rounded. *)
Definition float_percentage (tax total : Q) : Q :=
  Py.fmul (Py.fdiv (Py.binary64 tax) (Py.binary64 total)) 100.




(** Scores that are whole multiples of 0.05. *)
Definition on_grid (q : Q) : Prop := exists k : Z, q == inject_Z k / 20.

(** The score of [detect] before rounding: the accumulated weights capped
    at 1.0. *)
Definition capped_score `{PyFormat} (self : FraudAgent.t) (data : ExtractedInvoice)
           (now : Z) : Q :=
  Py.Qmin (snd (run_checks self data now)) 1.0.


(** Two successive scorings of one invoice by one agent: the clock is read
    at [t1] and [t1'] by the first call, at [t2] and [t2'] by the second. *)
Definition detect_twice `{PyFormat} (self : FraudAgent.t) (data : ExtractedInvoice)
           (t1 t1' t2 t2' : Z) : FraudAssessment * FraudAssessment :=
  let '(first, self1) := detect self data t1 t1' in
  let '(second, _) := detect self1 data t2 t2' in
  (first, second).

End Props.

(** ** Instances used by the worked examples *)

Module Sample.

(** Digits of a natural number grouped by thousands. *)
Fixpoint group3 (fuel : nat) (n : N) : string :=
  match fuel with
  | O => NilZero.string_of_uint (N.to_uint n)
  | S fuel' =>
      if (n <? 1000)%N then NilZero.string_of_uint (N.to_uint n)
      else
        let low := (n mod 1000)%N in
        let pad := if (low <? 10)%N then "00" else if (low <? 100)%N then "0" else "" in
        group3 fuel' (n / 1000)%N ++ "," ++ pad ++ NilZero.string_of_uint (N.to_uint low)
  end.

(** Fixed-point rendering with two decimals of a number given in cents. *)
Definition render_cents (grouped : bool) (cents : Z) : string :=
  let a := Z.to_N (Z.abs cents) in
  let whole := (a / 100)%N in
  let frac := (a mod 100)%N in
  (if (cents <? 0)%Z then "-" else "")
  ++ (if grouped then group3 64 whole else NilZero.string_of_uint (N.to_uint whole))
  ++ "." ++ (if (frac <? 10)%N then "0" else "")
  ++ NilZero.string_of_uint (N.to_uint frac).

Definition format : PyFormat :=
  {| fmt_money := fun q => render_cents true (Py.round_half_even (q * 100));
     fmt_2f := fun q => render_cents false (Py.round_half_even (q * 100));
     fmt_pct0 := fun q => Py.of_Z (Py.round_half_even (q * 100)) ++ "%" |}.

(** A submission of invoice INV-2025-001 by Acme Corp. *)
Definition invoice_a : ExtractedInvoice :=
  {| invoice_number := Some "INV-2025-001";
     date := Some "2025-01-15";
     vendor := Some "Acme Corp";
     total_amount := 2345.67;
     currency := "USD";
     po_number := Some "PO-12345";
     tax_amount := Some 234.56;
     line_items := [];
     confidence := 1.0;
     status := "success";
     error := None |}.

(** The same invoice for a round 50,000. *)
Definition invoice_round : ExtractedInvoice :=
  {| invoice_number := Some "INV-2025-001";
     date := Some "2025-01-15";
     vendor := Some "Acme Corp";
     total_amount := 50000;
     currency := "USD";
     po_number := Some "PO-12345";
     tax_amount := None;
     line_items := [];
     confidence := 1.0;
     status := "success";
     error := None |}.

(** One second, one hour and one day of clock time. *)
Definition sec : Z := 1000000.
Definition hour : Z := 3600 * sec.

(** The agent after one scoring of [invoice_round] at clock reading 0. *)
Definition agent_after_round : FraudAgent.t :=
  snd (@FraudAgent.detect format FraudAgent.init invoice_round 0 0).

(** The assessment of a second scoring of [invoice_round], one second
    later: a duplicate of a very high round amount. *)
Definition fraud_high : FraudAgent.FraudAssessment :=
  fst (@FraudAgent.detect format agent_after_round invoice_round sec sec).

(** The policy assessments of [invoice_a] and of [invoice_round], the
    clock reading the day of the invoice date; dates are accepted in ISO
    form only and every one lies on that day. *)
Definition datetime : PyDatetime :=
  {| strptime := fun s fmt => if fmt =? "%Y-%m-%d" then Some 0%Z else None;
     strftime := fun d fmt => "1970-01-01" |}.

Definition policy_a : PolicyAgent.PolicyAssessment :=
  @PolicyAgent.check_compliance format datetime 0 invoice_a.

Definition policy_round : PolicyAgent.PolicyAssessment :=
  @PolicyAgent.check_compliance format datetime 0 invoice_round.

(** The invoice number of [invoice_a] under another vendor. *)
Definition invoice_other_vendor : ExtractedInvoice :=
  {| invoice_number := Some "INV-2025-001";
     date := Some "2025-01-15";
     vendor := Some "Globex Ltd";
     total_amount := 980.00;
     currency := "USD";
     po_number := None;
     tax_amount := None;
     line_items := [];
     confidence := 1.0;
     status := "success";
     error := None |}.

(** An invoice of Acme Corp on which no invoice number was found. *)
Definition invoice_no_number : ExtractedInvoice :=
  {| invoice_number := None;
     date := Some "2025-01-15";
     vendor := Some "Acme Corp";
     total_amount := 2345.67;
     currency := "USD";
     po_number := Some "PO-12345";
     tax_amount := Some 234.56;
     line_items := [];
     confidence := 0.75;
     status := "success";
     error := None |}.

(** An invoice whose tax is three percent of its total to the cent. *)
Definition invoice_tax_on_edge : ExtractedInvoice :=
  {| invoice_number := Some "INV-2025-003";
     date := Some "2025-01-15";
     vendor := Some "Acme Corp";
     total_amount := 67;
     currency := "USD";
     po_number := None;
     tax_amount := Some 2.01;
     line_items := [];
     confidence := 0.75;
     status := "success";
     error := None |}.

(** An invoice carrying a tax figure and no total. *)
Definition invoice_tax_no_total : ExtractedInvoice :=
  {| invoice_number := Some "INV-2025-002";
     date := Some "2025-01-15";
     vendor := Some "Acme Corp";
     total_amount := 0;
     currency := "USD";
     po_number := None;
     tax_amount := Some 10;
     line_items := [];
     confidence := 0.75;
     status := "success";
     error := None |}.

(** An invoice whose number holds an underscore and a slash. *)
Definition invoice_unusual : ExtractedInvoice :=
  {| invoice_number := Some "INV_2025/001";
     date := Some "2025-01-15";
     vendor := Some "Acme Corp";
     total_amount := 2345.67;
     currency := "USD";
     po_number := Some "PO-12345";
     tax_amount := Some 234.56;
     line_items := [];
     confidence := 1.0;
     status := "success";
     error := None |}.

(** A round 50,000 invoice on which no date was found. *)
Definition invoice_undated : ExtractedInvoice :=
  {| invoice_number := Some "INV-2025-003";
     date := None;
     vendor := Some "Acme Corp";
     total_amount := 50000;
     currency := "USD";
     po_number := Some "PO-12345";
     tax_amount := None;
     line_items := [];
     confidence := 0.75;
     status := "success";
     error := None |}.

(** Another invoice of Acme Corp. *)
Definition invoice_b : ExtractedInvoice :=
  {| invoice_number := Some "INV-2025-777";
     date := Some "2025-01-14";
     vendor := Some "Acme Corp";
     total_amount := 410.25;
     currency := "USD";
     po_number := None;
     tax_amount := None;
     line_items := [];
     confidence := 1.0;
     status := "success";
     error := None |}.

(** The agent after one scoring of [invoice_b] at clock reading 0. *)
Definition agent_after_b : FraudAgent.t :=
  snd (@FraudAgent.detect format FraudAgent.init invoice_b 0 0).

Definition day : Z := 86400 * sec.

(** The agent after scoring [invoice_b] and then [invoice_tax_no_total],
    both at clock reading 0: two entries of one vendor. *)
Definition agent_busy : FraudAgent.t :=
  snd (@FraudAgent.detect format agent_after_b invoice_tax_no_total 0 0).

End Sample.

(** ** Library instances used by the worked examples of the pipeline *)

Module SampleLibs.

(** An engine that finds no match, a pipeline that finds no entity and a
    number parser that accepts nothing: enough to run the pipeline on a
    document without recognised text. *)
Definition regex : NLPAgent.PyRegex :=
  {| NLPAgent.re_search_i := fun _ _ => None;
     NLPAgent.re_findall := fun _ _ => [] |}.

Definition spacy : NLPAgent.Spacy := {| NLPAgent.nlp_ents := fun _ => [] |}.

Definition float : NLPAgent.PyFloat := {| NLPAgent.float_of := fun _ => None |}.

(** The vision result of a file on which recognition failed. *)
Definition vision_failed : Orchestrator.VisionResult :=
  {| Orchestrator.raw_text := "";
     Orchestrator.char_count := 0;
     Orchestrator.v_status := "error";
     Orchestrator.v_error := Some "Unsupported file type: .txt" |}.

End SampleLibs.

(** ** Further vocabulary *)

Module Terms.

Import FraudAgent.

(** The sentinel [detect] returns when no check fired. *)
Definition no_indicators : string := "No fraud indicators detected".

(** Accumulators with no flag exactly when the score is still 0. *)
Definition untouched (acc : Acc) : Prop :=
  (fst acc = [] <-> snd acc == 0) /\ 0 <= snd acc.


(** A run of submissions to one agent: each invoice with the two clock
    readings of its scoring. *)
Definition Submission : Type := ExtractedInvoice * Z * Z.

Definition submit `{PyFormat} (self : FraudAgent.t) (s : Submission) : FraudAgent.t :=
  let '(data, now_check, now_store) := s in
  snd (detect self data now_check now_store).

Definition submit_all `{PyFormat} (self : FraudAgent.t) (subs : list Submission)
  : FraudAgent.t :=
  fold_left submit subs self.

Definition entry_of_submission (s : Submission) : LedgerEntry :=
  let '(data, _, now_store) := s in Props.entry_of data now_store.

(** The rank of an approval level in the order of the spending tiers. *)
Definition tier_rank (level : string) : nat :=
  if level =? "auto_approve" then 0
  else if level =? "requires_manager" then 1
  else if level =? "requires_director" then 2
  else if level =? "requires_cfo" then 3
  else 4.

(** The number of critical fields the extractor found. *)
Definition found_fields (inv_num date vendor : option string) (amount : Q) : nat :=
  (if Py.truthy inv_num then 1 else 0)
  + (if Py.truthy date then 1 else 0)
  + (if Py.truthy vendor then 1 else 0)
  + (if Py.gtb amount 0 then 1 else 0).

(** The age in days the date check computes for a parsed date. *)
Definition age_days (now parsed : Z) : Z := ((now - parsed) / PolicyAgent.day)%Z.

End Terms.

(** * Properties *)

(** ** Comparisons on numbers *)

Lemma geb_true (a b : Q) : Py.geb a b = true <-> b <= a.
Proof. unfold Py.geb. apply Qle_bool_iff. Qed.

Lemma geb_false (a b : Q) : Py.geb a b = false <-> a < b.
Proof.
  unfold Py.geb. split; intro Hc.
  - apply Qnot_le_lt. intro Hle. apply Qle_bool_iff in Hle. congruence.
  - destruct (Qle_bool b a) eqn:E; [|reflexivity].
    apply Qle_bool_iff in E. exfalso. exact (Qlt_not_le _ _ Hc E).
Qed.

Lemma leb_true (a b : Q) : Py.leb a b = true <-> a <= b.
Proof. unfold Py.leb. apply Qle_bool_iff. Qed.

Lemma leb_false (a b : Q) : Py.leb a b = false <-> b < a.
Proof. apply (geb_false b a). Qed.

Lemma ltb_true (a b : Q) : Py.ltb a b = true <-> a < b.
Proof.
  unfold Py.ltb. rewrite negb_true_iff. apply (geb_false a b).
Qed.

Lemma ltb_false (a b : Q) : Py.ltb a b = false <-> b <= a.
Proof.
  unfold Py.ltb. rewrite negb_false_iff. apply Qle_bool_iff.
Qed.

Lemma gtb_true (a b : Q) : Py.gtb a b = true <-> b < a.
Proof. apply (ltb_true b a). Qed.

Lemma gtb_false (a b : Q) : Py.gtb a b = false <-> a <= b.
Proof. apply (ltb_false b a). Qed.

Lemma geb_compat (a a' b : Q) : a == a' -> Py.geb a b = Py.geb a' b.
Proof.
  intro E. destruct (Py.geb a' b) eqn:E'.
  - apply geb_true. apply geb_true in E'. rewrite E. exact E'.
  - apply geb_false. apply geb_false in E'. rewrite E. exact E'.
Qed.

Lemma Qmin_le_r (a b : Q) : Py.Qmin a b <= b.
Proof.
  unfold Py.Qmin. destruct (Qle_bool a b) eqn:E.
  - apply Qle_bool_iff. exact E.
  - apply Qle_refl.
Qed.

Lemma Qmin_le_l (a b : Q) : Py.Qmin a b <= a.
Proof.
  unfold Py.Qmin. destruct (Qle_bool a b) eqn:E.
  - apply Qle_refl.
  - apply Qlt_le_weak. apply (geb_false b a). exact E.
Qed.

Lemma Qmin_glb (a b c : Q) : c <= a -> c <= b -> c <= Py.Qmin a b.
Proof. intros Ha Hb. unfold Py.Qmin. destruct (Qle_bool a b); assumption. Qed.

Lemma Qmin_spec (a b : Q) :
  (a <= b /\ Py.Qmin a b = a) \/ (b < a /\ Py.Qmin a b = b).
Proof.
  unfold Py.Qmin. destruct (Qle_bool a b) eqn:E.
  - left. split; [apply Qle_bool_iff; exact E | reflexivity].
  - right. split; [apply (geb_false b a); exact E | reflexivity].
Qed.

(** ** Risk levels *)

Section RiskLevel.
Import FraudAgent.

Lemma risk_level_high (score : Q) : 0.7 <= score -> _get_risk_level score = "HIGH".
Proof.
  intro Hs. unfold _get_risk_level.
  apply geb_true in Hs. rewrite Hs. reflexivity.
Qed.

Lemma risk_level_medium (score : Q) :
  0.4 <= score -> score < 0.7 -> _get_risk_level score = "MEDIUM".
Proof.
  intros Hlo Hhi. unfold _get_risk_level.
  apply geb_false in Hhi. apply geb_true in Hlo. rewrite Hhi, Hlo. reflexivity.
Qed.

Lemma risk_level_low (score : Q) :
  0.2 <= score -> score < 0.4 -> _get_risk_level score = "LOW".
Proof.
  intros Hlo Hhi. unfold _get_risk_level.
  assert (H7 : score < 0.7) by lra.
  apply geb_false in Hhi, H7. apply geb_true in Hlo.
  rewrite H7, Hhi, Hlo. reflexivity.
Qed.

Lemma risk_level_minimal (score : Q) :
  score < 0.2 -> _get_risk_level score = "MINIMAL".
Proof.
  intro Hhi. unfold _get_risk_level.
  assert (H7 : score < 0.7) by lra. assert (H4 : score < 0.4) by lra.
  apply geb_false in Hhi, H7, H4.
  rewrite H7, H4, Hhi. reflexivity.
Qed.

Lemma risk_level_compat (a b : Q) : a == b -> _get_risk_level a = _get_risk_level b.
Proof.
  intro E. unfold _get_risk_level.
  rewrite (geb_compat a b 0.7 E), (geb_compat a b 0.4 E), (geb_compat a b 0.2 E).
  reflexivity.
Qed.

End RiskLevel.

(** ** Rounding and the grid of scores *)

Lemma round_half_even_int (x : Q) (n : Z) :
  x == inject_Z n -> Py.round_half_even x = n.
Proof.
  intro E. unfold Py.round_half_even.
  assert (Hf : Qfloor x = n) by (rewrite E; apply Qfloor_Z).
  rewrite Hf.
  assert (Hc : Qcompare (x - inject_Z n) (1 # 2) = Lt).
  { apply Qlt_alt.
    assert (E0 : x - inject_Z n == 0) by (rewrite E; ring).
    rewrite E0. reflexivity. }
  rewrite Hc. reflexivity.
Qed.

Lemma round2_on_grid (q : Q) : Props.on_grid q -> Py.round2 q == q.
Proof.
  intros [k E]. unfold Py.round2.
  assert (E100 : q * 100 == inject_Z (5 * k)).
  { rewrite E, inject_Z_mult. field. }
  rewrite (round_half_even_int _ _ E100), E, inject_Z_mult. field.
Qed.

Lemma on_grid_plus (a b : Q) : Props.on_grid a -> Props.on_grid b -> Props.on_grid (a + b).
Proof.
  intros [k Ea] [l Eb]. exists (k + l)%Z.
  rewrite Ea, Eb, inject_Z_plus. field.
Qed.

Lemma on_grid_compat (a b : Q) : a == b -> Props.on_grid a -> Props.on_grid b.
Proof. intros E [k Ea]. exists k. rewrite <- E. exact Ea. Qed.

Lemma on_grid_Qmin (a b : Q) : Props.on_grid a -> Props.on_grid b -> Props.on_grid (Py.Qmin a b).
Proof. intros Ha Hb. unfold Py.Qmin. destruct (Qle_bool a b); assumption. Qed.

Ltac grid_const k := exists k; vm_compute; reflexivity.

(** ** The accumulators of [detect] *)

Section Accumulators.
Import FraudAgent.
Context `{PyFormat}.

Lemma flag_if_score (fires : bool) (flag : string) (w : Q) (acc : Acc) :
  snd (flag_if fires flag w acc) = if fires then snd acc + w else snd acc.
Proof. destruct fires; reflexivity. Qed.

Lemma flag_if_flags (fires : bool) (flag : string) (w : Q) (acc : Acc) :
  fst (flag_if fires flag w acc) = if fires then (fst acc ++ [flag])%list else fst acc.
Proof. destruct fires; reflexivity. Qed.

Lemma flag_if_grid (fires : bool) (flag : string) (w : Q) (acc : Acc) :
  Props.on_grid w -> 0 <= w ->
  Props.on_grid (snd acc) /\ 0 <= snd acc ->
  Props.on_grid (snd (flag_if fires flag w acc)) /\ 0 <= snd (flag_if fires flag w acc).
Proof.
  intros Hw Hw0 [Hg H0]. rewrite flag_if_score. destruct fires.
  - split; [apply on_grid_plus; assumption | lra].
  - split; assumption.
Qed.

Lemma check_2_cases (data : ExtractedInvoice) (acc : Acc) :
  exists fires flag w,
    check_2 data acc = flag_if fires flag w acc /\ Props.on_grid w /\ 0 <= w.
Proof.
  unfold check_2. destruct (Py.geb (total_amount data) very_high_amount).
  - do 3 eexists. split; [reflexivity|]. split; [grid_const 6%Z | lra].
  - do 3 eexists. split; [reflexivity|]. split; [grid_const 4%Z | lra].
Qed.

Lemma run_checks_grid (self : t) (data : ExtractedInvoice) (now : Z) :
  Props.on_grid (snd (run_checks self data now)) /\ 0 <= snd (run_checks self data now).
Proof.
  unfold run_checks, check_7, check_6, check_5, check_4, check_3, check_1.
  apply flag_if_grid; [grid_const 2%Z | lra |].
  apply flag_if_grid; [grid_const 2%Z | lra |].
  apply flag_if_grid; [grid_const 4%Z | lra |].
  apply flag_if_grid; [grid_const 5%Z | lra |].
  apply flag_if_grid; [grid_const 3%Z | lra |].
  destruct (check_2_cases data
              (flag_if (is_duplicate (_check_duplicate self (invoice_number data) (vendor data)))
                 ("Duplicate invoice: "
                  ++ dup_message (_check_duplicate self (invoice_number data) (vendor data)))
                 0.5 ([], 0))) as (b & f & w & E & Hw & Hw0).
  rewrite E.
  apply flag_if_grid; [assumption | assumption |].
  apply flag_if_grid; [grid_const 10%Z | lra |].
  split; [grid_const 0%Z | simpl; lra].
Qed.

Lemma detect_risk_score self data t t' :
  risk_score (fst (detect self data t t')) = Py.round2 (Props.capped_score self data t).
Proof. unfold detect, Props.capped_score. destruct (run_checks self data t). reflexivity. Qed.

Lemma detect_is_suspicious self data t t' :
  is_suspicious (fst (detect self data t t')) = Py.geb (Props.capped_score self data t) 0.3.
Proof. unfold detect, Props.capped_score. destruct (run_checks self data t). reflexivity. Qed.

Lemma detect_risk_level self data t t' :
  risk_level (fst (detect self data t t')) = _get_risk_level (Props.capped_score self data t).
Proof. unfold detect, Props.capped_score. destruct (run_checks self data t). reflexivity. Qed.

Lemma detect_flags self data t t' :
  flags (fst (detect self data t t')) =
  match fst (run_checks self data t) with
  | [] => ["No fraud indicators detected"]%list
  | fl => fl
  end.
Proof. unfold detect. destruct (run_checks self data t) as [[|f fl] r]; reflexivity. Qed.

Lemma detect_ledger self data t t' :
  snd (detect self data t t') =
  _store_invoice self t' (invoice_number data) (vendor data) (total_amount data) (date data).
Proof. unfold detect. destruct (run_checks self data t). reflexivity. Qed.

Lemma capped_score_grid self data t :
  Props.on_grid (Props.capped_score self data t)
  /\ 0 <= Props.capped_score self data t /\ Props.capped_score self data t <= 1.
Proof.
  destruct (run_checks_grid self data t) as [Hg H0]. unfold Props.capped_score.
  split; [apply on_grid_Qmin; [assumption | grid_const 20%Z] |].
  split; [apply Qmin_glb; [assumption | lra] |].
  eapply Qle_trans; [apply Qmin_le_r | lra].
Qed.

Lemma detect_risk_score_exact self data t t' :
  risk_score (fst (detect self data t t')) == Props.capped_score self data t.
Proof.
  rewrite detect_risk_score. apply round2_on_grid. apply capped_score_grid.
Qed.

End Accumulators.

(** ** Risk level and suspicion as functions of the score *)

Section ScoreBuckets.
Import FraudAgent.

(** C5. The risk level is the step function of the score with inclusive
    lower bounds 0.7, 0.4 and 0.2 (so 0.2, 0.4 and 0.7 themselves map to
    LOW, MEDIUM and HIGH), for every score and in particular on [0, 1]; and
    every assessment [detect] returns carries a score in [0, 1], the level of
    that score, and [is_suspicious] exactly when the score is at least 0.3. *)
Theorem risk_level_step_function :
  (forall score : Q,
      (0.7 <= score -> _get_risk_level score = "HIGH")
      /\ (0.4 <= score /\ score < 0.7 -> _get_risk_level score = "MEDIUM")
      /\ (0.2 <= score /\ score < 0.4 -> _get_risk_level score = "LOW")
      /\ (score < 0.2 -> _get_risk_level score = "MINIMAL"))
  /\ _get_risk_level 0.2 = "LOW"
  /\ _get_risk_level 0.4 = "MEDIUM"
  /\ _get_risk_level 0.7 = "HIGH"
  /\ (forall (fmt : PyFormat) (self : FraudAgent.t) (data : ExtractedInvoice)
             (now_check now_store : Z),
         let a := fst (detect self data now_check now_store) in
         (0 <= risk_score a /\ risk_score a <= 1)
         /\ risk_level a = _get_risk_level (risk_score a)
         /\ (is_suspicious a = true <-> 0.3 <= risk_score a)).
Proof.
  split; [|split; [|split; [|split]]]; try reflexivity.
  - intro score. repeat split.
    + apply risk_level_high.
    + intros [Hlo Hhi]. apply risk_level_medium; assumption.
    + intros [Hlo Hhi]. apply risk_level_low; assumption.
    + apply risk_level_minimal.
  - intros fmt self data t t' a. subst a.
    pose proof (detect_risk_score_exact self data t t') as E.
    destruct (capped_score_grid self data t) as (_ & H0 & H1).
    split; [rewrite E; split; assumption|].
    split.
    + rewrite detect_risk_level. apply risk_level_compat. symmetry. exact E.
    + rewrite detect_is_suspicious, geb_true, E. reflexivity.
Qed.

End ScoreBuckets.

(** ** The decision ladder *)

Section Ladder.
Import FraudAgent PolicyAgent DecisionAgent.
Context `{PyFormat}.

Lemma decide_decision ext fraud pol :
  decision (decide ext fraud pol) = fst (fst (ladder ext fraud pol)).
Proof. unfold decide. destruct (ladder ext fraud pol) as [[d r] c]. reflexivity. Qed.

Lemma decide_reason ext fraud pol :
  reason (decide ext fraud pol) = snd (fst (ladder ext fraud pol)).
Proof. unfold decide. destruct (ladder ext fraud pol) as [[d r] c]. reflexivity. Qed.

Lemma decide_confidence ext fraud pol :
  d_confidence (decide ext fraud pol) = snd (ladder ext fraud pol).
Proof. unfold decide. destruct (ladder ext fraud pol) as [[d r] c]. reflexivity. Qed.

Lemma ladder_rule_1 ext fraud pol :
  risk_level fraud = "HIGH" \/ 0.7 <= risk_score fraud ->
  ladder ext fraud pol =
  ("REJECT", "High fraud risk detected (score: " ++ fmt_2f (risk_score fraud) ++ ")", 0.95).
Proof.
  intro Hhigh. unfold ladder.
  assert (Hc : (risk_level fraud =? "HIGH") || Py.geb (risk_score fraud) 0.7 = true).
  { destruct Hhigh as [Hl | Hs].
    - rewrite Hl. reflexivity.
    - apply geb_true in Hs. rewrite Hs. apply orb_true_r. }
  rewrite Hc. reflexivity.
Qed.

End Ladder.

Section Precedence.
Import FraudAgent PolicyAgent DecisionAgent.

(** C2. When the fraud assessment has risk level HIGH or a risk score of
    at least 0.7, the decision is REJECT with confidence 0.95, and both are
    the same under any two policy assessments. *)
Theorem high_fraud_always_rejects
        (fmt : PyFormat) (ext : ExtractedInvoice) (fraud : FraudAssessment)
        (policy1 policy2 : PolicyAssessment) :
  risk_level fraud = "HIGH" \/ 0.7 <= risk_score fraud ->
  decision (decide ext fraud policy1) = "REJECT"
  /\ d_confidence (decide ext fraud policy1) = 0.95
  /\ decision (decide ext fraud policy2) = decision (decide ext fraud policy1)
  /\ d_confidence (decide ext fraud policy2) = d_confidence (decide ext fraud policy1).
Proof.
  intro Hhigh.
  rewrite !decide_decision, !decide_confidence.
  rewrite (ladder_rule_1 ext fraud policy1 Hhigh), (ladder_rule_1 ext fraud policy2 Hhigh).
  repeat split.
Qed.

Lemma high_fraud_always_rejects_witness :
  (risk_level Sample.fraud_high = "HIGH" \/ 0.7 <= risk_score Sample.fraud_high)
  /\ decision (@decide Sample.format Sample.invoice_round Sample.fraud_high
                       Sample.policy_a) = "REJECT"
  /\ d_confidence (@decide Sample.format Sample.invoice_round Sample.fraud_high
                           Sample.policy_a) = 0.95
  /\ decision (@decide Sample.format Sample.invoice_round Sample.fraud_high
                       Sample.policy_round)
     = decision (@decide Sample.format Sample.invoice_round Sample.fraud_high
                         Sample.policy_a)
  /\ d_confidence (@decide Sample.format Sample.invoice_round Sample.fraud_high
                           Sample.policy_round)
     = d_confidence (@decide Sample.format Sample.invoice_round Sample.fraud_high
                             Sample.policy_a).
Proof.
  split.
  - left. vm_compute. reflexivity.
  - apply (high_fraud_always_rejects Sample.format Sample.invoice_round Sample.fraud_high
             Sample.policy_a Sample.policy_round).
    left. vm_compute. reflexivity.
Defined.

End Precedence.

Section MinorFlags.
Import FraudAgent PolicyAgent DecisionAgent.

(** The reason string of the ninth clause identifies it: no other clause
    of the ladder produces it. *)
Lemma ladder_monitor_reason `{PyFormat} ext fraud pol :
  snd (fst (ladder ext fraud pol))
  = "Approved with minor fraud flags - monitor " ++ Py.str (vendor ext) ->
  (risk_level fraud =? "LOW") || (is_suspicious fraud && Py.ltb (risk_score fraud) 0.3)
  = true.
Proof.
  unfold ladder.
  repeat match goal with
         | |- context [if ?c then _ else _] => destruct c eqn:?
         end; simpl; intro Hr; try discriminate Hr; reflexivity.
Qed.

(** C10. No assessment returned by [detect] is suspicious with a score
    below 0.3; hence, on such an assessment, the ninth clause of the decision
    ladder (approved with minor fraud flags) fires only at risk level LOW. *)
Theorem suspicious_never_below_threshold
        (fmt : PyFormat) (self : FraudAgent.t) (data : ExtractedInvoice)
        (now_check now_store : Z) :
  let a := fst (detect self data now_check now_store) in
  ~ (is_suspicious a = true /\ risk_score a < 0.3)
  /\ (forall (ext : ExtractedInvoice) (pol : PolicyAssessment),
         reason (decide ext a pol)
         = "Approved with minor fraud flags - monitor " ++ Py.str (vendor ext) ->
         risk_level a = "LOW").
Proof.
  intro a.
  assert (Hnot : ~ (is_suspicious a = true /\ risk_score a < 0.3)).
  { intros [Hs Hlt]. subst a.
    rewrite detect_is_suspicious in Hs. apply geb_true in Hs.
    rewrite detect_risk_score_exact in Hlt. lra. }
  split; [exact Hnot|].
  intros ext pol Hr. rewrite decide_reason in Hr.
  apply ladder_monitor_reason in Hr.
  apply orb_true_iff in Hr. destruct Hr as [Hlow | Hsusp].
  - apply String.eqb_eq. exact Hlow.
  - exfalso. apply Hnot. apply andb_true_iff in Hsusp. destruct Hsusp as [Hs Hlt].
    split; [exact Hs | apply ltb_true; exact Hlt].
Qed.

End MinorFlags.

(** ** The duplicate check *)

Lemma Py_eqb_eq (a b : option string) : Py.eqb a b = true <-> a = b.
Proof.
  destruct a as [x|], b as [y|]; simpl; split; intro E;
    try discriminate; try reflexivity.
  - apply String.eqb_eq in E. congruence.
  - inversion E. apply String.eqb_refl.
Qed.

Lemma Py_eqb_neq (a b : option string) : Py.eqb a b = false <-> a <> b.
Proof.
  split.
  - intros E Hab. apply Py_eqb_eq in Hab. congruence.
  - intro Hne. destruct (Py.eqb a b) eqn:E; [|reflexivity].
    apply Py_eqb_eq in E. contradiction.
Qed.

Section Duplicate.
Import FraudAgent.

(** Entries that do not carry the invoice number are skipped. *)
Lemma duplicate_loop_skip (l1 l2 : list LedgerEntry) (n v : option string) :
  (forall x, In x l1 -> e_invoice_number x <> n) ->
  _check_duplicate_loop (l1 ++ l2) n v = _check_duplicate_loop l2 n v.
Proof.
  induction l1 as [|x l1 IH]; intro Hfresh; [reflexivity|].
  simpl. assert (Hx : Py.eqb (e_invoice_number x) n = false).
  { apply Py_eqb_neq. apply Hfresh. left. reflexivity. }
  rewrite Hx. apply IH. intros y Hy. apply Hfresh. right. exact Hy.
Qed.

(** The loop stops at the first entry carrying the invoice number and
    answers by that entry's vendor alone. *)
Lemma duplicate_loop_first (l1 l2 : list LedgerEntry) (e : LedgerEntry)
      (n v : option string) :
  (forall x, In x l1 -> e_invoice_number x <> n) ->
  e_invoice_number e = n ->
  is_duplicate (_check_duplicate_loop (l1 ++ e :: l2) n v) = Py.eqb (e_vendor e) v.
Proof.
  intros Hfresh Hn. rewrite duplicate_loop_skip by exact Hfresh.
  simpl. assert (He : Py.eqb (e_invoice_number e) n = true) by (apply Py_eqb_eq; exact Hn).
  rewrite He. destruct (Py.eqb (e_vendor e) v); reflexivity.
Qed.

Lemma duplicate_loop_fresh (l : list LedgerEntry) (n v : option string) :
  (forall x, In x l -> e_invoice_number x <> n) ->
  is_duplicate (_check_duplicate_loop l n v) = false.
Proof.
  intro Hfresh. rewrite <- (app_nil_r l), duplicate_loop_skip by exact Hfresh.
  reflexivity.
Qed.

Lemma check_duplicate_absent (self : t) (n v : option string) :
  Py.truthy n = false ->
  _check_duplicate self n v
  = {| is_duplicate := false; dup_message := "No invoice number to check" |}.
Proof. intro Hn. unfold _check_duplicate. rewrite Hn. reflexivity. Qed.

Lemma check_duplicate_present (self : t) (n v : option string) :
  Py.truthy n = true ->
  _check_duplicate self n v = _check_duplicate_loop (processed_invoices self) n v.
Proof. intro Hn. unfold _check_duplicate. rewrite Hn. reflexivity. Qed.

End Duplicate.

(** ** Which flags are duplicate indicators *)

Lemma prefix_append (s x : string) : String.prefix s (s ++ x) = true.
Proof.
  induction s as [|c s IH]; simpl.
  - destruct x; reflexivity.
  - destruct (ascii_dec c c) as [_ | Hne]; [exact IH | contradiction].
Qed.

Section Flags.
Import FraudAgent.
Context `{PyFormat}.

Lemma in_flag_if (fires : bool) (flag x : string) (w : Q) (acc : Acc) :
  In x (fst (flag_if fires flag w acc)) <-> In x (fst acc) \/ (fires = true /\ x = flag).
Proof.
  rewrite flag_if_flags. destruct fires.
  - rewrite in_app_iff. simpl. intuition congruence.
  - intuition congruence.
Qed.

Lemma frequency_message_not_duplicate (self : t) (now : Z) (v d : option string) :
  Props.duplicate_flag (message (_check_vendor_frequency self now v d)) = false.
Proof.
  unfold _check_vendor_frequency.
  destruct (negb (Py.truthy v)); [reflexivity|].
  destruct (_count_vendor (processed_invoices self) v now 0 0) as [today recent].
  destruct (suspicious_frequency_same_hour <=? recent)%nat; [reflexivity|].
  destruct (suspicious_frequency_same_day <=? today)%nat; reflexivity.
Qed.

Lemma pattern_message_not_duplicate (n : option string) :
  Props.duplicate_flag (message (_check_invoice_pattern n)) = false.
Proof.
  unfold _check_invoice_pattern.
  repeat match goal with
         | |- context [if ?c then _ else _] => destruct c
         end; reflexivity.
Qed.

Lemma check_2_flags (data : ExtractedInvoice) (acc : Acc) (x : string) :
  In x (fst (check_2 data acc)) -> Props.duplicate_flag x = true -> In x (fst acc).
Proof.
  unfold check_2.
  destruct (Py.geb (total_amount data) very_high_amount);
    intros Hin Hd; apply in_flag_if in Hin;
    destruct Hin as [Hin | [_ Hx]]; try exact Hin;
    subst x; discriminate Hd.
Qed.

(** The only duplicate indicator [run_checks] can produce is the flag of
    check 1. *)
Lemma run_checks_duplicate_flag (self : t) (data : ExtractedInvoice) (now : Z) (x : string) :
  In x (fst (run_checks self data now)) -> Props.duplicate_flag x = true ->
  is_duplicate (_check_duplicate self (invoice_number data) (vendor data)) = true.
Proof.
  unfold run_checks, check_7, check_6, check_5, check_4, check_3.
  intros Hin Hd.
  apply in_flag_if in Hin. destruct Hin as [Hin | [_ Hx]];
    [| subst x; discriminate Hd].
  apply in_flag_if in Hin. destruct Hin as [Hin | [_ Hx]];
    [| subst x; rewrite pattern_message_not_duplicate in Hd; discriminate Hd].
  apply in_flag_if in Hin. destruct Hin as [Hin | [_ Hx]];
    [| subst x; discriminate Hd].
  apply in_flag_if in Hin. destruct Hin as [Hin | [_ Hx]];
    [| subst x; rewrite frequency_message_not_duplicate in Hd; discriminate Hd].
  apply in_flag_if in Hin. destruct Hin as [Hin | [_ Hx]];
    [| subst x; discriminate Hd].
  apply check_2_flags in Hin; [|exact Hd].
  unfold check_1 in Hin. apply in_flag_if in Hin.
  destruct Hin as [[] | [Hfires _]]. exact Hfires.
Qed.

Lemma run_checks_keeps_first_flag (self : t) (data : ExtractedInvoice) (now : Z) (x : string) :
  In x (fst (check_1 self data ([], 0))) -> In x (fst (run_checks self data now)).
Proof.
  intro Hin. unfold run_checks, check_7, check_6, check_5, check_4, check_3.
  do 5 (apply in_flag_if; left).
  unfold check_2. destruct (Py.geb (total_amount data) very_high_amount);
    apply in_flag_if; left; exact Hin.
Qed.

(** The assessment carries a duplicate indicator exactly when check 1
    found a duplicate. *)
Lemma detect_duplicate_flag_iff (self : t) (data : ExtractedInvoice) (t t' : Z) :
  Props.has_duplicate_flag (fst (detect self data t t'))
  <-> is_duplicate (_check_duplicate self (invoice_number data) (vendor data)) = true.
Proof.
  unfold Props.has_duplicate_flag. rewrite detect_flags. split.
  - intros (x & Hin & Hd).
    destruct (fst (run_checks self data t)) as [|f fl] eqn:E.
    + destruct Hin as [Hx | []]. subst x. discriminate Hd.
    + apply (run_checks_duplicate_flag self data t x); [rewrite E; exact Hin | exact Hd].
  - intro Hdup.
    set (flag := "Duplicate invoice: "
                 ++ dup_message (_check_duplicate self (invoice_number data) (vendor data))).
    assert (Hin : In flag (fst (run_checks self data t))).
    { apply run_checks_keeps_first_flag. unfold check_1. apply in_flag_if.
      right. split; [exact Hdup | reflexivity]. }
    exists flag. split; [|apply prefix_append].
    destruct (fst (run_checks self data t)); [destruct Hin | exact Hin].
Qed.

End Flags.

(** ** Duplicate detection against the ledger *)

Section DuplicateClaims.
Import FraudAgent.

(** C1. The duplicate check misses a prior submission of the same invoice
    number and vendor when an earlier ledger entry carries that number under
    another vendor: after Globex Ltd and then Acme Corp have submitted
    INV-2025-001, a second submission by Acme Corp finds its own entry in the
    ledger, yet the check answers [False], no duplicate flag is raised and
    the score stays 0. *)
Theorem duplicate_masked_by_other_vendor (fmt : PyFormat) :
  let s1 := snd (detect FraudAgent.init Sample.invoice_other_vendor 0 0) in
  let s2 := snd (detect s1 Sample.invoice_a Sample.sec Sample.sec) in
  let third := fst (detect s2 Sample.invoice_a (2 * Sample.sec) (2 * Sample.sec)) in
  (exists e, In e (processed_invoices s2) /\ Props.same_invoice Sample.invoice_a e)
  /\ is_duplicate (duplicate_check (details third)) = false
  /\ dup_message (duplicate_check (details third))
     = "Invoice #INV-2025-001 exists for different vendor"
  /\ ~ Props.has_duplicate_flag third
  /\ risk_score third == 0.
Proof.
  cbv zeta. split; [|split; [|split; [|split]]].
  - exists (Props.entry_of Sample.invoice_a Sample.sec). split.
    + vm_compute. right. left. reflexivity.
    + split; reflexivity.
  - vm_compute. reflexivity.
  - vm_compute. reflexivity.
  - rewrite detect_duplicate_flag_iff. vm_compute. discriminate.
  - vm_compute. reflexivity.
Qed.

End DuplicateClaims.

(** ** The ledger *)

Section Ledger.
Import FraudAgent.

(** [_store_invoice] keeps the last 100 entries of the extended ledger,
    whether or not the length test fires. *)
Lemma store_invoice_last_100 (self : t) (now : Z) (n v : option string) (a : Q)
      (d : option string) :
  processed_invoices (_store_invoice self now n v a d)
  = Py.last_n 100
      (processed_invoices self ++
         [{| e_invoice_number := n; e_vendor := v; e_amount := a;
             e_date := d; e_timestamp := now |}])%list.
Proof.
  unfold _store_invoice.
  destruct (100 <? List.length _)%nat eqn:E; [reflexivity|].
  apply Nat.ltb_ge in E. unfold Py.last_n.
  replace (List.length _ - 100)%nat with 0%nat by lia. reflexivity.
Qed.


Lemma last_n_length {A} (n : nat) (l : list A) :
  List.length (Py.last_n n l) = Nat.min n (List.length l).
Proof. unfold Py.last_n. rewrite length_skipn. lia. Qed.

Lemma last_n_snoc {A} (n : nat) (l : list A) (x : A) :
  (0 < n)%nat ->
  Py.last_n n (l ++ [x]) = (skipn (List.length l + 1 - n) l ++ [x])%list.
Proof.
  intro Hn. unfold Py.last_n. rewrite length_app, skipn_app. cbn [List.length].
  replace (List.length l + 1 - n - List.length l)%nat with 0%nat by lia.
  reflexivity.
Qed.

Lemma last_n_keeps_last {A} (n : nat) (l : list A) (x : A) :
  (0 < n)%nat -> exists kept, Py.last_n n (l ++ [x]) = (kept ++ [x])%list.
Proof. intro Hn. eexists. apply last_n_snoc. exact Hn. Qed.

Lemma in_skipn_in {A} (k : nat) (l : list A) (x : A) : In x (skipn k l) -> In x l.
Proof.
  revert l. induction k as [|k IH]; intro l; [intro Hx; exact Hx|].
  destruct l as [|y l]; [intro Hx; exact Hx|].
  simpl. intro Hx. right. apply IH. exact Hx.
Qed.


Lemma detect_ledger_last_100 `{PyFormat} (self : t) (data : ExtractedInvoice) (t t' : Z) :
  processed_invoices (snd (detect self data t t'))
  = Py.last_n 100 (processed_invoices self ++ [Props.entry_of data t'])%list.
Proof. rewrite detect_ledger. apply store_invoice_last_100. Qed.

Lemma detect_ledger_bound `{PyFormat} (self : t) (data : ExtractedInvoice) (t t' : Z) :
  (List.length (processed_invoices (snd (detect self data t t'))) <= 100)%nat.
Proof. rewrite detect_ledger_last_100, last_n_length. lia. Qed.


End Ledger.

(** ** Rounding to binary64 *)

Section Binary64.





















End Binary64.

(** ** Tax against total *)

Section TaxConsistency.
Import FraudAgent.




(** On the edge of the band the rounding decides: a tax of 2.01 on a total
    of 67.00 is three percent to the cent, the floats give
    2.9999999999999996, and the check fires. *)
Lemma tax_check_fires_on_band_edge :
  Props.tax_percentage_in_band 2.01 67
  /\ Props.float_percentage 2.01 67 == 3 - (1 # 2251799813685248)
  /\ Props.tax_check_fires Sample.invoice_tax_on_edge = true.
Proof.
  split; [|split].
  - exists 3. repeat split; vm_compute; discriminate.
  - vm_compute. reflexivity.
  - vm_compute. reflexivity.
Qed.


End TaxConsistency.

(** ** The invoice-number format check *)

Section InvoiceFormat.
Import PolicyAgent.

Lemma in_append_if (fires : bool) (y x : string) (l : list string) :
  In x (append_if fires y l) <-> In x l \/ (fires = true /\ x = y).
Proof.
  unfold append_if. destruct fires.
  - rewrite in_app_iff. simpl. intuition congruence.
  - intuition congruence.
Qed.

(** From three characters on the format check reports [valid = True],
    whatever the characters. *)
Lemma validate_invoice_format_valid (n : string) :
  (3 <= String.length n)%nat -> i_valid (_validate_invoice_format (Some n)) = true.
Proof.
  intro Hlen. unfold _validate_invoice_format.
  destruct n as [|c n]; [simpl in Hlen; lia|].
  cbn [Py.truthy negb Py.str].
  destruct (String.length (String c n) <? 3)%nat eqn:E.
  - apply Nat.ltb_lt in E. lia.
  - destruct (negb (Py.match_class_plus invoice_char (String c n))); reflexivity.
Qed.

Lemma validate_invoice_format_unusual (n : string) :
  (3 <= String.length n)%nat -> Py.match_class_plus invoice_char n = false ->
  _validate_invoice_format (Some n)
  = {| i_valid := true; i_message := Props.unusual_characters_message n |}.
Proof.
  intros Hlen Hchars. unfold _validate_invoice_format.
  destruct n as [|c n]; [simpl in Hlen; lia|].
  cbn [Py.truthy negb Py.str].
  destruct (String.length (String c n) <? 3)%nat eqn:E.
  - apply Nat.ltb_lt in E. lia.
  - rewrite Hchars. reflexivity.
Qed.

Lemma date_warning_not_unusual `{PyDatetime} (now : Z) (d : option string) (n : string) :
  message_of (d_warning (_validate_invoice_date now d))
  <> Props.unusual_characters_message n.
Proof.
  unfold _validate_invoice_date, Props.unusual_characters_message.
  repeat match goal with
         | |- context [if ?c then _ else _] => destruct c
         | |- context [match parse_first ?s ?f with _ => _ end] => destruct (parse_first s f)
         end; simpl; discriminate.
Qed.

Lemma vendor_warning_not_unusual (v : option string) (n : string) :
  message_of (v_warning (_check_vendor_approval v)) <> Props.unusual_characters_message n.
Proof.
  unfold _check_vendor_approval, Props.unusual_characters_message.
  repeat match goal with
         | |- context [if ?c then _ else _] => destruct c
         | |- context [match first_such ?p ?l with _ => _ end] => destruct (first_such p l)
         end; simpl; discriminate.
Qed.

(** Check 6 appends nothing for a number of three characters or more, and
    no other check words a warning as the unusual-characters message. *)
Lemma format_check_adds_no_warning `{PyFormat} `{PyDatetime}
      (now : Z) (data : ExtractedInvoice) (n : string) :
  invoice_number data = Some n -> (3 <= String.length n)%nat ->
  (forall ws, check_6_warnings data ws = ws)
  /\ ~ In (Props.unusual_characters_message n) (warnings (check_compliance now data)).
Proof.
  intros Hn Hlen.
  assert (H6 : forall ws, check_6_warnings data ws = ws).
  { intro ws. unfold check_6_warnings.
    rewrite Hn, (validate_invoice_format_valid n Hlen). reflexivity. }
  split; [exact H6|].
  unfold check_compliance. cbn [warnings]. rewrite H6.
  intro Hin.
  apply in_append_if in Hin. destruct Hin as [Hin | [_ Hx]]; [|discriminate Hx].
  apply in_append_if in Hin. destruct Hin as [Hin | [_ Hx]];
    [| symmetry in Hx; exact (date_warning_not_unusual now _ n Hx)].
  apply in_append_if in Hin. destruct Hin as [Hin | [_ Hx]]; [|discriminate Hx].
  apply in_append_if in Hin. destruct Hin as [[] | [_ Hx]].
  symmetry in Hx. exact (vendor_warning_not_unusual _ n Hx).
Qed.

(** C3. On the invoice number INV_2025/001 (twelve characters, two of
    them outside the allowed set) the format check builds the
    unusual-characters message but reports [valid = True], so check 6 appends
    nothing and the message is absent from the warnings of the assessment. *)
Theorem unusual_characters_raise_no_warning
        (fmt : PyFormat) (dt : PyDatetime) (now : Z) :
  let n := "INV_2025/001" in
  let data := Sample.invoice_unusual in
  invoice_number data = Some n
  /\ (3 <= String.length n)%nat
  /\ Py.match_class_plus invoice_char n = false
  /\ _validate_invoice_format (invoice_number data)
     = {| i_valid := true;
          i_message := "Invoice number 'INV_2025/001' contains unusual characters" |}
  /\ check_6_warnings data [] = []
  /\ ~ In "Invoice number 'INV_2025/001' contains unusual characters"
         (warnings (check_compliance now data)).
Proof.
  cbv zeta.
  destruct (format_check_adds_no_warning now Sample.invoice_unusual "INV_2025/001"
              eq_refl ltac:(simpl; lia)) as [H6 Hnot].
  split; [reflexivity|].
  split; [simpl; lia|].
  split; [reflexivity|].
  split; [reflexivity|].
  split; [apply H6 | exact Hnot].
Qed.

End InvoiceFormat.

(** ** Extraction *)

Section Blank.

(** A non-empty text starts with a code point, and [chars] goes on with the
    rest of the text. *)
Lemma chars_cases (s : string) :
  s = ""
  \/ exists ch rest,
      ch <> "" /\ s = ch ++ rest /\ Py.chars s = ch :: Py.chars rest
      /\ (String.length rest < String.length s)%nat.
Proof.
  destruct s as [|a r1]; [left; reflexivity | right].
  destruct (Py.code a <? 192)%nat eqn:E1.
  { exists (String a ""), r1. split; [discriminate|]. split; [reflexivity|].
    split; [cbn [Py.chars]; rewrite E1; reflexivity | simpl; lia]. }
  destruct r1 as [|b r2].
  { exists (String a ""), "". split; [discriminate|]. split; [reflexivity|].
    split; [cbn [Py.chars]; rewrite E1; reflexivity | simpl; lia]. }
  destruct (Py.code a <? 224)%nat eqn:E2.
  { exists (String a (String b "")), r2. split; [discriminate|]. split; [reflexivity|].
    split; [cbn [Py.chars]; rewrite E1, E2; reflexivity | simpl; lia]. }
  destruct r2 as [|c r3].
  { exists (String a (String b "")), "". split; [discriminate|]. split; [reflexivity|].
    split; [cbn [Py.chars]; rewrite E1, E2; reflexivity | simpl; lia]. }
  destruct (Py.code a <? 240)%nat eqn:E3.
  { exists (String a (String b (String c ""))), r3.
    split; [discriminate|]. split; [reflexivity|].
    split; [cbn [Py.chars]; rewrite E1, E2, E3; reflexivity | simpl; lia]. }
  destruct r3 as [|d r4].
  { exists (String a (String b (String c ""))), "".
    split; [discriminate|]. split; [reflexivity|].
    split; [cbn [Py.chars]; rewrite E1, E2, E3; reflexivity | simpl; lia]. }
  exists (String a (String b (String c (String d "")))), r4.
  split; [discriminate|]. split; [reflexivity|].
  split; [cbn [Py.chars]; rewrite E1, E2, E3; reflexivity | simpl; lia].
Qed.

Lemma chars_induction (P : string -> Prop) :
  P "" ->
  (forall ch rest, ch <> "" -> Py.chars (ch ++ rest) = ch :: Py.chars rest ->
                   P rest -> P (ch ++ rest)) ->
  forall s, P s.
Proof.
  intros Hnil Hstep s.
  assert (Hlen : forall n s, (String.length s < n)%nat -> P s).
  { induction n as [|n IH]; intros t Ht; [lia|].
    destruct (chars_cases t) as [E | (ch & rest & Hne & E & Ec & Hl)].
    - subst t. exact Hnil.
    - rewrite E. apply Hstep; [exact Hne | rewrite <- E; exact Ec | apply IH; lia]. }
  apply (Hlen (S (String.length s))). lia.
Qed.

Lemma chars_nonempty (s ch : string) : In ch (Py.chars s) -> ch <> "".
Proof.
  revert ch. induction s as [|c rest Hne Ec IH] using chars_induction; intros ch Hin.
  - destruct Hin.
  - rewrite Ec in Hin. destruct Hin as [Hin | Hin]; [subst ch; exact Hne | apply IH; exact Hin].
Qed.

Lemma drop_spaces_blank (cs : list string) :
  forallb Py.isspace cs = true -> Py.drop_spaces cs = [].
Proof.
  induction cs as [|c cs IH]; [reflexivity|].
  cbn [forallb Py.drop_spaces]. intro Hb.
  apply andb_true_iff in Hb. destruct Hb as [Hc Hcs]. rewrite Hc. apply IH. exact Hcs.
Qed.

Lemma drop_spaces_not_blank (cs : list string) :
  forallb Py.isspace cs = false ->
  exists x l, Py.drop_spaces cs = x :: l /\ Py.isspace x = false /\ In x cs.
Proof.
  induction cs as [|c cs IH]; [discriminate|].
  cbn [forallb Py.drop_spaces]. intro Hb.
  destruct (Py.isspace c) eqn:Hc.
  - destruct (IH Hb) as (x & l & E & Hx & Hin).
    exists x, l. split; [exact E|]. split; [exact Hx | right; exact Hin].
  - exists c, cs. split; [reflexivity|]. split; [exact Hc | left; reflexivity].
Qed.

Lemma drop_spaces_keeps_last (l : list string) (x : string) :
  Py.isspace x = false -> exists l', Py.drop_spaces (l ++ [x]) = (l' ++ [x])%list.
Proof.
  intro Hx. induction l as [|c l [l' IH]].
  - exists []. cbn [app Py.drop_spaces]. rewrite Hx. reflexivity.
  - cbn [app Py.drop_spaces]. destruct (Py.isspace c).
    + exists l'. exact IH.
    + exists (c :: l). reflexivity.
Qed.

Lemma join_head_nonempty (x : string) (l : list string) :
  x <> "" -> Py.join "" (x :: l) <> "".
Proof.
  intro Hne. destruct x as [|c x]; [contradiction|].
  cbn [Py.join]. destruct l; discriminate.
Qed.

Lemma strip_blank (s : string) : Props.blank s = true -> Py.strip s = "".
Proof.
  unfold Props.blank, Py.strip. intro Hb. rewrite (drop_spaces_blank _ Hb). reflexivity.
Qed.

Lemma strip_not_blank (s : string) : Props.blank s = false -> Py.strip s <> "".
Proof.
  unfold Props.blank, Py.strip. intro Hb.
  destruct (drop_spaces_not_blank _ Hb) as (x & l & E & Hx & Hin).
  rewrite E. cbn [rev].
  destruct (drop_spaces_keeps_last (rev l) x Hx) as [l' E'].
  rewrite E', rev_app_distr. cbn [rev app].
  apply join_head_nonempty. apply (chars_nonempty s). exact Hin.
Qed.

(** The guard of [extract] fires exactly on blank text. *)
Lemma extract_guard (raw_text : string) :
  negb (Py.truthy (Some raw_text)) || (String.length (Py.strip raw_text) =? 0)%nat
  = Props.blank raw_text.
Proof.
  destruct (Props.blank raw_text) eqn:Hb.
  - rewrite (strip_blank _ Hb). apply orb_true_r.
  - pose proof (strip_not_blank _ Hb) as Hne.
    destruct raw_text as [|c0 r0]; [discriminate Hb|].
    destruct (Py.strip (String c0 r0)); [contradiction | reflexivity].
Qed.

(** A no-break space and an ideographic space are whitespace like the
    ASCII ones: a text made of them is blank, and [strip] removes them. *)
Lemma blank_beyond_ascii :
  Props.blank (Py.of_bytes [194; 160; 32; 227; 128; 128]%nat) = true
  /\ Py.strip (Py.of_bytes [194; 160; 65; 66; 227; 128; 128]%nat) = "AB".
Proof. split; vm_compute; reflexivity. Qed.

End Blank.

Section ExtractTotal.
Import NLPAgent.
Context `{PyRegex} `{Spacy} `{PyFloat} `{PyDatetime}.

Lemma cap_words_of_ok (words : list string) : exists l, cap_words_of words = Ok l.
Proof.
  induction words as [|w words [l IH]]; [exists []; reflexivity|].
  simpl. destruct w as [|c w]; simpl; rewrite IH; simpl; eexists; reflexivity.
Qed.

Lemma vendor_fallback_ok (lines : list string) : exists v, vendor_fallback lines = Ok v.
Proof.
  induction lines as [|line lines [v IH]]; [exists None; reflexivity|].
  simpl. destruct (5 <? String.length (Py.strip line))%nat eqn:Hlen.
  - destruct (Py.strip line) as [|c r] eqn:Eline; [discriminate Hlen|].
    cbn [getitem0 bind]. destruct (Py.is_upper c).
    + destruct (cap_words_of_ok (Py.split_ws (String c r))) as [cw Ecw].
      rewrite Ecw. cbn [bind].
      repeat match goal with
             | |- context [if ?b then _ else _] => destruct b
             end; eexists; first [reflexivity | exact IH].
    + exists v. exact IH.
  - cbn [bind]. exists v. exact IH.
Qed.

Lemma extract_vendor_ok (text : string) : exists v, _extract_vendor text = Ok v.
Proof.
  unfold _extract_vendor.
  match goal with
  | |- context [match ?orgs with [] => _ | _ :: _ => _ end] => destruct orgs
  end.
  - apply vendor_fallback_ok.
  - simpl. eexists. reflexivity.
Qed.

Lemma extract_total_ok (text : string) : exists q, _extract_total text = Ok q.
Proof.
  unfold _extract_total.
  destruct (_extract_total_loop patterns_total text); [eexists; reflexivity|].
  destruct (re_findall pattern_amount text); [eexists; reflexivity|].
  destruct (cleaned_amounts_of _); [|simpl]; eexists; reflexivity.
Qed.

(** C6. [extract] returns a dictionary on every text and raises nothing.
    On blank text (empty, or whitespace only) it is the empty result: no
    invoice number, date, vendor, PO number or tax amount, total and
    confidence 0, no line items, status [error].  On any other text the
    status is [success], the code's name for the ok status. *)
Theorem extract_never_raises (raw_text : string) :
  exists r : ExtractedInvoice,
    extract raw_text = Ok r
    /\ if Props.blank raw_text then
         r = _empty_result "No text to process"
         /\ invoice_number r = None /\ date r = None /\ vendor r = None
         /\ po_number r = None /\ tax_amount r = None
         /\ total_amount r == 0 /\ confidence r == 0
         /\ line_items r = [] /\ status r = "error"
       else status r = "success".
Proof.
  unfold extract. rewrite extract_guard.
  destruct (Props.blank raw_text).
  - eexists. split; [reflexivity|]. repeat split; reflexivity.
  - destruct (extract_vendor_ok raw_text) as [v Ev].
    destruct (extract_total_ok raw_text) as [q Eq].
    rewrite Ev, Eq. cbn [bind]. eexists. split; reflexivity.
Qed.

End ExtractTotal.

(** ** Vendor frequency *)

Section Frequency.
Import FraudAgent.

Lemma count_vendor_filter (l : list LedgerEntry) (v : option string) (now : Z)
      (today recent : nat) :
  _count_vendor l v now today recent
  = ((today + List.length (filter (Props.in_window v now Props.day) l))%nat,
     (recent + List.length (filter (Props.in_window v now Props.hour) l))%nat).
Proof.
  unfold Props.in_window, Props.day, Props.hour.
  revert today recent. induction l as [|e l IH]; intros today recent.
  - cbn [_count_vendor filter List.length]. f_equal; lia.
  - cbn [_count_vendor filter].
    destruct (Py.eqb (e_vendor e) v); cbn [andb]; [|apply IH].
    rewrite IH.
    destruct (now - e_timestamp e <? 86400 * second)%Z,
             (now - e_timestamp e <? 3600 * second)%Z;
      cbn [List.length]; f_equal; lia.
Qed.

Lemma frequency_suspicious (self : t) (now : Z) (v d : option string) :
  suspicious (_check_vendor_frequency self now v d)
  = Py.truthy v
    && ((2 <=? List.length (filter (Props.in_window v now Props.hour)
                                   (processed_invoices self)))%nat
        || (3 <=? List.length (filter (Props.in_window v now Props.day)
                                      (processed_invoices self)))%nat).
Proof.
  unfold _check_vendor_frequency. destruct (Py.truthy v); [|reflexivity].
  rewrite count_vendor_filter. cbn [negb andb Nat.add].
  unfold suspicious_frequency_same_hour, suspicious_frequency_same_day.
  destruct (2 <=? _)%nat; [reflexivity|].
  destruct (3 <=? _)%nat; reflexivity.
Qed.

Lemma filter_length_skipn {A} (p : A -> bool) (k : nat) (l : list A) :
  (List.length (filter p l) <= List.length (filter p (skipn k l)) + k)%nat.
Proof.
  revert l. induction k as [|k IH]; intro l; [simpl; lia|].
  destruct l as [|x l]; [simpl; lia|].
  simpl. specialize (IH l). destruct (p x); simpl; lia.
Qed.

Lemma filter_length_mono {A} (p q : A -> bool) (l : list A) :
  (forall x, In x l -> p x = true -> q x = true) ->
  (List.length (filter p l) <= List.length (filter q l))%nat.
Proof.
  induction l as [|x l IH]; intro Hpq; [simpl; lia|].
  simpl. assert (IH' := IH (fun y Hy => Hpq y (or_intror Hy))).
  destruct (p x) eqn:Ep.
  - rewrite (Hpq x (or_introl eq_refl) Ep). simpl. lia.
  - destruct (q x); simpl; lia.
Qed.


(** Counting in a window after the invoice's own entry has been stored:
    nothing is lost when the entries counted before are still young enough
    and, where storing the entry pushes the oldest one out of a full ledger,
    the new entry is. *)
Lemma window_count_grows (l : list LedgerEntry) (data : ExtractedInvoice)
      (t1 t1' t2 window : Z) :
  (List.length l <= 100)%nat ->
  (List.length l = 100%nat -> (t2 - t1' < window)%Z) ->
  (forall e, In e l -> e_vendor e = vendor data ->
             (t1 - e_timestamp e < window)%Z -> (t2 - e_timestamp e < window)%Z) ->
  (List.length (filter (Props.in_window (vendor data) t1 window) l)
   <= List.length
        (filter (Props.in_window (vendor data) t2 window)
                (Py.last_n 100 (l ++ [Props.entry_of data t1' ])%list)))%nat.
Proof.
  intros Hlen Hnew Hage.
  rewrite last_n_snoc by lia.
  rewrite filter_app, length_app.
  pose proof (filter_length_skipn (Props.in_window (vendor data) t2 window)
                                  (List.length l + 1 - 100) l) as Hskip.
  assert (Hmono : (List.length (filter (Props.in_window (vendor data) t1 window) l)
                   <= List.length (filter (Props.in_window (vendor data) t2 window) l))%nat).
  { apply filter_length_mono. intros e He Hp. unfold Props.in_window in *.
    apply andb_true_iff in Hp. destruct Hp as [Hv Hw].
    apply andb_true_iff. split; [exact Hv|].
    apply Z.ltb_lt. apply Hage; [exact He | apply Py_eqb_eq; exact Hv | apply Z.ltb_lt; exact Hw]. }
  destruct (Nat.eq_dec (List.length l) 100) as [Hfull | Hroom].
  - assert (Hself : Props.in_window (vendor data) t2 window (Props.entry_of data t1') = true).
    { unfold Props.in_window. cbn [Props.entry_of e_vendor e_timestamp].
      apply andb_true_iff. split; [apply Py_eqb_eq; reflexivity|].
      apply Z.ltb_lt. apply Hnew. exact Hfull. }
    cbn [filter]. rewrite Hself. cbn [List.length]. lia.
  - lia.
Qed.

End Frequency.

(** ** Scoring the same invoice twice *)

Section TwiceScored.
Import FraudAgent.
Context `{PyFormat}.

Lemma flag_if_weight (fires : bool) (flag : string) (w : Q) (acc : Acc) :
  snd (flag_if fires flag w acc) == snd acc + Props.weight_if fires w.
Proof. destruct fires; simpl; ring. Qed.

(** The accumulated score splits into the weights of checks 1 and 4, which
    read the ledger, and the weight of the checks that do not. *)
Lemma run_checks_score (self : t) (data : ExtractedInvoice) (now : Z) :
  snd (run_checks self data now)
  == Props.weight_if
       (is_duplicate (_check_duplicate self (invoice_number data) (vendor data))) 0.5
     + Props.weight_if
         (suspicious (_check_vendor_frequency self now (vendor data) (date data))) 0.25
     + Props.static_weight data.
Proof.
  unfold run_checks, Props.static_weight, check_7, check_6, check_5, check_4, check_3,
    check_2, check_1.
  destruct (Py.geb (total_amount data) very_high_amount);
    rewrite !flag_if_weight; cbn [snd]; ring.
Qed.

Lemma detect_twice_first (self : t) (data : ExtractedInvoice) (t1 t1' t2 t2' : Z) :
  fst (Props.detect_twice self data t1 t1' t2 t2') = fst (detect self data t1 t1').
Proof.
  unfold Props.detect_twice.
  destruct (detect self data t1 t1') as [first self1].
  destruct (detect self1 data t2 t2'). reflexivity.
Qed.

Lemma detect_twice_second (self : t) (data : ExtractedInvoice) (t1 t1' t2 t2' : Z) :
  snd (Props.detect_twice self data t1 t1' t2 t2')
  = fst (detect (snd (detect self data t1 t1')) data t2 t2').
Proof.
  unfold Props.detect_twice.
  destruct (detect self data t1 t1') as [first self1]. cbn [snd].
  destruct (detect self1 data t2 t2'). reflexivity.
Qed.

(** With no earlier entry under the invoice number, the second scoring
    meets the entry stored by the first. *)
Lemma second_scoring_is_duplicate (self : t) (data : ExtractedInvoice) (t1 t1' : Z) :
  Py.truthy (invoice_number data) = true ->
  (forall e, In e (processed_invoices self) -> e_invoice_number e <> invoice_number data) ->
  is_duplicate (_check_duplicate (snd (detect self data t1 t1'))
                                 (invoice_number data) (vendor data)) = true.
Proof.
  intros Hn Hfresh. rewrite check_duplicate_present by exact Hn.
  rewrite detect_ledger_last_100, last_n_snoc by lia.
  rewrite duplicate_loop_first.
  - apply Py_eqb_eq. reflexivity.
  - intros x Hx. apply Hfresh. apply in_skipn_in in Hx. exact Hx.
  - reflexivity.
Qed.

(** A frequency alarm raised by the first scoring is raised again by the
    second when no counted entry has aged out of its window in between and,
    if the ledger was full, the second scoring comes within the hour. *)
Lemma frequency_stays_suspicious (self : t) (data : ExtractedInvoice) (t1 t1' t2 : Z) :
  (List.length (processed_invoices self) <= 100)%nat ->
  (List.length (processed_invoices self) = 100%nat -> (t2 - t1' < Props.hour)%Z) ->
  (forall e, In e (processed_invoices self) -> e_vendor e = vendor data ->
             ((t1 - e_timestamp e < Props.hour)%Z -> (t2 - e_timestamp e < Props.hour)%Z)
             /\ ((t1 - e_timestamp e < Props.day)%Z -> (t2 - e_timestamp e < Props.day)%Z)) ->
  suspicious (_check_vendor_frequency self t1 (vendor data) (date data)) = true ->
  suspicious (_check_vendor_frequency (snd (detect self data t1 t1')) t2
                                      (vendor data) (date data)) = true.
Proof.
  intros Hlen Hnew Hage. rewrite !frequency_suspicious, detect_ledger_last_100.
  assert (Hnew_day : List.length (processed_invoices self) = 100%nat
                     -> (t2 - t1' < Props.day)%Z).
  { intro Hfull. specialize (Hnew Hfull). unfold Props.hour, Props.day, second in *. lia. }
  pose proof (window_count_grows (processed_invoices self) data t1 t1' t2 Props.hour
                Hlen Hnew (fun e He Hv => proj1 (Hage e He Hv))) as Hhour.
  pose proof (window_count_grows (processed_invoices self) data t1 t1' t2 Props.day
                Hlen Hnew_day (fun e He Hv => proj2 (Hage e He Hv))) as Hday.
  intro Hs. apply andb_true_iff in Hs. destruct Hs as [Hv Hcount].
  rewrite Hv. cbn [andb]. apply orb_true_iff in Hcount. apply orb_true_iff.
  destruct Hcount as [Hc | Hc]; apply Nat.leb_le in Hc;
    [left | right]; apply Nat.leb_le; lia.
Qed.

End TwiceScored.

Section TwiceScoredClaim.
Import FraudAgent.

(** The claim as worded fails once the cap is reached: a round 50,000
    invoice without a date scores 0.65, and 1.0 when scored again. *)
Lemma second_score_capped :
  Py.truthy (invoice_number Sample.invoice_undated) = true
  /\ Py.truthy (vendor Sample.invoice_undated) = true
  /\ risk_score (fst (@Props.detect_twice Sample.format FraudAgent.init
                         Sample.invoice_undated 0 0 Sample.sec Sample.sec)) == 0.65
  /\ risk_score (snd (@Props.detect_twice Sample.format FraudAgent.init
                         Sample.invoice_undated 0 0 Sample.sec Sample.sec)) == 1
  /\ ~ (risk_score (fst (@Props.detect_twice Sample.format FraudAgent.init
                            Sample.invoice_undated 0 0 Sample.sec Sample.sec)) + 0.5
        <= risk_score (snd (@Props.detect_twice Sample.format FraudAgent.init
                              Sample.invoice_undated 0 0 Sample.sec Sample.sec))).
Proof.
  split; [reflexivity|]. split; [reflexivity|].
  split; [vm_compute; reflexivity|]. split; [vm_compute; reflexivity|].
  vm_compute. intro Hle. apply Hle. reflexivity.
Qed.

(** Nor is the cap the only way: two entries of the vendor stored within
    the hour before the first scoring raise its frequency flag; two days
    later they count no more, and the second score is 0.25 above the
    first. *)
Lemma second_score_after_quiet_days :
  risk_score (fst (@Props.detect_twice Sample.format Sample.agent_busy Sample.invoice_a
                      Sample.sec Sample.sec (2 * Sample.day) (2 * Sample.day))) == 0.25
  /\ risk_score (snd (@Props.detect_twice Sample.format Sample.agent_busy Sample.invoice_a
                         Sample.sec Sample.sec (2 * Sample.day) (2 * Sample.day))) == 0.5.
Proof. split; vm_compute; reflexivity. Qed.

(** And an invoice the ledger already holds is a duplicate at the first
    scoring as at the second: 0.5, then 0.75 with the frequency flag its own
    two entries raise. *)
Lemma second_score_of_known_invoice :
  Props.has_duplicate_flag
    (fst (@Props.detect_twice Sample.format
            (snd (@detect Sample.format FraudAgent.init Sample.invoice_a 0 0))
            Sample.invoice_a Sample.sec Sample.sec (2 * Sample.sec) (2 * Sample.sec)))
  /\ risk_score
       (fst (@Props.detect_twice Sample.format
               (snd (@detect Sample.format FraudAgent.init Sample.invoice_a 0 0))
               Sample.invoice_a Sample.sec Sample.sec (2 * Sample.sec) (2 * Sample.sec)))
     == 0.5
  /\ risk_score
       (snd (@Props.detect_twice Sample.format
               (snd (@detect Sample.format FraudAgent.init Sample.invoice_a 0 0))
               Sample.invoice_a Sample.sec Sample.sec (2 * Sample.sec) (2 * Sample.sec)))
     == 0.75.
Proof.
  split; [|split; vm_compute; reflexivity].
  rewrite detect_twice_first, detect_duplicate_flag_iff. vm_compute. reflexivity.
Qed.

(** C4, amended. An invoice with an invoice number is scored twice in
    succession by one agent whose ledger holds no entry under that number.
    Then the first assessment carries no duplicate flag and the second
    carries one.  The second score is at least the first plus 0.5, capped at
    1.0, exactly when a vendor-frequency flag raised by the first scoring is
    raised again by the second, or the checks that read the invoice alone
    weigh 0.5 or more.  The frequency flag is raised again whenever the
    ledger has at most 100 entries, none of the vendor's entries has left
    the one-hour or the 24-hour window in between and, if the ledger was
    full, the second scoring reads the clock less than an hour after the
    first stored its entry. *)
Theorem second_scoring_flags_duplicate
        (fmt : PyFormat) (self : FraudAgent.t) (data : ExtractedInvoice)
        (t1 t1' t2 t2' : Z) :
  Py.truthy (invoice_number data) = true ->
  (forall e, In e (processed_invoices self) -> e_invoice_number e <> invoice_number data) ->
  let first := fst (Props.detect_twice self data t1 t1' t2 t2') in
  let second := snd (Props.detect_twice self data t1 t1' t2 t2') in
  let alarm1 := suspicious (_check_vendor_frequency self t1 (vendor data) (date data)) in
  let alarm2 :=
    suspicious (_check_vendor_frequency (snd (detect self data t1 t1')) t2
                                        (vendor data) (date data)) in
  ~ Props.has_duplicate_flag first
  /\ Props.has_duplicate_flag second
  /\ (Py.Qmin (risk_score first + 0.5) 1.0 <= risk_score second
      <-> (alarm1 = true -> alarm2 = true \/ 0.5 <= Props.static_weight data))
  /\ ((List.length (processed_invoices self) <= 100)%nat ->
      (List.length (processed_invoices self) = 100%nat -> (t2 - t1' < Props.hour)%Z) ->
      (forall e, In e (processed_invoices self) -> e_vendor e = vendor data ->
          ((t1 - e_timestamp e < Props.hour)%Z -> (t2 - e_timestamp e < Props.hour)%Z)
          /\ ((t1 - e_timestamp e < Props.day)%Z -> (t2 - e_timestamp e < Props.day)%Z)) ->
      alarm1 = true -> alarm2 = true).
Proof.
  intros Hn Hfresh first second alarm1 alarm2. subst first second.
  rewrite detect_twice_first, detect_twice_second.
  set (self1 := snd (detect self data t1 t1')) in *.
  assert (Hdup1 : is_duplicate (_check_duplicate self (invoice_number data) (vendor data))
                  = false).
  { rewrite check_duplicate_present by exact Hn. apply duplicate_loop_fresh. exact Hfresh. }
  assert (Hdup2 : is_duplicate (_check_duplicate self1 (invoice_number data) (vendor data))
                  = true).
  { apply second_scoring_is_duplicate; assumption. }
  split; [rewrite detect_duplicate_flag_iff, Hdup1; discriminate|].
  split; [rewrite detect_duplicate_flag_iff; exact Hdup2|].
  split.
  - pose proof (detect_risk_score_exact self data t1 t1') as R1.
    pose proof (detect_risk_score_exact self1 data t2 t2') as R2.
    unfold Props.capped_score in R1, R2.
    pose proof (run_checks_score self data t1) as E1.
    pose proof (run_checks_score self1 data t2) as E2.
    rewrite Hdup1 in E1. rewrite Hdup2 in E2.
    fold alarm1 in E1. fold alarm2 in E2.
    unfold Props.weight_if in E1, E2.
    set (x1 := risk_score (fst (detect self data t1 t1'))) in *.
    set (x2 := risk_score (fst (detect self1 data t2 t2'))) in *.
    set (r1 := snd (run_checks self data t1)) in *.
    set (r2 := snd (run_checks self1 data t2)) in *.
    set (weight := Props.static_weight data) in *.
    destruct (Qmin_spec r1 1.0) as [[B1 Q1] | [B1 Q1]]; rewrite Q1 in R1;
      destruct (Qmin_spec r2 1.0) as [[B2 Q2] | [B2 Q2]]; rewrite Q2 in R2;
      destruct (Qmin_spec (x1 + 0.5) 1.0) as [[B3 Q3] | [B3 Q3]]; rewrite Q3;
      destruct alarm1, alarm2; cbv iota in E1, E2;
      (split;
       [ intros Hle Ha; first [left; reflexivity | right; lra | discriminate Ha]
       | intro Himp; first [lra | destruct (Himp eq_refl) as [Hf | Hw];
                                  [discriminate Hf | lra]] ]).
  - intros Hlen Hnew Hage. apply frequency_stays_suspicious; assumption.
Qed.

Lemma second_scoring_flags_duplicate_witness :
  Py.truthy (invoice_number Sample.invoice_a) = true
  /\ In (Props.entry_of Sample.invoice_b 0) (processed_invoices Sample.agent_after_b)
  /\ Props.has_duplicate_flag
       (snd (@Props.detect_twice Sample.format Sample.agent_after_b Sample.invoice_a
                                 Sample.sec Sample.sec (2 * Sample.sec) (2 * Sample.sec)))
  /\ Py.Qmin
       (risk_score
          (fst (@Props.detect_twice Sample.format Sample.agent_after_b Sample.invoice_a
                                    Sample.sec Sample.sec (2 * Sample.sec) (2 * Sample.sec)))
        + 0.5) 1.0
     <= risk_score
          (snd (@Props.detect_twice Sample.format Sample.agent_after_b Sample.invoice_a
                                    Sample.sec Sample.sec (2 * Sample.sec) (2 * Sample.sec))).
Proof.
  split; [reflexivity|]. split; [vm_compute; left; reflexivity|].
  assert (Hfresh : forall e, In e (processed_invoices Sample.agent_after_b) ->
                             e_invoice_number e <> invoice_number Sample.invoice_a).
  { intros e He. vm_compute in He. destruct He as [He | []]. subst e. discriminate. }
  destruct (second_scoring_flags_duplicate
              Sample.format Sample.agent_after_b Sample.invoice_a
              Sample.sec Sample.sec (2 * Sample.sec) (2 * Sample.sec)
              eq_refl Hfresh) as (_ & Hflag & Hscore & _).
  split; [exact Hflag|].
  apply Hscore. vm_compute. discriminate.
Defined.

End TwiceScoredClaim.

(** ** An invoice without its number *)

Section AbsentNumber.
Import FraudAgent.

Lemma Qmin_compat (a b c : Q) : a == b -> Py.Qmin a c == Py.Qmin b c.
Proof.
  intro E.
  destruct (Qmin_spec a c) as [[Ha ->] | [Ha ->]];
    destruct (Qmin_spec b c) as [[Hb ->] | [Hb ->]]; lra.
Qed.

Lemma weight_if_nonneg (fires : bool) (w : Q) : 0 <= w -> 0 <= Props.weight_if fires w.
Proof. intro Hw. destruct fires; simpl; [exact Hw | apply Qle_refl]. Qed.

Lemma absent_number_is_missing (data : ExtractedInvoice) :
  Py.truthy (invoice_number data) = false ->
  exists others, _check_missing_fields data = ("invoice_number" :: others)%list.
Proof.
  intro Habsent.
  assert (Hmiss : value_missing (dict_get data "invoice_number") = true).
  { unfold dict_get. simpl.
    destruct (invoice_number data) as [[|c s]|]; simpl in *;
      try discriminate; reflexivity. }
  unfold _check_missing_fields, critical_fields.
  simpl filter. rewrite Hmiss. eexists. reflexivity.
Qed.

(** Without an invoice number the accumulators of [detect] are those of
    checks 2, 3, 4, 5 and 7. *)
Lemma absent_number_run_checks `{PyFormat} (self : t) (data : ExtractedInvoice) (now : Z) :
  Py.truthy (invoice_number data) = false ->
  run_checks self data now
  = check_7 data (check_5 data (check_4 self data now
                                        (check_3 data (check_2 data ([], 0))))).
Proof.
  intro Habsent. unfold run_checks.
  assert (H1 : forall acc, check_1 self data acc = acc).
  { intro acc. unfold check_1.
    rewrite check_duplicate_absent by exact Habsent. reflexivity. }
  assert (H6 : forall acc, check_6 data acc = acc).
  { intro acc. unfold check_6, _check_invoice_pattern. rewrite Habsent. reflexivity. }
  rewrite H1, H6. reflexivity.
Qed.

Lemma weight_without_number_nonneg `{PyFormat} (self : t) (data : ExtractedInvoice)
      (now : Z) :
  0 <= Props.weight_without_number self data now.
Proof.
  unfold Props.weight_without_number, check_7, check_4, check_3, check_2.
  pose proof (weight_if_nonneg (negb (_check_amount_consistency data)) 0.1
                ltac:(lra)) as H7.
  pose proof (weight_if_nonneg
                (suspicious (_check_vendor_frequency self now (vendor data) (date data)))
                0.25 ltac:(lra)) as H4.
  pose proof (weight_if_nonneg (_is_suspicious_round_amount (total_amount data)) 0.15
                ltac:(lra)) as H3.
  pose proof (weight_if_nonneg (Py.geb (total_amount data) high_amount) 0.2
                ltac:(lra)) as H2.
  pose proof (weight_if_nonneg true 0.3 ltac:(lra)) as H2'.
  destruct (Py.geb (total_amount data) very_high_amount);
    rewrite !flag_if_weight; cbn [snd]; lra.
Qed.

Lemma absent_number_score `{PyFormat} (self : t) (data : ExtractedInvoice) (now : Z) :
  Py.truthy (invoice_number data) = false ->
  snd (run_checks self data now) == Props.weight_without_number self data now + 0.2.
Proof.
  intro Habsent. rewrite (absent_number_run_checks self data now Habsent).
  destruct (absent_number_is_missing data Habsent) as [others Hmissing].
  unfold Props.weight_without_number, check_7, check_5, check_4, check_3, check_2.
  rewrite Hmissing.
  destruct (Py.geb (total_amount data) very_high_amount);
    rewrite !flag_if_weight; cbn [snd];
    change (Props.weight_if true 0.2) with 0.2; ring.
Qed.

(** C9. When the invoice number is absent ([None] or empty), whatever the
    ledger holds: the duplicate check answers [False]; checks 1 and 6 leave
    the flags and the score as they were; check 5 lists [invoice_number]
    among the missing critical fields, appends its flag and adds 0.2.  In
    the assessment [detect] returns, the flags and the score are those
    checks 2, 3, 4, 5 and 7 accumulate: the missing-fields flag is among the
    flags, no duplicate flag is, and the score is the weight of checks 2, 3,
    4 and 7 plus 0.2, capped at 1.0, so at least 0.2. *)
Theorem absent_invoice_number_never_duplicate
        (fmt : PyFormat) (self : FraudAgent.t) (data : ExtractedInvoice)
        (now_check now_store : Z) (acc : Acc) :
  Py.truthy (invoice_number data) = false ->
  is_duplicate (_check_duplicate self (invoice_number data) (vendor data)) = false
  /\ check_1 self data acc = acc
  /\ check_6 data acc = acc
  /\ (exists others,
         _check_missing_fields data = ("invoice_number" :: others)%list
         /\ fst (check_5 data acc)
            = (fst acc ++ [("Missing critical fields: "
                            ++ Py.join ", " ("invoice_number" :: others)%list)%string])%list
         /\ snd (check_5 data acc) = snd acc + 0.2
         /\ In (Props.missing_fields_flag ("invoice_number" :: others)%list)
               (flags (fst (detect self data now_check now_store))))
  /\ ~ Props.has_duplicate_flag (fst (detect self data now_check now_store))
  /\ flags (fst (detect self data now_check now_store))
     = fst (check_7 data (check_5 data (check_4 self data now_check
                                                (check_3 data (check_2 data ([], 0))))))
  /\ risk_score (fst (detect self data now_check now_store))
     == Py.Qmin (Props.weight_without_number self data now_check + 0.2) 1.0
  /\ 0.2 <= risk_score (fst (detect self data now_check now_store)).
Proof.
  intro Habsent.
  assert (Hdup : is_duplicate (_check_duplicate self (invoice_number data) (vendor data))
                 = false).
  { rewrite check_duplicate_absent by exact Habsent. reflexivity. }
  destruct (absent_number_is_missing data Habsent) as [others Hmissing].
  assert (Hflag : In (Props.missing_fields_flag ("invoice_number" :: others)%list)
                     (fst (run_checks self data now_check))).
  { rewrite (absent_number_run_checks self data now_check Habsent).
    unfold check_7. apply in_flag_if. left.
    unfold check_5. rewrite Hmissing. apply in_flag_if. right.
    split; reflexivity. }
  assert (Hflags : flags (fst (detect self data now_check now_store))
                   = fst (run_checks self data now_check)).
  { rewrite detect_flags.
    destruct (fst (run_checks self data now_check)); [destruct Hflag | reflexivity]. }
  assert (Hscore : risk_score (fst (detect self data now_check now_store))
                   == Py.Qmin (Props.weight_without_number self data now_check + 0.2) 1.0).
  { rewrite detect_risk_score_exact. unfold Props.capped_score.
    apply Qmin_compat. apply absent_number_score. exact Habsent. }
  split; [exact Hdup|]. split; [|split; [|split; [|split; [|split; [|split]]]]].
  - unfold check_1. rewrite Hdup. reflexivity.
  - unfold check_6, _check_invoice_pattern. rewrite Habsent. reflexivity.
  - exists others. split; [exact Hmissing|].
    unfold check_5. rewrite Hmissing.
    split; [reflexivity|]. split; [reflexivity|].
    rewrite Hflags. exact Hflag.
  - rewrite detect_duplicate_flag_iff, Hdup. discriminate.
  - rewrite Hflags, (absent_number_run_checks self data now_check Habsent). reflexivity.
  - exact Hscore.
  - rewrite Hscore.
    pose proof (weight_without_number_nonneg self data now_check) as Hw.
    apply Qmin_glb; lra.
Qed.

Lemma absent_invoice_number_never_duplicate_witness :
  Py.truthy (invoice_number Sample.invoice_no_number) = false
  /\ In (Props.entry_of Sample.invoice_round 0) (processed_invoices Sample.agent_after_round)
  /\ e_vendor (Props.entry_of Sample.invoice_round 0) = vendor Sample.invoice_no_number
  /\ is_duplicate (_check_duplicate Sample.agent_after_round
                                     (invoice_number Sample.invoice_no_number)
                                     (vendor Sample.invoice_no_number)) = false
  /\ ~ Props.has_duplicate_flag
         (fst (@detect Sample.format Sample.agent_after_round Sample.invoice_no_number
                       Sample.sec Sample.sec))
  /\ 0.2 <= risk_score
              (fst (@detect Sample.format Sample.agent_after_round
                            Sample.invoice_no_number Sample.sec Sample.sec)).
Proof.
  split; [reflexivity|]. split; [vm_compute; left; reflexivity|]. split; [reflexivity|].
  destruct (absent_invoice_number_never_duplicate
              Sample.format Sample.agent_after_round Sample.invoice_no_number
              Sample.sec Sample.sec ([], 0) eq_refl) as (Hd & _ & _ & _ & Hf & _ & _ & Hs).
  split; [exact Hd | split; [exact Hf | exact Hs]].
Defined.

End AbsentNumber.

(** * Further properties of the agents *)

(** ** Flags and score of an assessment *)

Section FlagsAndScore.
Import FraudAgent.
Context `{PyFormat}.

Lemma flag_if_untouched (fires : bool) (flag : string) (w : Q) (acc : Acc) :
  0 < w -> Terms.untouched acc -> Terms.untouched (flag_if fires flag w acc).
Proof.
  intros Hw [Hiff H0]. destruct fires; [|split; assumption].
  unfold Terms.untouched, flag_if. cbn [fst snd]. split; [|lra].
  split.
  - intro Hnil. destruct (fst acc); discriminate Hnil.
  - intro Hzero. lra.
Qed.

Lemma check_2_untouched (data : ExtractedInvoice) (acc : Acc) :
  Terms.untouched acc -> Terms.untouched (check_2 data acc).
Proof.
  intro Hacc. unfold check_2.
  destruct (Py.geb (total_amount data) very_high_amount);
    apply flag_if_untouched; try assumption; reflexivity.
Qed.

Lemma run_checks_untouched (self : t) (data : ExtractedInvoice) (now : Z) :
  Terms.untouched (run_checks self data now).
Proof.
  unfold run_checks, check_7, check_6, check_5, check_4, check_3, check_1.
  do 5 (apply flag_if_untouched; [reflexivity|]).
  apply check_2_untouched.
  apply flag_if_untouched; [reflexivity|].
  split; [split; reflexivity | apply Qle_refl].
Qed.

Lemma check_2_not_sentinel (data : ExtractedInvoice) (acc : Acc) (x : string) :
  In x (fst (check_2 data acc)) -> x = Terms.no_indicators -> In x (fst acc).
Proof.
  unfold check_2.
  destruct (Py.geb (total_amount data) very_high_amount);
    intros Hin Hx; apply in_flag_if in Hin;
    destruct Hin as [Hin | [_ Hf]]; try exact Hin;
    rewrite Hx in Hf; discriminate Hf.
Qed.

Lemma frequency_message_not_sentinel (self : t) (now : Z) (v d : option string) :
  message (_check_vendor_frequency self now v d) <> Terms.no_indicators.
Proof.
  unfold _check_vendor_frequency.
  destruct (negb (Py.truthy v)); [discriminate|].
  destruct (_count_vendor (processed_invoices self) v now 0 0) as [today recent].
  destruct (suspicious_frequency_same_hour <=? recent)%nat; [discriminate|].
  destruct (suspicious_frequency_same_day <=? today)%nat; discriminate.
Qed.

Lemma pattern_message_not_sentinel (n : option string) :
  message (_check_invoice_pattern n) <> Terms.no_indicators.
Proof.
  unfold _check_invoice_pattern.
  repeat match goal with
         | |- context [if ?c then _ else _] => destruct c
         end; discriminate.
Qed.

(** No check words its flag as the sentinel. *)
Lemma run_checks_not_sentinel (self : t) (data : ExtractedInvoice) (now : Z) :
  ~ In Terms.no_indicators (fst (run_checks self data now)).
Proof.
  unfold run_checks, check_7, check_6, check_5, check_4, check_3, check_1.
  intro Hin.
  apply in_flag_if in Hin. destruct Hin as [Hin | [_ Hx]]; [|discriminate Hx].
  apply in_flag_if in Hin. destruct Hin as [Hin | [_ Hx]];
    [|symmetry in Hx; exact (pattern_message_not_sentinel _ Hx)].
  apply in_flag_if in Hin. destruct Hin as [Hin | [_ Hx]]; [|discriminate Hx].
  apply in_flag_if in Hin. destruct Hin as [Hin | [_ Hx]];
    [|symmetry in Hx; exact (frequency_message_not_sentinel _ _ _ _ Hx)].
  apply in_flag_if in Hin. destruct Hin as [Hin | [_ Hx]]; [|discriminate Hx].
  apply check_2_not_sentinel in Hin; [|reflexivity].
  apply in_flag_if in Hin. destruct Hin as [[] | [_ Hx]]. discriminate Hx.
Qed.

(** X1. The flags of an assessment are never empty, and they are the
    single sentinel "No fraud indicators detected" exactly when the risk
    score is 0: every check that fires leaves both a flag and a positive
    weight. *)
Theorem sentinel_iff_zero_score (self : FraudAgent.t) (data : ExtractedInvoice)
        (now_check now_store : Z) :
  let a := fst (detect self data now_check now_store) in
  flags a <> []
  /\ (flags a = [Terms.no_indicators] <-> risk_score a == 0)
  /\ (In Terms.no_indicators (flags a) <-> risk_score a == 0).
Proof.
  intro a. subst a.
  pose proof (detect_risk_score_exact self data now_check now_store) as R.
  pose proof (run_checks_untouched self data now_check) as [Hiff H0].
  pose proof (run_checks_not_sentinel self data now_check) as Hns.
  rewrite detect_flags. unfold Props.capped_score in R.
  destruct (fst (run_checks self data now_check)) as [|f fl] eqn:E.
  - assert (Hz : snd (run_checks self data now_check) == 0) by (apply Hiff; reflexivity).
    assert (Hr : risk_score (fst (detect self data now_check now_store)) == 0).
    { rewrite R. unfold Py.Qmin.
      destruct (Qle_bool (snd (run_checks self data now_check)) 1.0) eqn:Ec; [exact Hz|].
      exfalso. apply (geb_false 1.0 (snd (run_checks self data now_check))) in Ec. lra. }
    split; [discriminate|]. split; split; intros _.
    + exact Hr.
    + reflexivity.
    + exact Hr.
    + left. reflexivity.
  - assert (Hpos : 0 < snd (run_checks self data now_check)).
    { destruct (Qlt_le_dec 0 (snd (run_checks self data now_check))) as [Hlt | Hle];
        [exact Hlt|].
      assert (Hz : snd (run_checks self data now_check) == 0) by lra.
      apply Hiff in Hz. discriminate Hz. }
    assert (Hr : 0 < risk_score (fst (detect self data now_check now_store))).
    { rewrite R. unfold Py.Qmin.
      destruct (Qle_bool (snd (run_checks self data now_check)) 1.0); [exact Hpos | lra]. }
    split; [discriminate|]. split; split.
    + intro Hs. exfalso. apply Hns. rewrite Hs. left. reflexivity.
    + intro Hz. lra.
    + intro Hin. exfalso. apply Hns. exact Hin.
    + intro Hz. lra.
Qed.

End FlagsAndScore.

(** ** Round amounts *)

Section RoundAmount.
Import FraudAgent.

Lemma fmod_zero_iff (a : Q) :
  Py.fmod a 100 == 0 <-> exists k : Z, a == 100 * inject_Z k.
Proof.
  unfold Py.fmod. split.
  - intro Hz. exists (Qfloor (a / 100)). lra.
  - intros [k Hk].
    assert (E : a / 100 == inject_Z k) by (rewrite Hk; field).
    assert (Hf : Qfloor (a / 100) = k) by (rewrite E; apply Qfloor_Z).
    rewrite Hf. lra.
Qed.

(** X2. The round-amount test holds exactly for the whole multiples of
    100 from 1000 on. *)
Theorem round_amount_iff (amount : Q) :
  _is_suspicious_round_amount amount = true
  <-> 1000 <= amount /\ exists k : Z, amount == 100 * inject_Z k.
Proof.
  unfold _is_suspicious_round_amount, round_amount_min. split.
  - destruct (Py.ltb amount 1000) eqn:Elt; [discriminate|].
    apply ltb_false in Elt.
    destruct (Qeq_bool (Py.fmod amount 100) 0) eqn:Em; [|discriminate].
    intros _. split; [exact Elt|].
    apply fmod_zero_iff. apply Qeq_bool_iff. exact Em.
  - intros [Hge Hk].
    apply ltb_false in Hge. rewrite Hge.
    apply fmod_zero_iff in Hk. apply Qeq_bool_iff in Hk. rewrite Hk.
    apply ltb_false in Hge. apply geb_true in Hge. rewrite Hge. reflexivity.
Qed.

End RoundAmount.

(** ** What the ledger checks read *)

Section LedgerChecks.
Import FraudAgent.

Lemma duplicate_loop_true (l : list LedgerEntry) (n v : option string) :
  is_duplicate (_check_duplicate_loop l n v) = true ->
  exists l1 e l2,
    l = (l1 ++ e :: l2)%list
    /\ (forall x, In x l1 -> e_invoice_number x <> n)
    /\ e_invoice_number e = n /\ e_vendor e = v.
Proof.
  induction l as [|x l IH]; [discriminate|].
  simpl. destruct (Py.eqb (e_invoice_number x) n) eqn:En.
  - destruct (Py.eqb (e_vendor x) v) eqn:Ev; [|discriminate].
    intros _. exists [], x, l. split; [reflexivity|].
    split; [intros y []|]. split; apply Py_eqb_eq; assumption.
  - intro Hd. destruct (IH Hd) as (l1 & e & l2 & El & Hfresh & Hn & Hv).
    exists (x :: l1), e, l2. split; [rewrite El; reflexivity|].
    split; [|split; assumption].
    intros y [Hy | Hy]; [subst y; apply Py_eqb_neq; exact En | apply Hfresh; exact Hy].
Qed.

(** X3. The duplicate check answers [True] exactly when an invoice number
    is given and the first ledger entry carrying that number carries the
    vendor too. *)
Theorem duplicate_iff_first_match (self : FraudAgent.t) (n v : option string) :
  is_duplicate (_check_duplicate self n v) = true
  <-> Py.truthy n = true
      /\ exists l1 e l2,
          processed_invoices self = (l1 ++ e :: l2)%list
          /\ (forall x, In x l1 -> e_invoice_number x <> n)
          /\ e_invoice_number e = n /\ e_vendor e = v.
Proof.
  split.
  - intro Hd. destruct (Py.truthy n) eqn:Hn.
    + split; [reflexivity|]. rewrite check_duplicate_present in Hd by exact Hn.
      apply duplicate_loop_true. exact Hd.
    + rewrite check_duplicate_absent in Hd by exact Hn. discriminate Hd.
  - intros (Hn & l1 & e & l2 & El & Hfresh & He & Hv).
    rewrite check_duplicate_present by exact Hn.
    rewrite El, duplicate_loop_first by assumption.
    apply Py_eqb_eq. exact Hv.
Qed.

Lemma window_filter_nested (v : option string) (now : Z) (l : list LedgerEntry) :
  filter (Props.in_window v now Props.hour) (filter (Props.in_window v now Props.day) l)
  = filter (Props.in_window v now Props.hour) l.
Proof.
  induction l as [|e l IH]; [reflexivity|].
  cbn [filter]. destruct (Props.in_window v now Props.day e) eqn:Ed.
  - cbn [filter]. rewrite IH. reflexivity.
  - rewrite IH.
    assert (Eh : Props.in_window v now Props.hour e = false).
    { unfold Props.in_window, Props.day, Props.hour, second in *.
      destruct (Py.eqb (e_vendor e) v); [|reflexivity]. cbn [andb] in *.
      apply Z.ltb_ge in Ed. apply Z.ltb_ge. lia. }
    rewrite Eh. reflexivity.
Qed.

Lemma window_filter_idem (v : option string) (now w : Z) (l : list LedgerEntry) :
  filter (Props.in_window v now w) (filter (Props.in_window v now w) l)
  = filter (Props.in_window v now w) l.
Proof.
  induction l as [|e l IH]; [reflexivity|].
  cbn [filter]. destruct (Props.in_window v now w e) eqn:Ed.
  - cbn [filter]. rewrite Ed, IH. reflexivity.
  - exact IH.
Qed.

(** X4. The frequency check reads only the ledger entries of the vendor
    that are less than 24 hours old: dropping every other entry from the
    ledger changes neither its verdict nor its message. *)
Theorem frequency_reads_recent_vendor_entries
        (self : FraudAgent.t) (now : Z) (v d : option string) :
  _check_vendor_frequency self now v d
  = _check_vendor_frequency
      {| processed_invoices :=
           filter (Props.in_window v now Props.day) (processed_invoices self) |}
      now v d.
Proof.
  unfold _check_vendor_frequency. destruct (negb (Py.truthy v)); [reflexivity|].
  rewrite !count_vendor_filter. cbn [processed_invoices].
  rewrite window_filter_nested, window_filter_idem. reflexivity.
Qed.

End LedgerChecks.

(** ** Invoice-number patterns and missing fields *)

Section FieldChecks.
Import FraudAgent.




(** X6. The list of missing critical fields is empty exactly when the
    invoice number, the vendor and the date are non-empty and the total is
    positive. *)
Theorem no_missing_fields_iff (data : ExtractedInvoice) :
  _check_missing_fields data = []
  <-> Py.truthy (invoice_number data) = true
      /\ Py.truthy (vendor data) = true
      /\ Py.truthy (date data) = true
      /\ 0 < total_amount data.
Proof.
  unfold _check_missing_fields, critical_fields. cbn [filter].
  unfold dict_get. cbn [String.eqb Ascii.eqb Bool.eqb].
  assert (Hamt : Qeq_bool (total_amount data) 0 || Py.leb (total_amount data) 0 = false
                 <-> 0 < total_amount data).
  { rewrite orb_false_iff. split.
    - intros [_ Hle]. apply leb_false. exact Hle.
    - intro Hpos. split; [|apply leb_false; exact Hpos].
      destruct (Qeq_bool (total_amount data) 0) eqn:E; [|reflexivity].
      apply Qeq_bool_iff in E. lra. }
  destruct (invoice_number data) as [[|c1 s1]|], (vendor data) as [[|c2 s2]|],
           (date data) as [[|c3 s3]|];
    cbn [value_missing Py.truthy negb];
    try (split; [discriminate | intros (H1 & H2 & H3 & _); discriminate]).
  destruct (Qeq_bool (total_amount data) 0 || Py.leb (total_amount data) 0) eqn:E.
  - split; [discriminate|]. intros (_ & _ & _ & Hpos). apply Hamt in Hpos. discriminate Hpos.
  - split; [|reflexivity]. intros _. repeat split; try reflexivity. apply Hamt. reflexivity.
Qed.

End FieldChecks.

(** ** The ledger over a run of submissions *)

Section LedgerRun.
Import FraudAgent.

Lemma last_n_absorb {A} (n : nat) (l : list A) (x : A) :
  (0 < n)%nat -> Py.last_n n (Py.last_n n l ++ [x]) = Py.last_n n (l ++ [x]).
Proof.
  intro Hn. rewrite !last_n_snoc by exact Hn.
  f_equal. rewrite last_n_length. unfold Py.last_n.
  rewrite skipn_skipn. f_equal. lia.
Qed.

Lemma submit_all_ledger `{PyFormat} (subs : list Terms.Submission) (self : FraudAgent.t) :
  (List.length (processed_invoices self) <= 100)%nat ->
  processed_invoices (Terms.submit_all self subs)
  = Py.last_n 100 (processed_invoices self ++ map Terms.entry_of_submission subs).
Proof.
  revert self. induction subs as [|[[data t] t'] subs IH]; intros self Hlen.
  - cbn [Terms.submit_all fold_left map]. rewrite app_nil_r.
    unfold Py.last_n. replace (List.length _ - 100)%nat with 0%nat by lia. reflexivity.
  - cbn [Terms.submit_all fold_left map].
    change (fold_left Terms.submit subs (Terms.submit self (data, t, t')))
      with (Terms.submit_all (Terms.submit self (data, t, t')) subs).
    rewrite IH.
    + cbn [Terms.submit Terms.entry_of_submission].
      rewrite detect_ledger_last_100.
      set (e := Props.entry_of data t').
      set (rest := map Terms.entry_of_submission subs).
      replace (e :: rest) with ([e] ++ rest)%list by reflexivity.
      rewrite app_assoc.
      generalize (processed_invoices self ++ [e])%list. intro l.
      clear. revert l. induction rest as [|r rest IHr] using rev_ind; intro l.
      * rewrite !app_nil_r. unfold Py.last_n at 1. rewrite last_n_length.
        replace (Nat.min 100 (List.length l) - 100)%nat with 0%nat by lia. reflexivity.
      * rewrite !app_assoc. rewrite <- (last_n_absorb 100 (l ++ rest)) by lia.
        rewrite <- IHr. rewrite last_n_absorb by lia. reflexivity.
    + cbn [Terms.submit]. apply detect_ledger_bound.
Qed.

(** X7. After any run of submissions to a fresh agent the ledger is the
    last 100 of the submitted entries, in submission order; a run of at most
    100 submissions is kept whole. *)
Theorem ledger_of_a_run (fmt : PyFormat) (subs : list Terms.Submission) :
  processed_invoices (Terms.submit_all FraudAgent.init subs)
  = Py.last_n 100 (map Terms.entry_of_submission subs)
  /\ ((List.length subs <= 100)%nat ->
      processed_invoices (Terms.submit_all FraudAgent.init subs)
      = map Terms.entry_of_submission subs).
Proof.
  assert (E : processed_invoices (Terms.submit_all FraudAgent.init subs)
              = Py.last_n 100 (map Terms.entry_of_submission subs)).
  { rewrite submit_all_ledger by (simpl; lia). reflexivity. }
  split; [exact E|].
  intro Hlen. rewrite E. unfold Py.last_n. rewrite length_map.
  replace (List.length subs - 100)%nat with 0%nat by lia. reflexivity.
Qed.

End LedgerRun.

(** ** A duplicate is never approved *)

Section DuplicateOutcome.
Import FraudAgent PolicyAgent DecisionAgent.

Lemma flag_if_score_grows (fires : bool) (flag : string) (w : Q) (acc : Acc) :
  0 <= w -> snd acc <= snd (flag_if fires flag w acc).
Proof. intro Hw. rewrite flag_if_score. destruct fires; lra. Qed.

Lemma run_checks_score_at_least_first `{PyFormat}
      (self : FraudAgent.t) (data : ExtractedInvoice) (now : Z) :
  snd (check_1 self data ([], 0)) <= snd (run_checks self data now).
Proof.
  unfold run_checks, check_7, check_6, check_5, check_4, check_3.
  repeat (eapply Qle_trans; [|apply flag_if_score_grows; lra]).
  unfold check_2. destruct (Py.geb (total_amount data) very_high_amount);
    apply flag_if_score_grows; lra.
Qed.

Lemma ladder_not_approve_from_medium `{PyFormat} ext fraud pol :
  0.4 <= risk_score fraud -> fst (fst (ladder ext fraud pol)) <> "APPROVE".
Proof.
  intro Hs. unfold ladder. apply geb_true in Hs.
  destruct ((risk_level fraud =? "HIGH") || Py.geb (risk_score fraud) 0.7);
    [discriminate|].
  destruct (0 <? List.length (violations pol))%nat; [discriminate|].
  rewrite Hs, orb_true_r. discriminate.
Qed.

(** X8. When the duplicate check fires, the assessment scores at least
    0.5, is suspicious and of level MEDIUM or HIGH, and the decision taken on
    it is never APPROVE, whatever the invoice and the policy assessment. *)
Theorem duplicate_is_never_approved
        (fmt : PyFormat) (self : FraudAgent.t) (data : ExtractedInvoice)
        (now_check now_store : Z) :
  is_duplicate (_check_duplicate self (invoice_number data) (vendor data)) = true ->
  let a := fst (detect self data now_check now_store) in
  0.5 <= risk_score a
  /\ is_suspicious a = true
  /\ (risk_level a = "MEDIUM" \/ risk_level a = "HIGH")
  /\ (forall (ext : ExtractedInvoice) (pol : PolicyAssessment),
         decision (decide ext a pol) <> "APPROVE").
Proof.
  intros Hdup a. subst a.
  pose proof (detect_risk_score_exact self data now_check now_store) as R.
  assert (Hcap : 0.5 <= Props.capped_score self data now_check).
  { unfold Props.capped_score. apply Qmin_glb; [|lra].
    eapply Qle_trans; [|apply run_checks_score_at_least_first].
    unfold check_1. rewrite Hdup. cbn [flag_if snd]. lra. }
  assert (Hscore : 0.5 <= risk_score (fst (detect self data now_check now_store)))
    by (rewrite R; exact Hcap).
  split; [exact Hscore|]. split; [|split].
  - rewrite detect_is_suspicious. apply geb_true. lra.
  - rewrite detect_risk_level.
    destruct (Qlt_le_dec (Props.capped_score self data now_check) 0.7) as [Hlt | Hge].
    + left. apply risk_level_medium; lra.
    + right. apply risk_level_high. exact Hge.
  - intros ext pol. rewrite decide_decision.
    apply ladder_not_approve_from_medium. lra.
Qed.

Lemma duplicate_is_never_approved_witness :
  is_duplicate (_check_duplicate Sample.agent_after_round
                                 (invoice_number Sample.invoice_round)
                                 (vendor Sample.invoice_round)) = true
  /\ 0.5 <= risk_score Sample.fraud_high
  /\ decision (@decide Sample.format Sample.invoice_round Sample.fraud_high Sample.policy_a)
     <> "APPROVE".
Proof.
  split; [vm_compute; reflexivity|].
  destruct (duplicate_is_never_approved Sample.format Sample.agent_after_round
              Sample.invoice_round Sample.sec Sample.sec) as (Hs & _ & _ & Hd).
  - vm_compute. reflexivity.
  - split; [exact Hs | apply Hd].
Defined.

End DuplicateOutcome.

(** ** Compliance *)

Section ComplianceFacts.
Import PolicyAgent.

Lemma append_if_nil (fires : bool) (x : string) (l : list string) :
  append_if fires x l = [] <-> fires = false /\ l = [].
Proof.
  unfold append_if. destruct fires.
  - split; [|intros [Hf _]; discriminate Hf].
    intro Hnil. destruct l; discriminate Hnil.
  - split; [intro Hl; split; [reflexivity | exact Hl] | intros [_ Hl]; exact Hl].
Qed.

Lemma append_if_length (fires : bool) (x : string) (l : list string) :
  (List.length (append_if fires x l) <= S (List.length l))%nat.
Proof.
  unfold append_if. destruct fires; [rewrite length_app; simpl|]; lia.
Qed.

Lemma validate_amount_valid `{PyFormat} (amount : Q) :
  a_valid (_validate_amount amount) = true <-> 0.01 <= amount /\ amount <= 100000.
Proof.
  unfold _validate_amount, min_amount, max_amount. split.
  - destruct (Py.ltb amount 0.01) eqn:Elo; [discriminate|].
    destruct (Py.gtb amount 100000) eqn:Ehi; [discriminate|].
    intros _. split; [apply ltb_false | apply gtb_false]; assumption.
  - intros [Hlo Hhi]. apply ltb_false in Hlo. apply gtb_false in Hhi.
    rewrite Hlo, Hhi. reflexivity.
Qed.

Lemma po_requirement_compliant `{PyFormat} (amount : Q) (po : option string) :
  po_compliant (_check_po_requirement amount po) = true
  <-> amount < 1000 \/ Py.truthy po = true.
Proof.
  unfold _check_po_requirement, require_po_above.
  destruct (Py.geb amount 1000) eqn:Ea, (Py.truthy po) eqn:Ep; cbn [andb negb po_compliant].
  - split; [intros _; right; reflexivity | reflexivity].
  - apply geb_true in Ea. split; [discriminate|].
    intros [Hlt | Hf]; [lra | discriminate Hf].
  - split; [intros _; right; reflexivity | reflexivity].
  - apply geb_false in Ea. split; [intros _; left; exact Ea | reflexivity].
Qed.

Lemma compliant_by_violations `{PyFormat} `{PyDatetime} (now : Z) (data : ExtractedInvoice) :
  compliant (check_compliance now data)
  = match violations (check_compliance now data) with [] => true | _ => false end.
Proof. reflexivity. Qed.

Lemma violations_chain `{PyFormat} `{PyDatetime} (now : Z) (data : ExtractedInvoice) :
  violations (check_compliance now data)
  = append_if (negb (d_valid (_validate_invoice_date now (date data))))
      (message_of (d_message (_validate_invoice_date now (date data))))
      (append_if (negb (po_compliant (_check_po_requirement (total_amount data)
                                                            (po_number data))))
         (po_message (_check_po_requirement (total_amount data) (po_number data)))
         (append_if (negb (a_valid (_validate_amount (total_amount data))))
            (am_message (_validate_amount (total_amount data)))
            (append_if (negb (approved (_check_vendor_approval (vendor data))))
               (v_message (_check_vendor_approval (vendor data)))
               (append_if (match _check_required_fields data with
                           | [] => false
                           | _ => true
                           end)
                  ("Missing required fields: "
                   ++ Py.join ", " (_check_required_fields data)) [])))).
Proof. reflexivity. Qed.

(** X9. An invoice is compliant exactly when no required field is
    missing, the vendor is approved, the amount lies between 0.01 and
    100,000, a PO number is present from 1,000 on, and the date check does
    not fail; warnings play no part.  Compliance is the absence of
    violations. *)
Theorem compliant_iff (fmt : PyFormat) (dt : PyDatetime) (now : Z)
        (data : ExtractedInvoice) :
  let r := check_compliance now data in
  (compliant r = true
   <-> _check_required_fields data = []
       /\ approved (_check_vendor_approval (vendor data)) = true
       /\ (0.01 <= total_amount data /\ total_amount data <= 100000)
       /\ (total_amount data < 1000 \/ Py.truthy (po_number data) = true)
       /\ d_valid (_validate_invoice_date now (date data)) = true)
  /\ (compliant r = true <-> violations r = []).
Proof.
  cbv zeta.
  assert (Hc : compliant (check_compliance now data) = true
               <-> violations (check_compliance now data) = []).
  { rewrite compliant_by_violations.
    destruct (violations (check_compliance now data));
      split; intro Hx; first [reflexivity | discriminate Hx]. }
  split; [|exact Hc].
  rewrite Hc, violations_chain, !append_if_nil.
  rewrite !negb_false_iff.
  rewrite validate_amount_valid, po_requirement_compliant.
  split.
  - intros (Hd & Hpo & Ham & Hv & Hm & _).
    repeat split; try assumption; try tauto.
    destruct (_check_required_fields data); [reflexivity | discriminate Hm].
  - intros (Hm & Hv & Ham & Hpo & Hd). rewrite Hm.
    repeat split; try assumption; tauto.
Qed.

(** X10. An assessment carries at most five violations and at most five
    warnings. *)
Theorem at_most_five_findings (fmt : PyFormat) (dt : PyDatetime) (now : Z)
        (data : ExtractedInvoice) :
  (List.length (violations (check_compliance now data)) <= 5)%nat
  /\ (List.length (warnings (check_compliance now data)) <= 5)%nat.
Proof.
  unfold check_compliance, check_6_warnings. cbn [violations warnings]. split.
  - repeat (eapply Nat.le_trans; [apply append_if_length|]; apply le_n_S).
    simpl. lia.
  - repeat (eapply Nat.le_trans; [apply append_if_length|]; apply le_n_S).
    simpl. lia.
Qed.

End ComplianceFacts.

(** ** Vendor approval *)

Section VendorApproval.
Import PolicyAgent.

Lemma find_eqb_member (x : string) (l : list string) :
  In x l -> exists y, find (fun a => String.eqb x a) l = Some y.
Proof.
  intro Hin. destruct (find (fun a => String.eqb x a) l) as [y|] eqn:E.
  - exists y. reflexivity.
  - pose proof (find_none _ _ E x Hin) as Hx. cbv beta in Hx.
    rewrite String.eqb_refl in Hx. discriminate Hx.
Qed.

Lemma strip_empty : Py.strip "" = "".
Proof. reflexivity. Qed.

(** X11. A vendor whose name, once surrounding whitespace is stripped, is
    on the approved list is approved by exact match, without a warning. *)
Theorem listed_vendor_is_approved (v : string) :
  In (Py.strip v) approved_vendors ->
  approved (_check_vendor_approval (Some v)) = true
  /\ match_type (_check_vendor_approval (Some v)) = Some "exact"
  /\ v_warning (_check_vendor_approval (Some v)) = None.
Proof.
  intro Hin. unfold _check_vendor_approval.
  destruct v as [|c v].
  - exfalso. rewrite strip_empty in Hin. vm_compute in Hin.
    repeat (destruct Hin as [Hin | Hin]; [discriminate Hin|]). exact Hin.
  - cbn [Py.truthy negb Py.str].
    destruct (find_eqb_member _ _ Hin) as [y Ey].
    unfold first_such. rewrite Ey. repeat split.
Qed.

Lemma listed_vendor_is_approved_witness :
  In (Py.strip "  Tech Solutions Inc ") approved_vendors
  /\ approved (_check_vendor_approval (Some "  Tech Solutions Inc ")) = true
  /\ match_type (_check_vendor_approval (Some "  Tech Solutions Inc ")) = Some "exact"
  /\ v_warning (_check_vendor_approval (Some "  Tech Solutions Inc ")) = None.
Proof.
  assert (Hin : In (Py.strip "  Tech Solutions Inc ") approved_vendors).
  { vm_compute. do 4 right. left. reflexivity. }
  split; [exact Hin|].
  apply (listed_vendor_is_approved "  Tech Solutions Inc " Hin).
Defined.

Lemma lower_append (a b : string) : Py.lower (a ++ b) = Py.lower a ++ Py.lower b.
Proof. induction a as [|c a IH]; [reflexivity|]. simpl. rewrite IH. reflexivity. Qed.

Lemma lower_whitespace (ch : string) : Py.isspace ch = true -> Py.lower ch = ch.
Proof.
  unfold Py.isspace. intro Hs. apply existsb_exists in Hs.
  destruct Hs as (x & Hin & Ex). apply String.eqb_eq in Ex. subst x.
  vm_compute in Hin.
  repeat (destruct Hin as [Hin | Hin]; [subst ch; reflexivity|]). destruct Hin.
Qed.

(** Blank text has no letter to lower. *)
Lemma lower_blank (s : string) : Props.blank s = true -> Py.lower s = s.
Proof.
  unfold Props.blank.
  induction s as [|ch rest Hne Ec IH] using chars_induction; [reflexivity|].
  rewrite Ec. cbn [forallb]. intro Hb.
  apply andb_true_iff in Hb. destruct Hb as [Hch Hrest].
  rewrite lower_append, (lower_whitespace _ Hch), (IH Hrest). reflexivity.
Qed.

(** X12. A vendor name made of whitespace only is not rejected: it passes
    the emptiness test, strips to the empty string, which is contained in
    every approved name, and so is approved by fuzzy match against the first
    approved vendor, Acme Corp, with a warning to verify. *)
Theorem blank_vendor_is_fuzzy_approved (v : string) :
  v <> "" -> Props.blank v = true ->
  approved (_check_vendor_approval (Some v)) = true
  /\ match_type (_check_vendor_approval (Some v)) = Some "fuzzy"
  /\ v_warning (_check_vendor_approval (Some v))
     = Some ("Vendor name '" ++ v ++ "' is similar to 'Acme Corp' - verify exact match").
Proof.
  intros Hne Hb. unfold _check_vendor_approval.
  destruct v as [|c v]; [contradiction|].
  cbn [Py.truthy negb Py.str].
  rewrite (lower_blank _ Hb), (strip_blank _ Hb).
  repeat split.
Qed.

Lemma blank_vendor_is_fuzzy_approved_witness :
  "   " <> "" /\ Props.blank "   " = true
  /\ approved (_check_vendor_approval (Some "   ")) = true
  /\ match_type (_check_vendor_approval (Some "   ")) = Some "fuzzy".
Proof.
  assert (Hne : "   " <> "") by discriminate.
  split; [exact Hne|]. split; [reflexivity|].
  destruct (blank_vendor_is_fuzzy_approved "   " Hne eq_refl) as (Ha & Hm & _).
  split; [exact Ha | exact Hm].
Defined.

End VendorApproval.

(** ** Invoice dates and spending tiers *)

Section DatesAndTiers.
Import PolicyAgent.

(** X13. The date check fails exactly when the date is absent, or when it
    parses under one of the four formats and is more than 90 days old or more
    than one day ahead; a date that is present but parses under no format
    passes with a warning. *)
Theorem date_check_fails_iff (dt : PyDatetime) (now : Z) (d : option string) :
  (d_valid (_validate_invoice_date now d) = false
   <-> Py.truthy d = false
       \/ exists parsed,
           parse_first (Py.str d) date_formats = Some parsed
           /\ (90 < Terms.age_days now parsed \/ Terms.age_days now parsed < -1)%Z)
  /\ (Py.truthy d = true -> parse_first (Py.str d) date_formats = None ->
      d_valid (_validate_invoice_date now d) = true
      /\ d_warning (_validate_invoice_date now d)
         = Some ("Invoice date '" ++ Py.str d ++ "' format could not be validated")).
Proof.
  unfold _validate_invoice_date, Terms.age_days, max_invoice_age_days.
  destruct (Py.truthy d) eqn:Ed; cbn [negb].
  - destruct (parse_first (Py.str d) date_formats) as [parsed|] eqn:Ep.
    + split; [|intros _ Hn; discriminate Hn].
      destruct (90 <? (now - parsed) / day)%Z eqn:Eold.
      * split; [|reflexivity]. intros _. right. exists parsed.
        split; [reflexivity|]. left. apply Z.ltb_lt. exact Eold.
      * destruct ((now - parsed) / day <? -1)%Z eqn:Efut.
        -- split; [|reflexivity]. intros _. right. exists parsed.
           split; [reflexivity|]. right. apply Z.ltb_lt. exact Efut.
        -- apply Z.ltb_ge in Eold, Efut.
           assert (Hno : ~ (Py.truthy d = false
                            \/ exists p, Some parsed = Some p
                                         /\ (90 < (now - p) / day \/ (now - p) / day < -1)%Z)).
           { rewrite Ed. intros [Hf | (p & Hp & Hage)]; [discriminate Hf|].
             inversion Hp. subst p. lia. }
           rewrite Ed in Hno.
           destruct (30 <? (now - parsed) / day)%Z; cbn [d_valid];
             (split; [discriminate | intro Hx; exfalso; apply Hno; exact Hx]).
    + split; [|intros _ _; split; reflexivity].
      cbn [d_valid]. split; [discriminate|].
      intros [Hf | (p & Hp & _)]; discriminate.
  - split; [|intro Hx; discriminate Hx].
    cbn [d_valid]. split; [intros _; left; reflexivity | reflexivity].
Qed.

Lemma spending_level_cases `{PyFormat} (amount : Q) :
  (amount <= 5000 /\ level (_check_spending_limit amount) = "auto_approve")
  \/ (5000 < amount /\ amount <= 10000
      /\ level (_check_spending_limit amount) = "requires_manager")
  \/ (10000 < amount /\ amount <= 25000
      /\ level (_check_spending_limit amount) = "requires_director")
  \/ (25000 < amount /\ amount <= 50000
      /\ level (_check_spending_limit amount) = "requires_cfo")
  \/ (50000 < amount /\ level (_check_spending_limit amount) = "requires_board").
Proof.
  unfold _check_spending_limit, limit_auto_approve, limit_requires_manager,
    limit_requires_director, limit_requires_cfo.
  destruct (Py.leb amount 5000) eqn:E1.
  { left. split; [apply leb_true; exact E1 | reflexivity]. }
  right. apply leb_false in E1.
  destruct (Py.leb amount 10000) eqn:E2.
  { left. split; [exact E1|]. split; [apply leb_true; exact E2 | reflexivity]. }
  right. apply leb_false in E2.
  destruct (Py.leb amount 25000) eqn:E3.
  { left. split; [exact E2|]. split; [apply leb_true; exact E3 | reflexivity]. }
  right. apply leb_false in E3.
  destruct (Py.leb amount 50000) eqn:E4.
  { left. split; [exact E3|]. split; [apply leb_true; exact E4 | reflexivity]. }
  right. apply leb_false in E4. split; [exact E4 | reflexivity].
Qed.

(** X14. A larger amount never needs a lower approval tier: the rank of
    the approval level grows with the amount. *)
Theorem approval_tier_is_monotone (fmt : PyFormat) (a b : Q) :
  a <= b ->
  (Terms.tier_rank (level (_check_spending_limit a))
   <= Terms.tier_rank (level (_check_spending_limit b)))%nat.
Proof.
  intro Hab.
  destruct (spending_level_cases a) as [Ha | [Ha | [Ha | [Ha | Ha]]]];
    destruct (spending_level_cases b) as [Hb | [Hb | [Hb | [Hb | Hb]]]];
    repeat match goal with
           | H : _ /\ _ |- _ => destruct H
           end;
    match goal with
    | Ea : level (_check_spending_limit a) = _,
      Eb : level (_check_spending_limit b) = _ |- _ => rewrite Ea, Eb
    end;
    first [ vm_compute; lia | exfalso; lra ].
Qed.

Lemma approval_tier_is_monotone_witness :
  4999.99 <= 75123.45
  /\ (Terms.tier_rank (level (@_check_spending_limit Sample.format 4999.99))
      <= Terms.tier_rank (level (@_check_spending_limit Sample.format 75123.45)))%nat.
Proof.
  assert (Hle : 4999.99 <= 75123.45) by (vm_compute; discriminate).
  split; [exact Hle|].
  apply (approval_tier_is_monotone Sample.format 4999.99 75123.45 Hle).
Defined.

End DatesAndTiers.

(** ** Outcomes of the decision ladder *)

Section Outcomes.
Import FraudAgent PolicyAgent DecisionAgent.

Ltac split_ladder :=
  unfold ladder;
  repeat match goal with
         | |- context [if ?c then _ else _] => destruct c eqn:?
         end.

(** X15. Every decision is APPROVE, HOLD or REJECT, with a confidence
    between 0.70 and 0.95. *)
Theorem decision_is_one_of_three (fmt : PyFormat) (ext : ExtractedInvoice)
        (fraud : FraudAssessment) (pol : PolicyAssessment) :
  (decision (decide ext fraud pol) = "APPROVE"
   \/ decision (decide ext fraud pol) = "HOLD"
   \/ decision (decide ext fraud pol) = "REJECT")
  /\ 0.70 <= d_confidence (decide ext fraud pol)
  /\ d_confidence (decide ext fraud pol) <= 0.95.
Proof.
  rewrite decide_decision, decide_confidence.
  split_ladder; cbn [fst snd];
    (split; [tauto | split; vm_compute; discriminate]).
Qed.

Lemma ladder_reject_bool `{PyFormat} ext fraud pol :
  fst (fst (ladder ext fraud pol)) = "REJECT"
  <-> (risk_level fraud =? "HIGH") || Py.geb (risk_score fraud) 0.7
      || (0 <? List.length (violations pol))%nat = true.
Proof.
  split_ladder; cbn [fst snd orb];
    split; intro Hx; first [reflexivity | discriminate Hx].
Qed.

Lemma nonempty_length {A} (l : list A) : (0 <? List.length l)%nat = true <-> l <> [].
Proof.
  destruct l; simpl; split; intro Hx;
    first [reflexivity | discriminate Hx | contradiction | (intro Hn; discriminate Hn)].
Qed.

(** X16. The decision is REJECT exactly when the fraud level is HIGH, the
    risk score is at least 0.7, or the policy assessment lists a violation. *)
Theorem reject_iff (fmt : PyFormat) (ext : ExtractedInvoice)
        (fraud : FraudAssessment) (pol : PolicyAssessment) :
  decision (decide ext fraud pol) = "REJECT"
  <-> risk_level fraud = "HIGH" \/ 0.7 <= risk_score fraud \/ violations pol <> [].
Proof.
  rewrite decide_decision, ladder_reject_bool, !orb_true_iff.
  rewrite String.eqb_eq, geb_true, nonempty_length. tauto.
Qed.

Lemma ladder_approve_bool `{PyFormat} ext fraud pol :
  fst (fst (ladder ext fraud pol)) = "APPROVE"
  <-> (risk_level fraud =? "HIGH") || Py.geb (risk_score fraud) 0.7 = false
      /\ (0 <? List.length (violations pol))%nat = false
      /\ (risk_level fraud =? "MEDIUM") || Py.geb (risk_score fraud) 0.4 = false
      /\ (approval_level pol =? "requires_cfo") || (approval_level pol =? "requires_board")
         = false
      /\ (2 <? List.length (warnings pol))%nat = false
      /\ Py.ltb (confidence ext) 0.75 = false
      /\ (approval_level pol =? "requires_director") = false.
Proof.
  split_ladder; cbn [fst snd];
    split; intro Hx;
    first [ discriminate Hx
          | reflexivity
          | repeat split; reflexivity
          | (destruct Hx as (H1 & H2 & H3 & H4 & H5 & H6 & H7); discriminate) ].
Qed.

(** X17. The decision is APPROVE exactly when no rejecting or holding
    clause applies: the fraud level is neither HIGH nor MEDIUM, the risk
    score is below 0.4, there is no violation and at most two warnings, the
    extraction confidence is at least 0.75, and the approval level is none of
    director, CFO or board. *)
Theorem approve_iff (fmt : PyFormat) (ext : ExtractedInvoice)
        (fraud : FraudAssessment) (pol : PolicyAssessment) :
  decision (decide ext fraud pol) = "APPROVE"
  <-> risk_level fraud <> "HIGH" /\ risk_level fraud <> "MEDIUM"
      /\ risk_score fraud < 0.4
      /\ violations pol = []
      /\ (List.length (warnings pol) <= 2)%nat
      /\ 0.75 <= confidence ext
      /\ approval_level pol <> "requires_director"
      /\ approval_level pol <> "requires_cfo"
      /\ approval_level pol <> "requires_board".
Proof.
  assert (Hv : (0 <? List.length (violations pol))%nat = false <-> violations pol = []).
  { destruct (violations pol); simpl; split; intro Hx;
      first [reflexivity | discriminate Hx]. }
  rewrite decide_decision, ladder_approve_bool, !orb_false_iff, Hv.
  rewrite !String.eqb_neq, !geb_false, ltb_false, Nat.ltb_ge.
  split.
  - intros ((Hh & H7) & Hvi & (Hm & H4) & (Hc & Hb) & Hw & Hconf & Hd).
    repeat split; assumption.
  - intros (Hh & Hm & H4 & Hvi & Hw & Hconf & Hd & Hc & Hb).
    repeat split; try assumption. lra.
Qed.

End Outcomes.

(** ** What the extractor returns *)

Section ExtractorFacts.
Import NLPAgent.

Lemma calculate_confidence_count (inv_num date vendor : option string) (amount : Q) :
  _calculate_confidence inv_num date vendor amount
  == 0.25 * inject_Z (Z.of_nat (Terms.found_fields inv_num date vendor amount)).
Proof.
  unfold _calculate_confidence, Terms.found_fields.
  assert (Hamt : negb (Qeq_bool amount 0) && Py.gtb amount 0 = Py.gtb amount 0).
  { destruct (Py.gtb amount 0) eqn:Eg; [|apply andb_false_r].
    apply gtb_true in Eg. rewrite andb_true_r.
    destruct (Qeq_bool amount 0) eqn:Ez; [|reflexivity].
    apply Qeq_bool_iff in Ez. lra. }
  rewrite Hamt.
  destruct (Py.truthy inv_num), (Py.truthy date), (Py.truthy vendor), (Py.gtb amount 0);
    vm_compute; reflexivity.
Qed.

Lemma found_fields_le_4 (inv_num date vendor : option string) (amount : Q) :
  (Terms.found_fields inv_num date vendor amount <= 4)%nat.
Proof.
  unfold Terms.found_fields.
  destruct (Py.truthy inv_num), (Py.truthy date), (Py.truthy vendor), (Py.gtb amount 0);
    simpl; lia.
Qed.

Section WithLibraries.
Context `{PyRegex} `{Spacy} `{PyFloat} `{PyDatetime}.

(** The dictionary [extract] builds on text that is not blank. *)
Lemma extract_not_blank (raw_text : string) :
  Props.blank raw_text = false ->
  exists v q,
    _extract_vendor raw_text = Ok v /\ _extract_total raw_text = Ok q
    /\ extract raw_text
       = Ok {| invoice_number := _extract_invoice_number raw_text;
               date := _extract_date raw_text;
               vendor := v;
               total_amount := q;
               currency := _detect_currency raw_text;
               po_number := _extract_po_number raw_text;
               tax_amount := _extract_tax raw_text;
               line_items := _extract_line_items raw_text;
               confidence :=
                 _calculate_confidence (_extract_invoice_number raw_text)
                                       (_extract_date raw_text) v q;
               status := "success";
               error := None |}.
Proof.
  intro Hb. destruct (extract_vendor_ok raw_text) as [v Ev].
  destruct (extract_total_ok raw_text) as [q Eq].
  exists v, q. split; [exact Ev|]. split; [exact Eq|].
  unfold extract. rewrite extract_guard, Hb, Ev, Eq. reflexivity.
Qed.

Lemma extract_blank (raw_text : string) :
  Props.blank raw_text = true -> extract raw_text = Ok (_empty_result "No text to process").
Proof. intro Hb. unfold extract. rewrite extract_guard, Hb. reflexivity. Qed.

(** X18. The confidence of an extraction is a quarter of the number of
    critical fields found (invoice number, date, vendor, positive total); it
    reaches the 0.75 the decision ladder asks for exactly when at least three
    of the four were found. *)
Theorem confidence_counts_found_fields (raw_text : string) :
  exists r : ExtractedInvoice,
    extract raw_text = Ok r
    /\ let found :=
         Terms.found_fields (invoice_number r) (date r) (vendor r) (total_amount r) in
       confidence r == 0.25 * inject_Z (Z.of_nat found)
       /\ (found <= 4)%nat
       /\ (0.75 <= confidence r <-> (3 <= found)%nat).
Proof.
  assert (Hgen : forall r,
             confidence r
             == 0.25 * inject_Z (Z.of_nat (Terms.found_fields (invoice_number r) (date r)
                                                              (vendor r) (total_amount r))) ->
             let found :=
               Terms.found_fields (invoice_number r) (date r) (vendor r) (total_amount r) in
             confidence r == 0.25 * inject_Z (Z.of_nat found)
             /\ (found <= 4)%nat
             /\ (0.75 <= confidence r <-> (3 <= found)%nat)).
  { intros r Hr found. subst found.
    pose proof (found_fields_le_4 (invoice_number r) (date r) (vendor r) (total_amount r))
      as Hle.
    split; [exact Hr|]. split; [exact Hle|].
    rewrite Hr.
    destruct (Terms.found_fields (invoice_number r) (date r) (vendor r) (total_amount r))
      as [|[|[|[|[|n]]]]]; try lia;
      (split; [intro Hq; vm_compute in Hq; first [lia | exfalso; apply Hq; reflexivity]
              | intro Hn; first [lia | vm_compute; discriminate]]). }
  destruct (Props.blank raw_text) eqn:Hb.
  - exists (_empty_result "No text to process").
    split; [apply extract_blank; exact Hb|]. apply Hgen. vm_compute. reflexivity.
  - destruct (extract_not_blank raw_text Hb) as (v & q & _ & _ & E).
    eexists. split; [exact E|]. apply Hgen. cbn [confidence invoice_number date vendor total_amount].
    apply calculate_confidence_count.
Qed.

Lemma detect_currency_allowed (text : string) :
  In (_detect_currency text) PolicyAgent.allowed_currencies.
Proof.
  unfold _detect_currency, PolicyAgent.allowed_currencies.
  repeat match goal with
         | |- context [if ?c then _ else _] => destruct c
         end; simpl; tauto.
Qed.

(** X19. The currency of every extraction is one of the seven codes the
    policy check accepts, so check 8 never warns about an extracted
    currency. *)
Theorem extracted_currency_is_accepted (raw_text : string) :
  exists r : ExtractedInvoice,
    extract raw_text = Ok r
    /\ In (currency r) PolicyAgent.allowed_currencies
    /\ existsb (String.eqb (currency r)) PolicyAgent.allowed_currencies = true.
Proof.
  assert (Hgen : forall c, In c PolicyAgent.allowed_currencies ->
                           existsb (String.eqb c) PolicyAgent.allowed_currencies = true).
  { intros c Hc. apply existsb_exists. exists c. split; [exact Hc | apply String.eqb_refl]. }
  destruct (Props.blank raw_text) eqn:Hb.
  - exists (_empty_result "No text to process").
    split; [apply extract_blank; exact Hb|].
    split; [left; reflexivity | reflexivity].
  - destruct (extract_not_blank raw_text Hb) as (v & q & _ & _ & E).
    eexists. split; [exact E|]. cbn [currency].
    split; [apply detect_currency_allowed | apply Hgen, detect_currency_allowed].
Qed.

End WithLibraries.

End ExtractorFacts.

(** ** The total when no labelled total is found *)

Section TotalFallback.
Import NLPAgent.

Lemma fold_max_spec (rest : list Q) (x : Q) :
  let m := fold_left (fun m y => if Py.gtb y m then y else m) rest x in
  In m (x :: rest) /\ x <= m /\ (forall y, In y rest -> y <= m).
Proof.
  revert x. induction rest as [|r rest IH]; intro x; cbv zeta.
  - cbn [fold_left]. split; [left; reflexivity|]. split; [apply Qle_refl | intros y []].
  - cbn [fold_left]. destruct (Py.gtb r x) eqn:E.
    + destruct (IH r) as (Hin & Hge & Hall). apply gtb_true in E.
      split; [right; exact Hin|]. split; [lra|].
      intros y [Hy | Hy]; [subst y; exact Hge | apply Hall; exact Hy].
    + destruct (IH x) as (Hin & Hge & Hall). apply gtb_false in E.
      split; [destruct Hin as [Hin | Hin]; [left; exact Hin | right; right; exact Hin]|].
      split; [exact Hge|].
      intros y [Hy | Hy]; [subst y; lra | apply Hall; exact Hy].
Qed.

Lemma py_max_spec (l : list Q) :
  l <> [] -> exists m, py_max l = Ok m /\ In m l /\ forall y, In y l -> y <= m.
Proof.
  destruct l as [|x rest]; [contradiction|]. intros _.
  destruct (fold_max_spec rest x) as (Hin & Hge & Hall).
  eexists. split; [reflexivity|]. split; [exact Hin|].
  intros y [Hy | Hy]; [subst y; exact Hge | apply Hall; exact Hy].
Qed.

Lemma cleaned_amounts_positive `{PyFloat} (amounts : list string) (x : Q) :
  In x (cleaned_amounts_of amounts) -> 0 < x.
Proof.
  induction amounts as [|a amounts IH]; [intros []|].
  cbn [cleaned_amounts_of].
  destruct (to_float _) as [cleaned|]; [|exact IH].
  destruct (Py.gtb cleaned 0) eqn:E; [|exact IH].
  intros [Hx | Hx]; [subst x; apply gtb_true; exact E | apply IH; exact Hx].
Qed.

(** X20. [_extract_total] always returns.  A labelled total that parses
    is returned as it is; otherwise the result is the largest of the positive
    amounts found anywhere in the text, and 0 when there is none: it is never
    negative and no amount found exceeds it. *)
Theorem total_fallback_is_largest_amount
        (rx : PyRegex) (fl : PyFloat) (text : string) :
  exists q,
    _extract_total text = Ok q
    /\ match _extract_total_loop patterns_total text with
       | Some labelled => q = labelled
       | None =>
           let found := cleaned_amounts_of (re_findall pattern_amount text) in
           0 <= q
           /\ (forall x, In x found -> 0 < x /\ x <= q)
           /\ (found = [] -> q = 0.0)
           /\ (found <> [] -> In q found)
       end.
Proof.
  unfold _extract_total.
  destruct (_extract_total_loop patterns_total text) as [labelled|].
  { exists labelled. split; reflexivity. }
  cbv zeta. destruct (re_findall pattern_amount text) as [|a amounts] eqn:Ef.
  { exists 0.0. split; [reflexivity|]. cbn [cleaned_amounts_of].
    split; [vm_compute; discriminate|]. split; [intros x []|].
    split; [reflexivity | contradiction]. }
  destruct (cleaned_amounts_of (a :: amounts)) as [|c cs] eqn:Ec.
  { exists 0.0. split; [reflexivity|].
    split; [vm_compute; discriminate|]. split; [intros x []|].
    split; [reflexivity | contradiction]. }
  destruct (py_max_spec (c :: cs)) as (m & Em & Hin & Hall); [discriminate|].
  exists m. split; [exact Em|].
  assert (Hpos : forall x, In x (c :: cs) -> 0 < x).
  { intros x Hx. rewrite <- Ec in Hx. apply (cleaned_amounts_positive _ _ Hx). }
  split; [apply Qlt_le_weak; apply Hpos; exact Hin|].
  split; [intros x Hx; split; [apply Hpos; exact Hx | apply Hall; exact Hx]|].
  split; [discriminate | intros _; exact Hin].
Qed.

End TotalFallback.

(** ** The vendor heuristic *)

Section VendorHeuristic.
Import NLPAgent.



End VendorHeuristic.

(** ** The pipeline *)

Section Pipeline.
Import FraudAgent PolicyAgent DecisionAgent.

(** X22. A policy assessment that is not compliant leads to REJECT,
    whatever the invoice and the fraud assessment. *)
Theorem non_compliant_is_rejected
        (fmt : PyFormat) (dt : PyDatetime) (now : Z) (data ext : ExtractedInvoice)
        (fraud : FraudAssessment) :
  compliant (check_compliance now data) = false ->
  decision (decide ext fraud (check_compliance now data)) = "REJECT".
Proof.
  intro Hc. rewrite compliant_by_violations in Hc.
  rewrite decide_decision. apply ladder_reject_bool.
  destruct (violations (check_compliance now data)); [discriminate Hc|].
  cbn [List.length Nat.ltb Nat.leb]. apply orb_true_r.
Qed.

Lemma non_compliant_is_rejected_witness :
  compliant (@check_compliance Sample.format Sample.datetime 0 Sample.invoice_round) = false
  /\ decision (@decide Sample.format Sample.invoice_round
                 (fst (@detect Sample.format FraudAgent.init Sample.invoice_round 0 0))
                 (@check_compliance Sample.format Sample.datetime 0 Sample.invoice_round))
     = "REJECT".
Proof.
  assert (Hc : compliant (@check_compliance Sample.format Sample.datetime 0
                                            Sample.invoice_round) = false)
    by (vm_compute; reflexivity).
  split; [exact Hc|].
  apply (non_compliant_is_rejected Sample.format Sample.datetime 0 Sample.invoice_round
           Sample.invoice_round _ Hc).
Defined.

Section Run.
Context `{PyFormat} `{PyDatetime} `{NLPAgent.PyRegex} `{NLPAgent.Spacy} `{NLPAgent.PyFloat}.

Lemma run_pipeline_after_extract (self : Orchestrator.t) (vr : Orchestrator.VisionResult)
      (t1 t2 t3 : Z) (e : ExtractedInvoice) :
  NLPAgent.extract (Orchestrator.raw_text vr) = NLPAgent.Ok e ->
  Orchestrator.run_pipeline self vr t1 t2 t3
  = NLPAgent.Ok
      ({| Orchestrator.ocr_text := Orchestrator.raw_text vr;
          Orchestrator.extraction := e;
          Orchestrator.fraud := fst (detect (Orchestrator.fraud_agent self) e t1 t2);
          Orchestrator.policy := check_compliance t3 e;
          Orchestrator.decision :=
            decide e (fst (detect (Orchestrator.fraud_agent self) e t1 t2))
                   (check_compliance t3 e) |},
       {| Orchestrator.fraud_agent :=
            snd (detect (Orchestrator.fraud_agent self) e t1 t2) |}).
Proof.
  intro E. unfold Orchestrator.run_pipeline. rewrite E. cbn [NLPAgent.bind].
  destruct (detect (Orchestrator.fraud_agent self) e t1 t2). reflexivity.
Qed.

End Run.

(** X23. The pipeline returns on every vision result: it raises nothing,
    reaches one of the three decisions, and leaves a ledger of at most 100
    entries that ends with the entry of the invoice just extracted, also when
    extraction reported an error. *)
Theorem pipeline_always_decides
        (fmt : PyFormat) (dt : PyDatetime) (rx : NLPAgent.PyRegex) (sp : NLPAgent.Spacy)
        (fl : NLPAgent.PyFloat)
        (self : Orchestrator.t) (vr : Orchestrator.VisionResult) (t1 t2 t3 : Z) :
  exists r self',
    Orchestrator.run_pipeline self vr t1 t2 t3 = NLPAgent.Ok (r, self')
    /\ NLPAgent.extract (Orchestrator.raw_text vr) = NLPAgent.Ok (Orchestrator.extraction r)
    /\ (decision (Orchestrator.decision r) = "APPROVE"
        \/ decision (Orchestrator.decision r) = "HOLD"
        \/ decision (Orchestrator.decision r) = "REJECT")
    /\ (List.length (processed_invoices (Orchestrator.fraud_agent self')) <= 100)%nat
    /\ exists kept,
        processed_invoices (Orchestrator.fraud_agent self')
        = (kept ++ [Props.entry_of (Orchestrator.extraction r) t2])%list.
Proof.
  assert (Hex : exists e, NLPAgent.extract (Orchestrator.raw_text vr) = NLPAgent.Ok e).
  { destruct (Props.blank (Orchestrator.raw_text vr)) eqn:Hb.
    - eexists. apply extract_blank. exact Hb.
    - destruct (extract_not_blank _ Hb) as (v & q & _ & _ & E). eexists. exact E. }
  destruct Hex as [e E].
  do 2 eexists. split; [apply run_pipeline_after_extract; exact E|].
  cbn [Orchestrator.extraction Orchestrator.decision Orchestrator.fraud_agent].
  split; [exact E|]. split; [|split].
  - rewrite decide_decision. unfold ladder.
    repeat match goal with
           | |- context [if ?c then _ else _] => destruct c
           end; cbn [fst]; tauto.
  - apply detect_ledger_bound.
  - rewrite detect_ledger_last_100. apply last_n_keeps_last. lia.
Qed.

(** X24. A document without recognised text (empty or blank, as after a
    failed recognition) is still scored and stored: the fraud score is 0.2 at
    level LOW for the four missing fields, the policy check is not compliant,
    the decision is REJECT with confidence 0.90, and the ledger receives an
    entry without invoice number or vendor. *)
Theorem blank_document_is_rejected
        (fmt : PyFormat) (dt : PyDatetime) (rx : NLPAgent.PyRegex) (sp : NLPAgent.Spacy)
        (fl : NLPAgent.PyFloat)
        (self : Orchestrator.t) (vr : Orchestrator.VisionResult) (t1 t2 t3 : Z) :
  Props.blank (Orchestrator.raw_text vr) = true ->
  exists r self',
    Orchestrator.run_pipeline self vr t1 t2 t3 = NLPAgent.Ok (r, self')
    /\ status (Orchestrator.extraction r) = "error"
    /\ risk_score (Orchestrator.fraud r) == 0.2
    /\ risk_level (Orchestrator.fraud r) = "LOW"
    /\ flags (Orchestrator.fraud r)
       = ["Missing critical fields: invoice_number, vendor, date, total_amount"]
    /\ compliant (Orchestrator.policy r) = false
    /\ decision (Orchestrator.decision r) = "REJECT"
    /\ d_confidence (Orchestrator.decision r) = 0.90
    /\ exists kept,
        processed_invoices (Orchestrator.fraud_agent self')
        = (kept ++ [{| e_invoice_number := None; e_vendor := None; e_amount := 0.0;
                       e_date := None; e_timestamp := t2 |}])%list.
Proof.
  intro Hb. do 2 eexists.
  split; [apply run_pipeline_after_extract; apply extract_blank; exact Hb|].
  cbn [Orchestrator.extraction Orchestrator.fraud Orchestrator.policy
       Orchestrator.decision Orchestrator.fraud_agent].
  split; [reflexivity|].
  split; [vm_compute; reflexivity|].
  split; [vm_compute; reflexivity|].
  split; [vm_compute; reflexivity|].
  split; [vm_compute; reflexivity|].
  split; [vm_compute; reflexivity|].
  split; [vm_compute; reflexivity|].
  rewrite detect_ledger_last_100. apply last_n_keeps_last. lia.
Qed.

Lemma blank_document_is_rejected_witness :
  Props.blank (Orchestrator.raw_text SampleLibs.vision_failed) = true
  /\ exists r self',
      @Orchestrator.run_pipeline Sample.format Sample.datetime SampleLibs.regex
        SampleLibs.spacy SampleLibs.float Orchestrator.init SampleLibs.vision_failed 0 0 0
      = NLPAgent.Ok (r, self')
      /\ decision (Orchestrator.decision r) = "REJECT"
      /\ d_confidence (Orchestrator.decision r) = 0.90.
Proof.
  split; [reflexivity|].
  destruct (blank_document_is_rejected Sample.format Sample.datetime SampleLibs.regex
              SampleLibs.spacy SampleLibs.float Orchestrator.init SampleLibs.vision_failed
              0 0 0 eq_refl)
    as (r & self' & E & _ & _ & _ & _ & _ & Hd & Hc & _).
  exists r, self'. split; [exact E|]. split; [exact Hd | exact Hc].
Defined.

End Pipeline.
